(** * Portfolio recommendation handler (handlers/stock-recommendation.py)

    A shallow embedding of the recommendation Lambda: the Python values it
    moves around, the JSON serializer it relies on, the boto3 calls as an
    explicit history of calls answered by an environment (logging is left
    out: it changes neither a result nor a call), and the classes
    [AWSServiceBase], [DataValidationMixin], [DynamoDBManager],
    [BedrockManager], [RecommendationManager], [StockAnalysisOrchestrator]
    and the entry point [lambda_handler]. *)

From Stdlib Require Import ZArith List String Ascii Bool Lia QArith Permutation.
From Stdlib Require Import DecimalString.
Import ListNotations.

Set Warnings "-register-all".

Close Scope Q_scope.

Local Open Scope string_scope.
Local Open Scope list_scope.

(** ** Python values *)

Module Py.

(** The values that flow through the handler.  A [str] is a sequence of code
    points; the model keeps the code points below 256, one per [ascii].
    A [float] is carried by its [repr] text and a [Decimal] by its literal:
    the handler never computes with either, it only converts and prints. *)
Inductive pyval : Type :=
| VNone
| VBool (b : bool)
| VInt (z : Z)
| VFloat (repr : string)
| VDecimal (text : string)
| VStr (s : string)
| VList (l : list pyval)
| VDict (d : list (string * pyval)).

(** A [dict] with [str] keys, in insertion order. *)
Definition Dict : Type := list (string * pyval).

Definition dq : ascii := "034"%char.
Definition bs : ascii := "092"%char.

Definition str1 (c : ascii) : string := String c EmptyString.

Fixpoint dict_get (k : string) (d : Dict) : option pyval :=
  match d with
  | [] => None
  | (k', v) :: d' => if String.eqb k k' then Some v else dict_get k d'
  end.

(** [d[k] = v]: overwrite in place when the key exists, append otherwise. *)
Fixpoint dict_set (k : string) (v : pyval) (d : Dict) : Dict :=
  match d with
  | [] => [(k, v)]
  | (k', v') :: d' =>
      if String.eqb k k' then (k', v) :: d' else (k', v') :: dict_set k v d'
  end.

Definition dict_keys (d : Dict) : list string := map fst d.
Definition dict_values (d : Dict) : list pyval := map snd d.

(** [needle in haystack] on two [str]. *)
Fixpoint str_contains (needle haystack : string) : bool :=
  if String.prefix needle haystack then true
  else match haystack with
       | EmptyString => false
       | String _ rest => str_contains needle rest
       end.

Definition string_of_Z (z : Z) : string :=
  NilZero.string_of_int (Z.to_int z).

Fixpoint all_chars (p : ascii -> bool) (s : string) : bool :=
  match s with
  | EmptyString => true
  | String c s' => p c && all_chars p s'
  end.

Fixpoint filter_chars (p : ascii -> bool) (s : string) : string :=
  match s with
  | EmptyString => EmptyString
  | String c s' =>
      if p c then String c (filter_chars p s') else filter_chars p s'
  end.

Definition is_ascii_digit (c : ascii) : bool :=
  let n := nat_of_ascii c in (48 <=? n)%nat && (n <=? 57)%nat.

(** The mantissa of a Decimal literal: sign dropped, exponent dropped. *)
Fixpoint before_exponent (s : string) : string :=
  match s with
  | EmptyString => EmptyString
  | String c s' =>
      if Ascii.eqb c "e" || Ascii.eqb c "E" then EmptyString
      else String c (before_exponent s')
  end.

Definition decimal_is_zero (text : string) : bool :=
  let digits := filter_chars is_ascii_digit (before_exponent text) in
  negb (String.eqb digits EmptyString)
  && all_chars (fun c => Ascii.eqb c "0") digits.

(** [bool(v)]. *)
Definition truthy (v : pyval) : bool :=
  match v with
  | VNone => false
  | VBool b => b
  | VInt z => negb (Z.eqb z 0)
  | VFloat r => negb (String.eqb r "0.0" || String.eqb r "-0.0")
  | VDecimal t => negb (decimal_is_zero t)
  | VStr s => negb (String.eqb s EmptyString)
  | VList l => match l with [] => false | _ => true end
  | VDict d => match d with [] => false | _ => true end
  end.

Definition dict_truthy (d : Dict) : bool :=
  match d with [] => false | _ => true end.

End Py.
Export Py.

(** ** json.dumps *)

Module Json.

Local Open Scope string_scope.

Definition hex_digit (n : nat) : ascii :=
  match String.get n "0123456789abcdef" with
  | Some c => c
  | None => "0"%char
  end.

(** [py_encode_basestring_ascii]: the named escapes, and a [\u00XX] escape
    for everything outside the printable range [' ' .. '~']. *)
Definition escape_char (c : ascii) : string :=
  let n := nat_of_ascii c in
  if (n =? 34)%nat then String bs (str1 dq)
  else if (n =? 92)%nat then String bs (str1 bs)
  else if (n =? 10)%nat then String bs "n"
  else if (n =? 13)%nat then String bs "r"
  else if (n =? 9)%nat then String bs "t"
  else if (n =? 8)%nat then String bs "b"
  else if (n =? 12)%nat then String bs "f"
  else if ((32 <=? n) && (n <=? 126))%nat then str1 c
  else String bs ("u00" ++ String (hex_digit (n / 16)) (str1 (hex_digit (n mod 16)))).

Fixpoint escape_string (s : string) : string :=
  match s with
  | EmptyString => EmptyString
  | String c s' => escape_char c ++ escape_string s'
  end.

Definition dumps_str (s : string) : string :=
  String dq (escape_string s ++ str1 dq).

(** [float.__repr__], except that the three non-finite values have names of
    their own in JSON text. *)
Definition dumps_float (repr : string) : string :=
  if String.eqb repr "nan" then "NaN"
  else if String.eqb repr "inf" then "Infinity"
  else if String.eqb repr "-inf" then "-Infinity"
  else repr.

(** Items joined by [", "]; [None] as soon as one item does not serialize. *)
Fixpoint join_items (parts : list (option string)) : option string :=
  match parts with
  | [] => Some EmptyString
  | [p] => p
  | p :: rest =>
      match p, join_items rest with
      | Some a, Some b => Some (a ++ ", " ++ b)
      | _, _ => None
      end
  end.

Definition bracket (l r : string) (body : option string) : option string :=
  match body with
  | Some b => Some (l ++ b ++ r)
  | None => None
  end.

(** [json.dumps(v)] with the default separators.  A [Decimal] is not
    serializable: the result is [None] (Python raises [TypeError]) unless
    [default_str] is set, which stands for [default=str]. *)
Fixpoint dumps_with (default_str : bool) (v : pyval) : option string :=
  match v with
  | VNone => Some "null"
  | VBool true => Some "true"
  | VBool false => Some "false"
  | VInt z => Some (string_of_Z z)
  | VFloat r => Some (dumps_float r)
  | VDecimal t => if default_str then Some (dumps_str t) else None
  | VStr s => Some (dumps_str s)
  | VList l =>
      bracket "[" "]" (join_items (map (dumps_with default_str) l))
  | VDict d =>
      bracket "{" "}"
        (join_items
           (map (fun kv =>
                   match dumps_with default_str (snd kv) with
                   | Some s => Some (dumps_str (fst kv) ++ ": " ++ s)
                   | None => None
                   end) d))
  end.

Definition dumps : pyval -> option string := dumps_with false.

End Json.

Example dumps_small :
  Json.dumps (VDict [("a", VInt 0); ("b", VList [VStr "x"; VNone; VBool true])])
  = Some (String "{" (String dq ("a" ++ String dq (": 0, " ++ String dq ("b"
          ++ String dq (": [" ++ String dq ("x" ++ String dq ", null, true]}")))))))%string.
Proof. reflexivity. Qed.

(** ** Exceptions, results and the calls made to AWS *)

(** [ClientError] carries [e.response['Error']['Code']] and [str(e)]; every
    other exception is kept by class name and [str(e)]. *)
Inductive exn : Type :=
| ClientError (code : string) (message : string)
| PyError (cls : string) (message : string).

Definition str_exn (e : exn) : string :=
  match e with
  | ClientError _ m => m
  | PyError _ m => m
  end.

(** What a pure computation or one external call gives back. *)
Inductive result (A : Type) : Type :=
| Return (a : A)
| Error (e : exn).
Arguments Return {A} a.
Arguments Error {A} e.

Definition rbind {A B} (r : result A) (k : A -> result B) : result B :=
  match r with
  | Return a => k a
  | Error e => Error e
  end.

Record ScanParams : Type := {
  ProjectionExpression : option string;
  Limit : option Z;
  ConsistentRead : bool;
  ExclusiveStartKey : option Dict
}.

Record ScanReply : Type := {
  scan_Items : option (list Dict);
  LastEvaluatedKey : option Dict
}.

Record QueryReply : Type := { query_Items : option (list Dict) }.

Record BatchReply : Type := {
  Responses : option (list (string * list Dict))
}.

Record InvokeReply : Type := { reply_body : option string }.

Record UpdateParams : Type := {
  Key : Dict;
  UpdateExpression : string;
  ExpressionAttributeValues : Dict;
  ExpressionAttributeNames : Dict
}.

(** One entry per call that leaves the process, in the order made. *)
Inductive call : Type :=
| Scan (table : string) (params : ScanParams)
| Query (table : string) (stockId : string)
| BatchGetItem (table : string) (keys : list string)
| UpdateItem (table : string) (params : UpdateParams)
| InvokeModel (request : string) (modelId : string)
| Now
| Sleep (seconds : Q).

Definition history : Type := list call.

(** [CONFIG['bedrock']] without the prompt templates, as read from the
    process environment when the module is loaded; the two floats by their
    [repr]. *)
Record BedrockConfig : Type := {
  model_id : string;
  max_tokens : Z;
  temperature : string;
  top_p : string
}.

(** The world outside the handler.  Every service answers a call knowing
    all the calls made before it, so a reply may depend on anything that
    happened earlier in the run; quantifying over [Env] covers every
    behaviour of the stores, of the model endpoint and of the clock.
    The remaining fields are the configuration and the library functions
    the handler calls and whose code is not part of it: the JSON parser
    ([None] for [JSONDecodeError]), whether the [Decimal] constructor takes
    a literal, [float(Decimal)] ([None] when it raises), the order in which
    a [set] is listed, the number of nested calls the interpreter allows,
    and the two prompt templates as rendered by [str.format] over
    [json.dumps(..., indent=2)]. *)
Record Env : Type := {
  table_scan : history -> string -> ScanParams -> result ScanReply;
  table_query : history -> string -> string -> result QueryReply;
  batch_get_item : history -> string -> list string -> result BatchReply;
  table_update_item : history -> string -> UpdateParams -> result unit;
  invoke_model : history -> string -> string -> result InvokeReply;
  datetime_now : history -> string;
  bedrock_config : BedrockConfig;
  json_loads : string -> option pyval;
  Decimal_accepts : string -> bool;
  float_of_Decimal : string -> option string;
  set_order : list string -> list string;
  recursion_limit : nat;
  build_analysis_prompt : pyval -> result string;
  analyze_portfolio_bias_prompt : pyval -> result string
}.

(** ** The state-and-exception monad of the handler *)

(** [risk_profile_cache] is [DynamoDBManager._risk_profile]. *)
Record State : Type := {
  calls : history;
  risk_profile_cache : option Dict
}.

(** [Diverge]: the computation does not come back (a loop that never ends);
    no [except] clause sees it. *)
Inductive outcome (A : Type) : Type :=
| Ok (a : A)
| Raise (e : exn)
| Diverge.
Arguments Ok {A} a.
Arguments Raise {A} e.
Arguments Diverge {A}.

Definition M (A : Type) : Type := State -> State * outcome A.

Definition ret {A} (a : A) : M A := fun st => (st, Ok a).
Definition raise {A} (e : exn) : M A := fun st => (st, Raise e).

Definition bind {A B} (m : M A) (k : A -> M B) : M B :=
  fun st =>
    match m st with
    | (st', Ok a) => k a st'
    | (st', Raise e) => (st', Raise e)
    | (st', Diverge) => (st', Diverge)
    end.

Definition lift {A} (r : result A) : M A :=
  match r with
  | Return a => ret a
  | Error e => raise e
  end.

(** [try: m  except Exception as e: handler e]. *)
Definition try_except {A} (m : M A) (handler : exn -> M A) : M A :=
  fun st =>
    match m st with
    | (st', Raise e) => handler e st'
    | r => r
    end.

Declare Scope py_scope.
Delimit Scope py_scope with py.
Notation "x <- m ;; k" := (bind m (fun x => k))
  (at level 100, m at next level, right associativity) : py_scope.
Notation "m ;;; k" := (bind m (fun _ => k))
  (at level 100, right associativity) : py_scope.
Notation "x <~ r ;; k" := (rbind r (fun x => k))
  (at level 100, r at next level, right associativity) : py_scope.
Local Open Scope py_scope.

Definition record_call (c : call) (st : State) : State :=
  {| calls := calls st ++ [c]; risk_profile_cache := risk_profile_cache st |}.

(** An external call: answered from the history so far, then recorded. *)
Definition external {A} (c : call) (answer : history -> result A) : M A :=
  fun st =>
    (record_call c st,
     match answer (calls st) with
     | Return a => Ok a
     | Error e => Raise e
     end).

Definition sleep (seconds : Q) : M unit :=
  fun st => (record_call (Sleep seconds) st, Ok tt).

Definition mem_str (s : string) (l : list string) : bool :=
  existsb (String.eqb s) l.

(** ** class AWSServiceBase *)

Module AWSServiceBase.

Definition MAX_RETRIES : nat := 4.
Definition BASE_DELAY : Q := (3 # 4)%Q.

(** [self.BASE_DELAY * (2 ** retry_count)]: a dyadic value, exact in binary
    floating point, kept in lowest terms. *)
Definition wait_time (retry_count : nat) : Q :=
  Qred (BASE_DELAY * inject_Z (2 ^ Z.of_nat retry_count))%Q.

Definition max_retries_exceeded : exn :=
  PyError "Exception"
    ("Max retries (" ++ string_of_Z (Z.of_nat MAX_RETRIES) ++ ") exceeded")%string.

Definition default_retryable_errors : list string :=
  ["ProvisionedThroughputExceededException"; "ThrottlingException"].

(** The [while retry_count < self.MAX_RETRIES] loop of [wrapper], with
    [remaining = MAX_RETRIES - retry_count]: the loop test is
    [remaining <> 0] and [continue] goes on with one less. *)
Fixpoint wrapper_loop {A} (retryable_errors : list string) (func : M A)
    (remaining : nat) : M A :=
  match remaining with
  | O => raise max_retries_exceeded
  | S remaining' =>
      let retry_count := (MAX_RETRIES - remaining)%nat in
      try_except func
        (fun e =>
           match e with
           | ClientError error_code _ =>
               if mem_str error_code retryable_errors
                  && (retry_count <? MAX_RETRIES)%nat
               then
                 let retry_count := S retry_count in
                 sleep (wait_time retry_count) ;;;
                 wrapper_loop retryable_errors func remaining'
               else raise e
           | _ => raise e
           end)
  end.

Definition retry_with_backoff {A} (retryable_errors : option (list string))
    (func : M A) : M A :=
  let retryable_errors :=
    match retryable_errors with
    | None => default_retryable_errors
    | Some l => l
    end in
  wrapper_loop retryable_errors func MAX_RETRIES.

End AWSServiceBase.

(** ** Binary floating point, as far as [int(len(prompt) * 0.7)] needs it *)

Module Float.

Local Open Scope Z_scope.

(** A non-negative double [m * 2^e] with [m < 2^53] (or [m = 2^53] right
    after a carry). *)
Definition fl : Type := (Z * Z)%type.

(** [N / 2^shift] rounded to nearest, ties to even. *)
Definition rne_shift (N shift : Z) : Z :=
  let q := Z.shiftr N shift in
  let r := N - Z.shiftl q shift in
  let half := Z.shiftl 1 (shift - 1) in
  if (half <? r) || ((r =? half) && Z.odd q) then q + 1 else q.

(** Rounding of the exact value [N * 2^e] to 53 significant bits. *)
Definition round53 (N e : Z) : fl :=
  let bits := if N =? 0 then 0 else Z.log2 N + 1 in
  if bits <=? 53 then (N, e)
  else let shift := bits - 53 in (rne_shift N shift, e + shift).

Definition of_int (n : Z) : fl := round53 n 0.

Definition mul (x y : fl) : fl :=
  round53 (fst x * fst y) (snd x + snd y).

(** [int(x)] for [x >= 0]: truncation. *)
Definition to_int (x : fl) : Z :=
  if 0 <=? snd x then Z.shiftl (fst x) (snd x)
  else Z.shiftr (fst x) (- snd x).

(** The double nearest to 0.7: [0x16666666666666 * 2^-53]. *)
Definition c0_7 : fl := (6305039478318694, -53).

(** [int(n * 0.7)]. *)
Definition int_mul_0_7 (n : Z) : Z := to_int (mul (of_int n) c0_7).

End Float.

Example int_mul_0_7_samples :
  map Float.int_mul_0_7 [0; 1; 2; 3; 10; 20; 90; 100; 1000]%Z
  = [0; 0; 1; 2; 7; 14; 62; 70; 700]%Z.
Proof. reflexivity. Qed.

(** ** CONFIG *)

Module CONFIG.
Definition stock_ids_table : string := "portfolio".
Definition risk_profile : string := "portfolioprofile".
Definition fundamentals_table : string := "portfolio_stock_fundamentals".
Definition technicals_table : string := "portfolio_stock_trend".
Definition earnings_table : string := "portfolio_earnings".
Definition recommendations_table : string := "portfolio_recommendation".
Definition portfolio_bias : string := "portfolio_bias".
Definition api_delay : Q := (1 # 10)%Q.
End CONFIG.

(** ** Subscripts and membership on parsed JSON *)

Definition type_error (m : string) : exn := PyError "TypeError" m.
Definition key_error (k : string) : exn :=
  PyError "KeyError" (String "'" (k ++ "'"))%string.

(** [k in data]. *)
Definition py_in (k : string) (data : pyval) : result bool :=
  match data with
  | VDict d => Return (match dict_get k d with Some _ => true | None => false end)
  | VList l =>
      Return (existsb (fun v => match v with
                                | VStr s => String.eqb k s
                                | _ => false
                                end) l)
  | VStr s => Return (str_contains k s)
  | _ => Error (type_error "argument is not iterable")
  end.

(** [data[k]] for a [str] subscript. *)
Definition py_getitem (data : pyval) (k : string) : result pyval :=
  match data with
  | VDict d =>
      match dict_get k d with
      | Some v => Return v
      | None => Error (key_error k)
      end
  | VList _ => Error (type_error "list indices must be integers or slices, not str")
  | VStr _ => Error (type_error "string indices must be integers, not 'str'")
  | _ => Error (type_error "object is not subscriptable")
  end.

(** [data[0]]. *)
Definition py_getitem0 (data : pyval) : result pyval :=
  match data with
  | VList (x :: _) => Return x
  | VList [] => Error (PyError "IndexError" "list index out of range")
  | VStr (String c _) => Return (VStr (str1 c))
  | VStr EmptyString => Error (PyError "IndexError" "string index out of range")
  | VDict _ => Error (PyError "KeyError" "0")
  | _ => Error (type_error "object is not subscriptable")
  end.

Definition is_None (v : pyval) : bool :=
  match v with VNone => true | _ => false end.

(** [item['stockId']].  The tables declare [stockId] as their string key;
    an item that breaks the schema is an error in the model. *)
Definition item_stockId (item : Dict) : result string :=
  match dict_get "stockId" item with
  | Some (VStr s) => Return s
  | Some _ => Error (type_error "stockId is not a string")
  | None => Error (key_error "stockId")
  end.

Fixpoint map_result {A B} (f : A -> result B) (l : list A) : result (list B) :=
  match l with
  | [] => Return []
  | x :: l' =>
      y <~ f x ;;
      ys <~ map_result f l' ;;
      Return (y :: ys)
  end.

(** ** class DataValidationMixin *)

Module DataValidationMixin.

(** [all(field in data and data[field] is not None for field in ...)]. *)
Fixpoint validate_required_fields (data : pyval) (required_fields : list string)
  : result bool :=
  match required_fields with
  | [] => Return true
  | field :: rest =>
      present <~ py_in field data ;;
      if present then
        v <~ py_getitem data field ;;
        if is_None v then Return false
        else validate_required_fields data rest
      else Return false
  end.

(** [str.isdigit] on code points below 256: the ten ASCII digits and the
    superscripts 1, 2, 3; false on the empty string. *)
Definition isdigit_char (c : ascii) : bool :=
  let n := nat_of_ascii c in
  is_ascii_digit c || (n =? 178)%nat || (n =? 179)%nat || (n =? 185)%nat.

Definition isdigit (s : string) : bool :=
  negb (String.eqb s EmptyString) && all_chars isdigit_char s.

Definition remove_dots (s : string) : string :=
  filter_chars (fun c => negb (Ascii.eqb c ".")) s.

(** [v is not None and v != ""]. *)
Definition kept (v : pyval) : bool :=
  match v with
  | VNone => false
  | VStr s => negb (String.eqb s EmptyString)
  | _ => true
  end.

Section WithEnv.
Variable env : Env.

Definition to_Decimal (s : string) : result pyval :=
  if Decimal_accepts env s then Return (VDecimal s)
  else Error (PyError "InvalidOperation" "[<class 'decimal.ConversionSyntax'>]").

Fixpoint sanitize_loop (items : Dict) : result Dict :=
  match items with
  | [] => Return []
  | (key, value) :: rest =>
      value' <~ match value with
                | VStr s => if isdigit (remove_dots s) then to_Decimal s
                            else Return value
                | _ => Return value
                end ;;
      rest' <~ sanitize_loop rest ;;
      Return ((key, value') :: rest')
  end.

Definition sanitize_data (data : Dict) : result Dict :=
  let sanitized := filter (fun kv => kept (snd kv)) data in
  sanitize_loop sanitized.

End WithEnv.

End DataValidationMixin.

(** ** class DynamoDBManager *)

Module DynamoDBManager.

Definition BATCH_SIZE : nat := 100.

Section WithEnv.
Variable env : Env.

Definition scan (table : string) (params : ScanParams) : M ScanReply :=
  external (Scan table params) (fun h => table_scan env h table params).

Definition items_or_empty (items : option (list Dict)) : list Dict :=
  match items with Some l => l | None => [] end.

Definition _fetch_risk_profile : M (option Dict) :=
  response <- scan CONFIG.risk_profile
                {| ProjectionExpression := None; Limit := Some 1%Z;
                   ConsistentRead := true; ExclusiveStartKey := None |} ;;
  let items := items_or_empty (scan_Items response) in
  ret (match items with
       | item :: _ => Some item
       | [] => None
       end).

Definition set_risk_profile (v : option Dict) : M unit :=
  fun st => ({| calls := calls st; risk_profile_cache := v |}, Ok tt).

(** The [risk_profile] property: fetched while the cached value is [None]. *)
Definition risk_profile : M (option Dict) :=
  fun st =>
    match risk_profile_cache st with
    | None =>
        (fetched <- _fetch_risk_profile ;;
         set_risk_profile fetched ;;;
         ret fetched) st
    | Some profile => (st, Ok (Some profile))
    end.

Definition cursor (last_evaluated_key : option Dict) : option Dict :=
  match last_evaluated_key with
  | Some k => if dict_truthy k then Some k else None
  | None => None
  end.

(** The parameters of one page read: [ExclusiveStartKey] is only set when
    [last_evaluated_key] is truthy. *)
Definition scan_params (last_evaluated_key : option Dict) : ScanParams :=
  {| ProjectionExpression := Some "stockId"; Limit := None;
     ConsistentRead := true;
     ExclusiveStartKey := cursor last_evaluated_key |}.

(** The [while True] loop of [get_stock_ids]; [fuel] bounds the number of
    pages read, and running out of it is [Diverge]. *)
Fixpoint scan_loop (fuel : nat) (table_name : string) (stock_ids : list string)
    (last_evaluated_key : option Dict) : M (list string) :=
  match fuel with
  | O => fun st => (st, Diverge)
  | S fuel' =>
      response <- scan table_name (scan_params last_evaluated_key) ;;
      ids <- lift (map_result item_stockId (items_or_empty (scan_Items response))) ;;
      let stock_ids := stock_ids ++ ids in
      let last_evaluated_key := LastEvaluatedKey response in
      match cursor last_evaluated_key with
      | None => ret stock_ids
      | Some _ => scan_loop fuel' table_name stock_ids last_evaluated_key
      end
  end.

(** [list(set(stock_ids))] lists the set in the interpreter's order. *)
Definition get_stock_ids (fuel : nat) (table_name : string) : M (list string) :=
  stock_ids <- scan_loop fuel table_name [] None ;;
  ret (set_order env stock_ids).

Definition get_stock_data (table_name stock_id : string) : M (option Dict) :=
  response <- external (Query table_name stock_id)
                (fun h => table_query env h table_name stock_id) ;;
  match items_or_empty (query_Items response) with
  | item :: _ =>
      sanitized <- lift (DataValidationMixin.sanitize_data env item) ;;
      ret (Some sanitized)
  | [] => ret None
  end.

(** [range(0, len(stock_ids), BATCH_SIZE)]. *)
Definition batch_starts (n : nat) : list nat :=
  map (fun k => (k * BATCH_SIZE)%nat) (seq 0 ((n + BATCH_SIZE - 1) / BATCH_SIZE)).

(** [results[item['stockId']] = self.sanitize_data(item)], the right-hand
    side first. *)
Fixpoint store_items (items : list Dict) (results : Dict) : result Dict :=
  match items with
  | [] => Return results
  | item :: rest =>
      value <~ DataValidationMixin.sanitize_data env item ;;
      key <~ item_stockId item ;;
      store_items rest (dict_set key (VDict value) results)
  end.

Fixpoint batch_loop (table_name : string) (stock_ids : list string)
    (starts : list nat) (results : Dict) : M Dict :=
  match starts with
  | [] => ret results
  | i :: starts' =>
      let batch := firstn BATCH_SIZE (skipn i stock_ids) in
      response <- external (BatchGetItem table_name batch)
                    (fun h => batch_get_item env h table_name batch) ;;
      match Responses response with
      | None => raise (key_error "Responses")
      | Some by_table =>
          let items :=
            match find (fun p => String.eqb table_name (fst p)) by_table with
            | Some p => snd p
            | None => []
            end in
          results <- lift (store_items items results) ;;
          batch_loop table_name stock_ids starts' results
      end
  end.

Definition batch_get_stock_data (table_name : string) (stock_ids : list string)
  : M Dict :=
  batch_loop table_name stock_ids (batch_starts (List.length stock_ids)) [].

End WithEnv.

End DynamoDBManager.

(** [json.dumps] and [json.loads] as the handler sees them. *)
Definition json_dumps (default_str : bool) (v : pyval) : result string :=
  match Json.dumps_with default_str v with
  | Some s => Return s
  | None => Error (type_error "Object of type Decimal is not JSON serializable")
  end.

Definition loads (env : Env) (s : string) : result pyval :=
  match json_loads env s with
  | Some v => Return v
  | None => Error (PyError "JSONDecodeError" "Expecting value")
  end.

(** [datetime.now().isoformat()]. *)
Definition now_isoformat (env : Env) : M string :=
  external Now (fun h => Return (datetime_now env h)).

(** ** class BedrockManager *)

Module BedrockManager.

Import AWSServiceBase.

Record t : Type := {
  MAX_TOKENS : Z;
  CHUNK_SIZE : nat
}.

Definition __init__ : t := {| MAX_TOKENS := 2000; CHUNK_SIZE := 1500 |}.

Definition retryable_bedrock_errors : list string :=
  ["ThrottlingException"; "ModelTimeoutException"; "ServiceQuotaExceededException"].

Definition recursion_error : exn :=
  PyError "RecursionError" "maximum recursion depth exceeded".

(** [prompt[:int(len(prompt) * 0.7)]]. *)
Definition truncate_prompt (prompt : string) : string :=
  substring 0
    (Z.to_nat (Float.int_mul_0_7 (Z.of_nat (String.length prompt)))) prompt.

Section WithEnv.
Variable env : Env.
Variable self : t.

(** The body of the [for key, value in data.items()] loop, then the final
    flush of [current_chunk]. *)
Fixpoint chunk_loop (items : Dict) (chunks : list Dict) (current_chunk : Dict)
    (current_size : nat) : result (list Dict) :=
  match items with
  | [] =>
      Return (if dict_truthy current_chunk then chunks ++ [current_chunk]
              else chunks)
  | (key, value) :: rest =>
      value_str <~ json_dumps false value ;;
      sized <~ (if (CHUNK_SIZE self <? String.length value_str)%nat then
                  let value_str :=
                    (substring 0 (CHUNK_SIZE self) value_str ++ "...")%string in
                  value <~ loads env value_str ;;
                  Return (value_str, value)
                else Return (value_str, value)) ;;
      let value_str := fst sized in
      let value := snd sized in
      if (CHUNK_SIZE self <? current_size + String.length value_str)%nat then
        chunk_loop rest (chunks ++ [current_chunk])
          (dict_set key value []) (0 + String.length value_str)
      else
        chunk_loop rest chunks
          (dict_set key value current_chunk)
          (current_size + String.length value_str)
  end.

Definition chunk_data (data : Dict) : result (list Dict) :=
  chunk_loop data [] [] 0.

(** The dictionary handed to [json.dumps] for one request. *)
Definition request_body (prompt : string) : pyval :=
  let max_tokens := max_tokens (bedrock_config env) in
  let temperature := temperature (bedrock_config env) in
  let top_p := top_p (bedrock_config env) in
  VDict
    [("inferenceConfig",
      VDict [("max_new_tokens", VInt (Z.min max_tokens (MAX_TOKENS self)));
             ("temperature", VFloat temperature);
             ("top_p", VFloat top_p)]);
     ("messages",
      VList [VDict [("role", VStr "user");
                    ("content", VList [VDict [("text", VStr prompt)]])]])].

(** The [try] block of [get_inference]: one request, and the parsing of its
    answer. *)
Definition attempt (prompt model_id : string) : M pyval :=
  body <- lift (json_dumps false (request_body prompt)) ;;
  response <- external (InvokeModel body model_id)
                (fun h => invoke_model env h body model_id) ;;
  raw <- lift (match reply_body response with
               | Some b => Return b
               | None => Error (PyError "AttributeError"
                                  "'NoneType' object has no attribute 'read'")
               end) ;;
  lift (response_body <~ loads env raw ;;
        output <~ py_getitem response_body "output" ;;
        message <~ py_getitem output "message" ;;
        content <~ py_getitem message "content" ;;
        first <~ py_getitem0 content ;;
        text <~ py_getitem first "text" ;;
        match text with
        | VStr t => loads env t
        | _ => Error (type_error "the JSON object must be str, bytes or bytearray")
        end).

(** [CONFIG['bedrock']['model_id']]. *)
Definition default_model_id : string := model_id (bedrock_config env).

Definition is_token_limit (e : exn) : bool :=
  match e with
  | ClientError error_code _ =>
      String.eqb error_code "ValidationException"
      && str_contains "token limit exceeded" (str_exn e)
  | _ => false
  end.

(** The [while retry_count < self.MAX_RETRIES] loop of [get_inference], with
    [remaining = MAX_RETRIES - retry_count]; [recurse] is the call
    [self.get_inference(truncated_prompt, model_id)] made from the
    [except ClientError] clause. *)
Fixpoint inference_loop (recurse : M pyval) (prompt model_id : string)
    (remaining : nat) : M pyval :=
  match remaining with
  | O => raise max_retries_exceeded
  | S remaining' =>
      let retry_count := (MAX_RETRIES - remaining)%nat in
      try_except (attempt prompt model_id)
        (fun e =>
           match e with
           | ClientError error_code _ =>
               if is_token_limit e then recurse
               else if mem_str error_code retryable_bedrock_errors
                       && (retry_count <? MAX_RETRIES)%nat
               then
                 let retry_count := S retry_count in
                 sleep (wait_time retry_count) ;;;
                 inference_loop recurse prompt model_id remaining'
               else raise e
           | _ => raise e
           end)
  end.

Definition or_default (model_id : option string) : string :=
  match model_id with
  | Some m => if String.eqb m EmptyString then default_model_id else m
  | None => default_model_id
  end.

(** [depth] is the number of nested calls the interpreter still allows:
    at zero the call raises [RecursionError]. *)
Fixpoint get_inference (depth : nat) (prompt : string) (model_id : option string)
  : M pyval :=
  match depth with
  | O => raise recursion_error
  | S depth' =>
      let model_id := or_default model_id in
      let truncated_prompt := truncate_prompt prompt in
      inference_loop (get_inference depth' truncated_prompt (Some model_id))
        prompt model_id MAX_RETRIES
  end.

End WithEnv.

End BedrockManager.

(** ** class RecommendationManager *)

Module RecommendationManager.

(** [str(v)] for the scalars; the [str] of a list or of a dict is never
    needed beyond its first character, a bracket. *)
Definition py_str_scalar (v : pyval) : option string :=
  match v with
  | VNone => Some "None"
  | VBool true => Some "True"
  | VBool false => Some "False"
  | VInt z => Some (string_of_Z z)
  | VFloat r => Some r
  | VDecimal t => Some t
  | VStr s => Some s
  | VList _ => None
  | VDict _ => None
  end.

Definition invalid_recommendation : exn :=
  PyError "ValueError" "Invalid recommendation data".
Definition invalid_bias : exn :=
  PyError "ValueError" "Invalid bias data".

Section WithEnv.
Variable env : Env.

(** [Decimal(str(v))]: no Decimal literal starts with a bracket. *)
Definition Decimal_of_str (v : pyval) : result pyval :=
  match py_str_scalar v with
  | Some s => DataValidationMixin.to_Decimal env s
  | None => Error (PyError "InvalidOperation" "[<class 'decimal.ConversionSyntax'>]")
  end.

Definition update_item (table : string) (params : UpdateParams) : M unit :=
  external (UpdateItem table params)
    (fun h => table_update_item env h table params).

Definition store_recommendation (table_name stock_id : string)
    (recommendation : pyval) : M bool :=
  valid <- lift (DataValidationMixin.validate_required_fields recommendation
                   ["recommendation"; "confidence_score"; "reasoning"]) ;;
  if negb valid then raise invalid_recommendation
  else
    r <- lift (py_getitem recommendation "recommendation") ;;
    c <- lift (score <~ py_getitem recommendation "confidence_score" ;;
               Decimal_of_str score) ;;
    s <- lift (py_getitem recommendation "reasoning") ;;
    t <- now_isoformat env ;;
    update_item table_name
      {| Key := [("stockId", VStr stock_id)];
         UpdateExpression :=
           "SET recommendation = :r, confidence_score = :c, reasoning = :s, #ts = :t";
         ExpressionAttributeValues :=
           [(":r", r); (":c", c); (":s", s); (":t", VStr t)];
         ExpressionAttributeNames := [("#ts", VStr "timestamp")] |} ;;;
    ret true.

(** [items[0]['userId'] if items else "user-default"]. *)
Definition user_id_of (items : list Dict) : result pyval :=
  match items with
  | item :: _ => py_getitem (VDict item) "userId"
  | [] => Return (VStr "user-default")
  end.

Definition limit_one : ScanParams :=
  {| ProjectionExpression := None; Limit := Some 1%Z;
     ConsistentRead := true; ExclusiveStartKey := None |}.

Definition store_bias_details (table_name : string) (bias : pyval) : M bool :=
  valid <- lift (DataValidationMixin.validate_required_fields bias
                   ["bias_score"; "volatility_risk"; "sector_concentration";
                    "recommendation"]) ;;
  if negb valid then raise invalid_bias
  else
    response <- DynamoDBManager.scan env CONFIG.risk_profile limit_one ;;
    let items := DynamoDBManager.items_or_empty (scan_Items response) in
    user_id <- lift (user_id_of items) ;;
    b <- lift (py_getitem bias "bias_score") ;;
    v <- lift (py_getitem bias "volatility_risk") ;;
    s <- lift (py_getitem bias "sector_concentration") ;;
    r <- lift (py_getitem bias "recommendation") ;;
    t <- now_isoformat env ;;
    update_item table_name
      {| Key := [("userId", user_id)];
         UpdateExpression :=
           "SET bias_score = :b, volatility_risk = :v, sector_concentration = :s, recommendation = :r, #ts = :t";
         ExpressionAttributeValues :=
           [(":b", b); (":v", v); (":s", s); (":r", r); (":t", VStr t)];
         ExpressionAttributeNames := [("#ts", VStr "timestamp")] |} ;;;
    ret true.

End WithEnv.

End RecommendationManager.

(** ** class StockAnalysisOrchestrator *)

Module StockAnalysisOrchestrator.

Section WithEnv.
Variable env : Env.

(** The three managers built by [__init__]: building the boto3 handles
    reaches no service, and the risk-profile cache of the new
    [DynamoDBManager] starts empty. *)
Definition bedrock_manager : BedrockManager.t := BedrockManager.__init__.

Definition __init__ : M unit := DynamoDBManager.set_risk_profile None.

(** The truth value of an [Optional[Dict]]. *)
Definition present (d : option Dict) : bool :=
  match d with
  | Some d => dict_truthy d
  | None => false
  end.

Definition opt_dict (d : option Dict) : pyval :=
  match d with
  | Some d => VDict d
  | None => VNone
  end.

Definition _gather_stock_data (stock_id : string) : M (option Dict) :=
  fundamentals <- DynamoDBManager.get_stock_data env CONFIG.fundamentals_table stock_id ;;
  technicals <- DynamoDBManager.get_stock_data env CONFIG.technicals_table stock_id ;;
  earnings <- DynamoDBManager.get_stock_data env CONFIG.earnings_table stock_id ;;
  if negb (forallb present [fundamentals; technicals; earnings]) then ret None
  else
    riskprofile <- DynamoDBManager.risk_profile env ;;
    ret (Some [("fundamentals", opt_dict fundamentals);
               ("technicals", opt_dict technicals);
               ("earnings", opt_dict earnings);
               ("riskprofile", opt_dict riskprofile)]).

(** [convert_decimals]; its [except] clause turns a failing [float(obj)]
    into [None] at the place of the value. *)
Fixpoint convert_decimals (obj : pyval) : pyval :=
  match obj with
  | VDict d => VDict (map (fun kv => (fst kv, convert_decimals (snd kv))) d)
  | VList l => VList (map convert_decimals l)
  | VDecimal text =>
      match float_of_Decimal env text with
      | Some r => VFloat r
      | None => VNone
      end
  | _ => obj
  end.

Definition missing_data (stock_id : string) : Dict :=
  [("stock_id", VStr stock_id); ("success", VBool false);
   ("error", VStr "Missing data")].

Definition error_record (stock_id : string) (e : exn) : Dict :=
  [("stock_id", VStr stock_id); ("success", VBool false);
   ("error", VStr (str_exn e))].

(** The [try] block of [process_stock]. *)
Definition process_stock_body (stock_id : string) : M Dict :=
  stock_data <- _gather_stock_data stock_id ;;
  if negb (present stock_data) then ret (missing_data stock_id)
  else
    prompt <- lift (build_analysis_prompt env
                      (convert_decimals (opt_dict stock_data))) ;;
    recommendation <- BedrockManager.get_inference env bedrock_manager
                        (recursion_limit env) prompt None ;;
    success <- RecommendationManager.store_recommendation env
                 CONFIG.recommendations_table stock_id recommendation ;;
    ret [("stock_id", VStr stock_id); ("success", VBool success);
         ("recommendation", if success then recommendation else VNone)].

Definition process_stock (stock_id : string) : M Dict :=
  try_except (process_stock_body stock_id)
    (fun e => ret (error_record stock_id e)).

Definition process_portfolio_body (stock_ids : list string) : M pyval :=
  fundamentals <- DynamoDBManager.batch_get_stock_data env
                    CONFIG.fundamentals_table stock_ids ;;
  technicals <- DynamoDBManager.batch_get_stock_data env
                  CONFIG.technicals_table stock_ids ;;
  let portfolio_data :=
    VDict [("fundamentals", VDict fundamentals);
           ("technicals", VDict technicals)] in
  prompt <- lift (analyze_portfolio_bias_prompt env
                    (convert_decimals portfolio_data)) ;;
  bias_analysis <- BedrockManager.get_inference env bedrock_manager
                     (recursion_limit env) prompt None ;;
  RecommendationManager.store_bias_details env CONFIG.portfolio_bias
    bias_analysis ;;;
  ret bias_analysis.

Definition process_portfolio (stock_ids : list string) : M pyval :=
  try_except (process_portfolio_body stock_ids)
    (fun e => ret (VDict [("success", VBool false);
                          ("error", VStr (str_exn e))])).

End WithEnv.

End StockAnalysisOrchestrator.

(** ** lambda_handler *)

Section Handler.
Variable env : Env.

Import StockAnalysisOrchestrator.

(** The counters and the result list of the [for stock_id in stock_ids]
    loop. *)
Record Tally : Type := {
  results : list pyval;
  successful_count : Z;
  error_count : Z
}.

Fixpoint stock_loop (stock_ids : list string) (acc : Tally) : M Tally :=
  match stock_ids with
  | [] => ret acc
  | stock_id :: rest =>
      result <- process_stock env stock_id ;;
      success <- lift (py_getitem (VDict result) "success") ;;
      let acc :=
        {| results := results acc ++ [VDict result];
           successful_count :=
             if truthy success then (successful_count acc + 1)%Z
             else successful_count acc;
           error_count :=
             if truthy success then error_count acc
             else (error_count acc + 1)%Z |} in
      sleep CONFIG.api_delay ;;;
      stock_loop rest acc
  end.

(** The object serialized into the body of the 200 response. *)
Definition summary (stock_ids : list string) (portfolio_analysis : pyval)
    (acc : Tally) : pyval :=
  VDict [("message", VStr "Processing complete");
         ("total_processed", VInt (Z.of_nat (List.length stock_ids)));
         ("successful", VInt (successful_count acc));
         ("failed", VInt (error_count acc));
         ("portfolio_analysis", portfolio_analysis);
         ("results", VList (results acc))].

Definition lambda_handler_body (fuel : nat) : M Dict :=
  __init__ ;;;
  stock_ids <- DynamoDBManager.get_stock_ids env fuel CONFIG.stock_ids_table ;;
  portfolio_analysis <- process_portfolio env stock_ids ;;
  acc <- stock_loop stock_ids
           {| results := []; successful_count := 0; error_count := 0 |} ;;
  body <- lift (json_dumps true (summary stock_ids portfolio_analysis acc)) ;;
  ret [("statusCode", VInt 200); ("body", VStr body)].

Definition failure (e : exn) : pyval :=
  VDict [("error", VStr (str_exn e));
         ("message", VStr "Internal server error")].

(** [fuel] bounds the pages read while the identifiers are listed. *)
Definition lambda_handler (fuel : nat) : M Dict :=
  try_except (lambda_handler_body fuel)
    (fun e =>
       body <- lift (json_dumps false (failure e)) ;;
       ret [("statusCode", VInt 500); ("body", VStr body)]).

End Handler.

Definition initial_state : State :=
  {| calls := []; risk_profile_cache := None |}.

(** A new orchestrator starts with an empty risk-profile cache. *)
Definition reset (st : State) : State :=
  {| calls := calls st; risk_profile_cache := None |}.

(** ** Reading a history *)

Definition is_risk_profile_scan (c : call) : bool :=
  match c with
  | Scan table _ => String.eqb table CONFIG.risk_profile
  | _ => false
  end.

(** The number of lookups made against the risk-profile table. *)
Definition risk_profile_lookups (h : history) : nat :=
  List.length (filter is_risk_profile_scan h).

(** The keys of the upserts, in the order made. *)
Definition update_keys (h : history) : list Dict :=
  flat_map (fun c => match c with
                     | UpdateItem _ params => [Key params]
                     | _ => []
                     end) h.

(** ** Concrete environments *)

(** Small worlds on which the model is run: they give the examples, the
    witnesses and the counterexamples below. *)

Module Demo.

Definition config : BedrockConfig :=
  {| model_id := "amazon.nova-micro-v1:0"; max_tokens := 1000;
     temperature := "0.0"; top_p := "0.9" |}.

Definition no_items : ScanReply :=
  {| scan_Items := Some []; LastEvaluatedKey := None |}.

(** Empty tables, a model endpoint that refuses every request, a parser
    that rejects every text. *)
Definition empty_env : Env :=
  {| table_scan := fun _ _ _ => Return no_items;
     table_query := fun _ _ _ => Return {| query_Items := Some [] |};
     batch_get_item := fun _ _ _ => Return {| Responses := Some [] |};
     table_update_item := fun _ _ _ => Return tt;
     invoke_model := fun _ _ _ =>
       Error (ClientError "AccessDeniedException" "not authorized");
     datetime_now := fun _ => "2024-01-01T00:00:00";
     bedrock_config := config;
     json_loads := fun _ => None;
     Decimal_accepts := all_chars is_ascii_digit;
     float_of_Decimal := fun s => Some s;
     set_order := nodup string_dec;
     recursion_limit := 1000;
     build_analysis_prompt := fun _ => Return "analyze";
     analyze_portfolio_bias_prompt := fun _ => Return "detect" |}.

Definition throttled : history -> result QueryReply :=
  fun _ => Error (ClientError "ThrottlingException" "Rate exceeded").

Fixpoint repeat_char (c : ascii) (n : nat) : string :=
  match n with
  | O => EmptyString
  | S n' => String c (repeat_char c n')
  end.

(** One key whose value serializes to exactly 1500 characters. *)
Definition one_big_value : Dict := [("a", VStr (repeat_char "x" 1498))].

End Demo.

(** Two calls of [store_bias_details] in a row. *)
Module DemoBias.

Definition verdict (score : Z) : pyval :=
  VDict [("bias_score", VInt score); ("volatility_risk", VStr "high");
         ("sector_concentration", VStr "tech");
         ("recommendation", VStr "diversify")].

(** Two calls in a row, in a world with no risk profile. *)
Definition after_two_calls : State :=
  let st1 := fst (RecommendationManager.store_bias_details Demo.empty_env
                    CONFIG.portfolio_bias (verdict 7) initial_state) in
  fst (RecommendationManager.store_bias_details Demo.empty_env
         CONFIG.portfolio_bias (verdict 3) st1).

End DemoBias.

(** A membership table read in two pages. *)
Module DemoPages.

Definition item (stock_id : string) : Dict := [("stockId", VStr stock_id)].

(** Two pages: the first ends with a cursor, the second without. *)
Definition two_pages : history -> string -> ScanParams -> result ScanReply :=
  fun _ _ params =>
    match ExclusiveStartKey params with
    | None => Return {| scan_Items := Some [item "AAPL"; item "MSFT"];
                        LastEvaluatedKey := Some (item "MSFT") |}
    | Some _ => Return {| scan_Items := Some [item "MSFT"; item "NVDA"];
                          LastEvaluatedKey := None |}
    end.

Definition env : Env :=
  {| table_scan := two_pages;
     table_query := table_query Demo.empty_env;
     batch_get_item := batch_get_item Demo.empty_env;
     table_update_item := table_update_item Demo.empty_env;
     invoke_model := invoke_model Demo.empty_env;
     datetime_now := datetime_now Demo.empty_env;
     bedrock_config := Demo.config;
     json_loads := json_loads Demo.empty_env;
     Decimal_accepts := Decimal_accepts Demo.empty_env;
     float_of_Decimal := float_of_Decimal Demo.empty_env;
     set_order := nodup string_dec;
     recursion_limit := 1000;
     build_analysis_prompt := build_analysis_prompt Demo.empty_env;
     analyze_portfolio_bias_prompt := analyze_portfolio_bias_prompt Demo.empty_env |}.

End DemoPages.

(** A run over four entities. *)
Module DemoRun.

Definition verdict : pyval :=
  VDict [("recommendation", VStr "BUY"); ("confidence_score", VInt 80);
         ("reasoning", VStr "cheap"); ("bias_score", VInt 4);
         ("volatility_risk", VStr "low");
         ("sector_concentration", VStr "tech")].

Definition reply : pyval :=
  VDict [("output",
          VDict [("message",
                  VDict [("content", VList [VDict [("text", VStr "VERDICT")]])])])].

Definition parse (s : string) : option pyval :=
  if String.eqb s "REPLY" then Some reply
  else if String.eqb s "VERDICT" then Some verdict
  else None.

Definition item (stock_id : string) : Dict :=
  [("stockId", VStr stock_id); ("pe", VInt 31)].

(** The membership table lists four entities on one page; the risk-profile
    table holds one profile. *)
Definition tables : history -> string -> ScanParams -> result ScanReply :=
  fun _ table _ =>
    if String.eqb table CONFIG.stock_ids_table then
      Return {| scan_Items := Some [item "AAA"; item "BBB"; item "CCC"; item "DDD"];
                LastEvaluatedKey := None |}
    else
      Return {| scan_Items := Some [[("userId", VStr "user-1");
                                     ("riskProfile", VStr "moderate")]];
                LastEvaluatedKey := None |}.

(** Entity DDD has no earnings record. *)
Definition sources : history -> string -> string -> result QueryReply :=
  fun _ table stock_id =>
    if String.eqb table CONFIG.earnings_table && String.eqb stock_id "DDD"
    then Return {| query_Items := Some [] |}
    else Return {| query_Items := Some [item stock_id] |}.

(** The endpoint refuses the request made for entity BBB. *)
Definition endpoint : history -> string -> string -> result InvokeReply :=
  fun _ request _ =>
    if str_contains "BBB" request
    then Error (ClientError "AccessDeniedException" "not authorized")
    else Return {| reply_body := Some "REPLY" |}.

Definition prompt_for (stock_data : pyval) : result string :=
  match (fundamentals <~ py_getitem stock_data "fundamentals" ;;
         py_getitem fundamentals "stockId")%py with
  | Return (VStr stock_id) => Return ("Analyze " ++ stock_id)%string
  | _ => Return "Analyze"
  end.

Definition env : Env :=
  {| table_scan := tables;
     table_query := sources;
     batch_get_item := fun _ _ _ => Return {| Responses := Some [] |};
     table_update_item := fun _ _ _ => Return tt;
     invoke_model := endpoint;
     datetime_now := fun _ => "2024-01-01T00:00:00";
     bedrock_config := Demo.config;
     json_loads := parse;
     Decimal_accepts := all_chars is_ascii_digit;
     float_of_Decimal := fun s => Some s;
     set_order := nodup string_dec;
     recursion_limit := 1000;
     build_analysis_prompt := prompt_for;
     analyze_portfolio_bias_prompt := fun _ => Return "Detect biases" |}.

Definition success (stock_id : string) : pyval :=
  VDict [("stock_id", VStr stock_id); ("success", VBool true);
         ("recommendation", verdict)].

(** The object the run is expected to serialize. *)
Definition expected_summary : Dict :=
  [("message", VStr "Processing complete");
   ("total_processed", VInt 4);
   ("successful", VInt 2);
   ("failed", VInt 2);
   ("portfolio_analysis", verdict);
   ("results",
    VList [success "AAA";
           VDict [("stock_id", VStr "BBB"); ("success", VBool false);
                  ("error", VStr "not authorized")];
           success "CCC";
           VDict [("stock_id", VStr "DDD"); ("success", VBool false);
                  ("error", VStr "Missing data")]])].

Definition answer : outcome Dict := snd (lambda_handler env 3 initial_state).

End DemoRun.

Module DemoStates.

Import DemoRun.

Definition ids : list string := ["AAA"; "BBB"; "CCC"; "DDD"].

(** The state once the identifiers are listed. *)
Definition listed : State :=
  record_call (Scan CONFIG.stock_ids_table (DynamoDBManager.scan_params None))
    (reset initial_state).

Definition after_fundamentals : State :=
  record_call (Query CONFIG.fundamentals_table "DDD") initial_state.
Definition after_technicals : State :=
  record_call (Query CONFIG.technicals_table "DDD") after_fundamentals.
Definition after_earnings : State :=
  record_call (Query CONFIG.earnings_table "DDD") after_technicals.

End DemoStates.

Module DemoLimit.

Definition message : string :=
  "An error occurred (ValidationException): token limit exceeded".

(** An endpoint that reports the token limit whatever it is sent. *)
Definition env : Env :=
  {| table_scan := table_scan Demo.empty_env;
     table_query := table_query Demo.empty_env;
     batch_get_item := batch_get_item Demo.empty_env;
     table_update_item := table_update_item Demo.empty_env;
     invoke_model := fun _ _ _ => Error (ClientError "ValidationException" message);
     datetime_now := datetime_now Demo.empty_env;
     bedrock_config := Demo.config;
     json_loads := json_loads Demo.empty_env;
     Decimal_accepts := Decimal_accepts Demo.empty_env;
     float_of_Decimal := float_of_Decimal Demo.empty_env;
     set_order := nodup string_dec;
     recursion_limit := 1000;
     build_analysis_prompt := build_analysis_prompt Demo.empty_env;
     analyze_portfolio_bias_prompt := analyze_portfolio_bias_prompt Demo.empty_env |}.

End DemoLimit.

(** A configuration that asks for more output than the manager allows. *)
Module DemoBudget.

Definition env : Env :=
  {| table_scan := table_scan Demo.empty_env;
     table_query := table_query Demo.empty_env;
     batch_get_item := batch_get_item Demo.empty_env;
     table_update_item := table_update_item Demo.empty_env;
     invoke_model := invoke_model Demo.empty_env;
     datetime_now := datetime_now Demo.empty_env;
     bedrock_config :=
       {| model_id := "amazon.nova-micro-v1:0"; max_tokens := 5000;
          temperature := "0.0"; top_p := "0.9" |};
     json_loads := json_loads Demo.empty_env;
     Decimal_accepts := Decimal_accepts Demo.empty_env;
     float_of_Decimal := float_of_Decimal Demo.empty_env;
     set_order := nodup string_dec;
     recursion_limit := 1000;
     build_analysis_prompt := build_analysis_prompt Demo.empty_env;
     analyze_portfolio_bias_prompt := analyze_portfolio_bias_prompt Demo.empty_env |}.

End DemoBudget.

(** * Properties *)

(** ** What a computation adds to the history *)

(** [emits P m]: whatever the state, [m] only appends calls to the history,
    and every call it appends satisfies [P]. *)
Definition emits {A} (P : call -> Prop) (m : M A) : Prop :=
  forall st, exists new,
    calls (fst (m st)) = calls st ++ new /\ Forall P new.

Section Emits.
Context {A B : Type} (P : call -> Prop).

Lemma emits_ret (a : A) : emits P (ret a).
Proof. intro st. exists []. simpl. rewrite app_nil_r. auto. Qed.

Lemma emits_raise (e : exn) : emits P (@raise A e).
Proof. intro st. exists []. simpl. rewrite app_nil_r. auto. Qed.

Lemma emits_lift (r : result A) : emits P (lift r).
Proof. destruct r; [apply emits_ret | apply emits_raise]. Qed.

Lemma emits_external (c : call) (answer : history -> result A) :
  P c -> emits P (external c answer).
Proof. intros Hc st. exists [c]. simpl. auto. Qed.

Lemma emits_bind (m : M A) (k : A -> M B) :
  emits P m ->
  (forall a, (exists st, snd (m st) = Ok a) -> emits P (k a)) ->
  emits P (bind m k).
Proof.
  intros Hm Hk st. unfold bind.
  destruct (Hm st) as [new1 [E1 F1]].
  destruct (m st) as [st1 o] eqn:Em. simpl in E1.
  destruct o as [a | e |].
  - assert (Ha : exists st0, snd (m st0) = Ok a)
      by (exists st; rewrite Em; reflexivity).
    destruct (Hk a Ha st1) as [new2 [E2 F2]].
    exists (new1 ++ new2). rewrite E2, E1, app_assoc.
    split; [reflexivity | apply Forall_app; auto].
  - exists new1. auto.
  - exists new1. auto.
Qed.

End Emits.

Lemma emits_sleep (P : call -> Prop) (q : Q) : P (Sleep q) -> emits P (sleep q).
Proof. intros Hc st. exists [Sleep q]. simpl. auto. Qed.

Lemma emits_try_except {A} (P : call -> Prop) (m : M A) (h : exn -> M A) :
  emits P m ->
  (forall e, (exists st, snd (m st) = Raise e) -> emits P (h e)) ->
  emits P (try_except m h).
Proof.
  intros Hm Hh st. unfold try_except.
  destruct (Hm st) as [new1 [E1 F1]].
  destruct (m st) as [st1 o] eqn:Em. simpl in E1.
  destruct o as [a | e |].
  - exists new1. auto.
  - assert (He : exists st0, snd (m st0) = Raise e)
      by (exists st; rewrite Em; reflexivity).
    destruct (Hh e He st1) as [new2 [E2 F2]].
    exists (new1 ++ new2). rewrite E2, E1, app_assoc.
    split; [reflexivity | apply Forall_app; auto].
  - exists new1. auto.
Qed.

Lemma emits_weaken {A} (P Q : call -> Prop) (m : M A) :
  (forall c, P c -> Q c) -> emits P m -> emits Q m.
Proof.
  intros HPQ Hm st. destruct (Hm st) as [new [E F]].
  exists new. split; [exact E |].
  eapply Forall_impl; [exact HPQ | exact F].
Qed.

Lemma lift_Ok {A} (r : result A) (a : A) :
  (exists st, snd (lift r st) = Ok a) -> r = Return a.
Proof.
  intros [st H]. destruct r; simpl in H; [congruence | discriminate].
Qed.

(** ** The request sent to the model *)

Section Requests.
Variable env : Env.
Variable self : BedrockManager.t.

Import BedrockManager AWSServiceBase.

(** A request on the wire is the serialization of [request_body] for some
    prompt. *)
Definition well_formed_request (c : call) : Prop :=
  match c with
  | InvokeModel request _ =>
      exists prompt, json_dumps false (request_body env self prompt) = Return request
  | _ => True
  end.

(** The text of the request for a prompt. *)
Definition request_text (prompt : string) : string :=
  match json_dumps false (request_body env self prompt) with
  | Return s => s
  | Error _ => EmptyString
  end.

Lemma request_serializes (prompt : string) :
  json_dumps false (request_body env self prompt) = Return (request_text prompt).
Proof. reflexivity. Qed.

(** An endpoint that answers a request with an error: the attempt has sent
    the request and raises that error. *)
Lemma attempt_refused (prompt model : string) (st : State) (e : exn) :
  invoke_model env (calls st) (request_text prompt) model = Error e ->
  attempt env self prompt model st
  = (record_call (InvokeModel (request_text prompt) model) st, Raise e).
Proof.
  intro Hrefused. unfold attempt. rewrite request_serializes.
  unfold bind, lift, ret, external. rewrite Hrefused. reflexivity.
Qed.

Lemma attempt_emits (prompt model_id : string) :
  emits well_formed_request (attempt env self prompt model_id).
Proof.
  unfold attempt.
  apply emits_bind; [apply emits_lift |].
  intros body Hbody. apply lift_Ok in Hbody.
  apply emits_bind.
  - apply emits_external. simpl. exists prompt. exact Hbody.
  - intros response _. apply emits_bind; [apply emits_lift |].
    intros raw _. apply emits_lift.
Qed.

Lemma inference_loop_emits (recurse : M pyval) (prompt model_id : string)
    (remaining : nat) :
  emits well_formed_request recurse ->
  emits well_formed_request (inference_loop env self recurse prompt model_id remaining).
Proof.
  intro Hrec. induction remaining as [| remaining' IH]; simpl.
  - apply emits_raise.
  - apply emits_try_except; [apply attempt_emits |].
    intros e _. destruct e as [code msg | cls msg]; [| apply emits_raise].
    destruct (is_token_limit _); [exact Hrec |].
    destruct (_ && _); [| apply emits_raise].
    apply emits_bind; [apply emits_sleep; exact I |].
    intros _ _. exact IH.
Qed.

Lemma get_inference_S (depth' : nat) (prompt : string) (model_id : option string) :
  get_inference env self (S depth') prompt model_id
  = inference_loop env self
      (get_inference env self depth' (truncate_prompt prompt)
         (Some (or_default env model_id)))
      prompt (or_default env model_id) MAX_RETRIES.
Proof. reflexivity. Qed.

Lemma get_inference_emits (depth : nat) :
  forall prompt model_id,
    emits well_formed_request (get_inference env self depth prompt model_id).
Proof.
  induction depth as [| depth' IH]; intros prompt model_id.
  - apply emits_raise.
  - rewrite get_inference_S. apply inference_loop_emits. apply IH.
Qed.

End Requests.

(** The [max_new_tokens] entry of a request dictionary. *)
Definition max_new_tokens_of (request : pyval) : result pyval :=
  config <~ py_getitem request "inferenceConfig" ;;
  py_getitem config "max_new_tokens".

(** C10.  Every request that [get_inference] sends, at any depth of its
    truncation retries and on any attempt, is the serialization of a request
    dictionary whose [max_new_tokens] is [min(configured max_tokens, 2000)],
    a value that never exceeds 2000 however large the configured value. *)
Theorem C10_max_new_tokens_capped :
  forall (env : Env) (depth : nat) (prompt : string) (model_id : option string)
         (st : State),
    let self := BedrockManager.__init__ in
    let sent := BedrockManager.get_inference env self depth prompt model_id st in
    exists new,
      calls (fst sent) = calls st ++ new /\
      Forall (fun c =>
                match c with
                | InvokeModel request _ =>
                    exists p,
                      json_dumps false (BedrockManager.request_body env self p)
                        = Return request /\
                      max_new_tokens_of (BedrockManager.request_body env self p)
                        = Return (VInt (Z.min (max_tokens (bedrock_config env)) 2000)) /\
                      (Z.min (max_tokens (bedrock_config env)) 2000 <= 2000)%Z
                | _ => True
                end) new.
Proof.
  intros env depth prompt model_id st self sent.
  destruct (get_inference_emits env self depth prompt model_id st) as [new [E F]].
  exists new. split; [exact E |].
  eapply Forall_impl; [| exact F].
  intros c Hc. destruct c; auto.
  destruct Hc as [p Hp]. exists p.
  split; [exact Hp |]. split; [reflexivity | apply Z.le_min_r].
Qed.

(** A configured budget of 5000 tokens goes out as 2000, in the one request
    of a refused call. *)
Example big_budget_is_capped :
  let self := BedrockManager.__init__ in
  let r := BedrockManager.get_inference DemoBudget.env self 1000 "hello" None
             initial_state in
  calls (fst r)
  = [InvokeModel (request_text DemoBudget.env self "hello")
       "amazon.nova-micro-v1:0"] /\
  max_new_tokens_of (BedrockManager.request_body DemoBudget.env self "hello")
  = Return (VInt 2000) /\
  str_contains ("max_new_tokens" ++ String dq ": 2000,")%string
    (request_text DemoBudget.env self "hello") = true.
Proof. repeat split; vm_compute; reflexivity. Qed.

(** ** The retry policy *)

Section Retry.

Import AWSServiceBase.

Lemma wait_times :
  wait_time 1 = (3 # 2)%Q /\ wait_time 2 = (3 # 1)%Q /\
  wait_time 3 = (6 # 1)%Q /\ wait_time 4 = (12 # 1)%Q.
Proof. repeat split; reflexivity. Qed.

(** An operation that fails with a code outside the retryable list is tried
    once, and its error comes back with no sleep in between. *)
Lemma retry_fatal_immediate {A} (c : call) (answer : history -> result A)
    (retryable_errors : list string) (code msg : string) (st : State) :
  answer (calls st) = Error (ClientError code msg) ->
  mem_str code retryable_errors = false ->
  retry_with_backoff (Some retryable_errors) (external c answer) st
  = (record_call c st, Raise (ClientError code msg)).
Proof.
  intros Hans Hmem.
  unfold retry_with_backoff, MAX_RETRIES. simpl.
  unfold try_except, external. rewrite Hans, Hmem. reflexivity.
Qed.

(** An operation that succeeds is called once and never slept on. *)
Lemma retry_success_immediate {A} (c : call) (answer : history -> result A)
    (retryable_errors : option (list string)) (a : A) (st : State) :
  answer (calls st) = Return a ->
  retry_with_backoff retryable_errors (external c answer) st
  = (record_call c st, Ok a).
Proof.
  intros Hans.
  unfold retry_with_backoff, MAX_RETRIES. simpl.
  unfold try_except, external. rewrite Hans. reflexivity.
Qed.

(** C4.  An operation that fails with a retryable code on every call is
    attempted four times; the sleeps are 1.5 s, 3 s and 6 s between the
    attempts, and a fourth sleep of 12 s follows the last failed attempt
    before the wrapper gives up with its own "Max retries (4) exceeded"
    exception: exhaustion is not reported at once. *)
Theorem C4_exhaustion_sleeps_after_last_attempt :
  forall (A : Type) (c : call) (answer : history -> result A)
         (retryable_errors : list string) (code msg : string) (st : State),
    (forall h, answer h = Error (ClientError code msg)) ->
    mem_str code retryable_errors = true ->
    let r := retry_with_backoff (Some retryable_errors) (external c answer) st in
    calls (fst r)
    = calls st ++ [c; Sleep (3 # 2)%Q; c; Sleep (3 # 1)%Q; c; Sleep (6 # 1)%Q;
                   c; Sleep (12 # 1)%Q]
    /\ snd r = Raise (PyError "Exception" "Max retries (4) exceeded").
Proof.
  intros A c answer retryable_errors code msg st Hans Hmem r. subst r.
  unfold retry_with_backoff, MAX_RETRIES. simpl.
  unfold try_except, external, bind, sleep.
  repeat (rewrite Hans, Hmem; simpl).
  split; [| reflexivity].
  repeat rewrite <- app_assoc. reflexivity.
Qed.

End Retry.

Lemma C4_witness :
  let r := AWSServiceBase.retry_with_backoff
             (Some AWSServiceBase.default_retryable_errors)
             (external (Query "portfolio" "AAPL") Demo.throttled) initial_state in
  calls (fst r)
  = calls initial_state
    ++ [Query "portfolio" "AAPL"; Sleep (3 # 2)%Q;
        Query "portfolio" "AAPL"; Sleep (3 # 1)%Q;
        Query "portfolio" "AAPL"; Sleep (6 # 1)%Q;
        Query "portfolio" "AAPL"; Sleep (12 # 1)%Q]
  /\ snd r = Raise (PyError "Exception" "Max retries (4) exceeded").
Proof.
  apply (C4_exhaustion_sleeps_after_last_attempt QueryReply
           (Query "portfolio" "AAPL") Demo.throttled
           AWSServiceBase.default_retryable_errors
           "ThrottlingException" "Rate exceeded" initial_state).
  - intro h. reflexivity.
  - reflexivity.
Defined.

(** Two throttled calls, then an answer: two sleeps, and the answer comes
    back from the third attempt. *)
Example retry_then_success :
  let answer : history -> result QueryReply :=
    fun h => if (List.length h <? 4)%nat
             then Error (ClientError "ThrottlingException" "Rate exceeded")
             else Return {| query_Items := Some [] |} in
  AWSServiceBase.retry_with_backoff None
    (external (Query "portfolio" "AAPL") answer) initial_state
  = ({| calls := [Query "portfolio" "AAPL"; Sleep (3 # 2)%Q;
                  Query "portfolio" "AAPL"; Sleep (3 # 1)%Q;
                  Query "portfolio" "AAPL"];
        risk_profile_cache := None |},
     Ok {| query_Items := Some [] |}).
Proof. reflexivity. Qed.

(** ** Validation before the write *)

Section Validation.

Import DataValidationMixin RecommendationManager.

Definition field_ok (d : Dict) (field : string) : bool :=
  match dict_get field d with
  | Some v => negb (is_None v)
  | None => false
  end.

Lemma validate_required_fields_dict (d : Dict) (fields : list string) :
  validate_required_fields (VDict d) fields = Return (forallb (field_ok d) fields).
Proof.
  induction fields as [| f rest IH]; simpl; [reflexivity |].
  unfold field_ok at 1.
  destruct (dict_get f d) as [v |]; simpl; [| reflexivity].
  destruct (is_None v); simpl; [reflexivity | exact IH].
Qed.

(** C5.  A verdict object in which one of the three required fields is
    absent (or is [None]) makes [store_recommendation] raise its validation
    error, and the state comes back untouched: not a single call, so no
    write, was made. *)
Theorem C5_invalid_verdict_writes_nothing :
  forall (env : Env) (table_name stock_id : string) (verdict : Dict)
         (field : string) (st : State),
    In field ["recommendation"; "confidence_score"; "reasoning"] ->
    dict_get field verdict = None \/ dict_get field verdict = Some VNone ->
    store_recommendation env table_name stock_id (VDict verdict) st
    = (st, Raise (PyError "ValueError" "Invalid recommendation data")).
Proof.
  intros env table_name stock_id verdict field st Hin Hmiss.
  unfold store_recommendation.
  rewrite validate_required_fields_dict.
  assert (Hbad : forallb (field_ok verdict)
                   ["recommendation"; "confidence_score"; "reasoning"] = false).
  { apply not_true_is_false. intro Hall.
    rewrite forallb_forall in Hall. specialize (Hall field Hin).
    unfold field_ok in Hall.
    destruct Hmiss as [Hm | Hm]; rewrite Hm in Hall; discriminate. }
  rewrite Hbad. reflexivity.
Qed.

End Validation.

Lemma C5_witness :
  RecommendationManager.store_recommendation Demo.empty_env
    "portfolio_recommendation" "AAPL"
    (VDict [("recommendation", VStr "BUY"); ("reasoning", VStr "cheap")])
    initial_state
  = (initial_state, Raise (PyError "ValueError" "Invalid recommendation data")).
Proof.
  apply (C5_invalid_verdict_writes_nothing Demo.empty_env
           "portfolio_recommendation" "AAPL"
           [("recommendation", VStr "BUY"); ("reasoning", VStr "cheap")]
           "confidence_score" initial_state).
  - simpl. auto.
  - left. reflexivity.
Defined.

(** A complete verdict, for contrast, is written with one [update_item]. *)
Example store_recommendation_writes_once :
  let verdict := VDict [("recommendation", VStr "BUY");
                        ("confidence_score", VInt 80);
                        ("reasoning", VStr "cheap")] in
  let r := RecommendationManager.store_recommendation Demo.empty_env
             "portfolio_recommendation" "AAPL" verdict initial_state in
  snd r = Ok true /\
  calls (fst r)
  = [Now;
     UpdateItem "portfolio_recommendation"
       {| Key := [("stockId", VStr "AAPL")];
          UpdateExpression :=
            "SET recommendation = :r, confidence_score = :c, reasoning = :s, #ts = :t";
          ExpressionAttributeValues :=
            [(":r", VStr "BUY"); (":c", VDecimal "80"); (":s", VStr "cheap");
             (":t", VStr "2024-01-01T00:00:00")];
          ExpressionAttributeNames := [("#ts", VStr "timestamp")] |}].
Proof. split; reflexivity. Qed.

(** ** Chunking *)

Section Chunking.
Variable env : Env.
Variable self : BedrockManager.t.

Import BedrockManager.

(** The size [chunk_data] keeps account of: the serialized values, without
    keys, separators or braces. *)
Definition value_len (v : pyval) : nat :=
  match Json.dumps v with
  | Some s => String.length s
  | None => 0
  end.

Definition values_size (chunk : Dict) : nat :=
  list_sum (map (fun kv => value_len (snd kv)) chunk).

Definition within_limit (chunk : Dict) : Prop :=
  values_size chunk <= CHUNK_SIZE self.

Definition fits (v : pyval) : Prop :=
  exists s, Json.dumps v = Some s /\ String.length s <= CHUNK_SIZE self.

Lemma values_size_dict_set (k : string) (v : pyval) (d : Dict) :
  values_size (dict_set k v d) <= values_size d + value_len v.
Proof.
  unfold values_size.
  induction d as [| [k' v'] d' IH]; simpl; [lia |].
  destruct (String.eqb k k'); simpl; lia.
Qed.

Lemma chunk_loop_within_limit (items : Dict) :
  forall chunks current_chunk current_size,
    Forall (fun kv => fits (snd kv)) items ->
    Forall within_limit chunks ->
    values_size current_chunk <= current_size ->
    current_size <= CHUNK_SIZE self ->
    exists out,
      chunk_loop env self items chunks current_chunk current_size = Return out
      /\ Forall within_limit out.
Proof.
  induction items as [| [key value] rest IH];
    intros chunks current_chunk current_size Hfit Hchunks Hsize Hle.
  - simpl. eexists. split; [reflexivity |].
    destruct (dict_truthy current_chunk); [| exact Hchunks].
    apply Forall_app. split; [exact Hchunks |].
    constructor; [unfold within_limit; lia | constructor].
  - inversion Hfit as [| ? ? [s [Hs Hlen]] Hrest]; subst. simpl in Hs.
    assert (Hv : value_len value = String.length s)
      by (unfold value_len; rewrite Hs; reflexivity).
    cbn [chunk_loop]. unfold json_dumps.
    unfold Json.dumps in Hs. rewrite Hs. cbn [rbind].
    replace (CHUNK_SIZE self <? String.length s)%nat with false
      by (symmetry; apply Nat.ltb_ge; exact Hlen).
    cbn [rbind fst snd].
    destruct (CHUNK_SIZE self <? current_size + String.length s)%nat eqn:Hflush.
    + apply IH; auto.
      * apply Forall_app. split; [exact Hchunks |].
        constructor; [unfold within_limit; lia | constructor].
      * unfold values_size. simpl. fold (value_len value). lia.
    + apply Nat.ltb_ge in Hflush. apply IH; auto.
      pose proof (values_size_dict_set key value current_chunk). lia.
Qed.

(** The truncation branch: the text cut at the limit and followed by three
    dots is handed to [json.loads], and a parser that takes no text ending
    in a dot (Python's does not) raises there. *)
Lemma chunk_loop_oversized_raises (items : Dict) :
  forall chunks current_chunk current_size,
    (forall s, json_loads env (s ++ "...")%string = None) ->
    Forall (fun kv => exists s, Json.dumps (snd kv) = Some s) items ->
    Exists (fun kv => ~ fits (snd kv)) items ->
    exists e, chunk_loop env self items chunks current_chunk current_size = Error e.
Proof.
  induction items as [| [key value] rest IH];
    intros chunks current_chunk current_size Hloads Hser Hbig.
  - inversion Hbig.
  - inversion Hser as [| ? ? [s Hs] Hrest]; subst. simpl in Hs.
    cbn [chunk_loop]. unfold json_dumps.
    unfold Json.dumps in Hs. rewrite Hs. cbn [rbind].
    destruct (CHUNK_SIZE self <? String.length s)%nat eqn:Hover.
    + unfold loads. rewrite Hloads. cbn [rbind]. eexists. reflexivity.
    + apply Nat.ltb_ge in Hover.
      assert (Hrestbig : Exists (fun kv => ~ fits (snd kv)) rest).
      { inversion Hbig as [? ? Hhead | ? ? Htail]; subst; [| exact Htail].
        exfalso. apply Hhead. exists s. split; [exact Hs | exact Hover]. }
      cbn [rbind fst snd].
      destruct (CHUNK_SIZE self <? current_size + String.length s)%nat;
        apply IH; auto.
Qed.

(** C3, amended.  When no single value serializes to more than the limit,
    [chunk_data] returns chunks in each of which the serialized values add
    up to at most the limit. *)
Theorem C3_chunk_values_within_limit :
  forall data : Dict,
    (forall k v, In (k, v) data -> fits v) ->
    exists chunks,
      chunk_data env self data = Return chunks /\
      Forall (fun chunk => values_size chunk <= CHUNK_SIZE self) chunks.
Proof.
  intros data Hfit. unfold chunk_data.
  apply chunk_loop_within_limit.
  - apply Forall_forall. intros [k v] Hin. simpl. eapply Hfit. exact Hin.
  - constructor.
  - unfold values_size. simpl. lia.
  - lia.
Qed.

End Chunking.

(** C3, as stated, fails: one value of exactly 1500 serialized characters is
    not truncated and its chunk serializes to 1507 characters. *)
Lemma C3_counterexample :
  BedrockManager.chunk_data Demo.empty_env BedrockManager.__init__ Demo.one_big_value
  = Return [Demo.one_big_value]
  /\ option_map String.length (Json.dumps (VDict Demo.one_big_value)) = Some 1507
  /\ BedrockManager.CHUNK_SIZE BedrockManager.__init__ < 1507.
Proof.
  split; [vm_compute; reflexivity |].
  split; [vm_compute; reflexivity |].
  unfold BedrockManager.__init__. simpl. lia.
Qed.

Lemma C3_witness :
  exists chunks,
    BedrockManager.chunk_data Demo.empty_env BedrockManager.__init__
      [("pe", VInt 31); ("name", VStr "ACME")] = Return chunks /\
    Forall (fun chunk => values_size chunk
                         <= BedrockManager.CHUNK_SIZE BedrockManager.__init__) chunks.
Proof.
  apply (C3_chunk_values_within_limit Demo.empty_env BedrockManager.__init__
           [("pe", VInt 31); ("name", VStr "ACME")]).
  intros k v [H | [H | []]]; inversion H; subst; eexists;
    (split; [reflexivity | simpl; lia]).
Defined.

(** ** The owner of the bias record *)

Section BiasOwner.
Variable env : Env.

Import DataValidationMixin RecommendationManager.

Lemma validate_true_getitem (data : pyval) (fields : list string) :
  validate_required_fields data fields = Return true ->
  forall f, In f fields -> exists v, py_getitem data f = Return v.
Proof.
  induction fields as [| g rest IH]; intros Hv f Hin; [inversion Hin |].
  simpl in Hv.
  destruct (py_in g data) as [present | e]; simpl in Hv; [| discriminate].
  destruct present; [| discriminate].
  destruct (py_getitem data g) as [v | e] eqn:Hg; simpl in Hv; [| discriminate].
  destruct (is_None v); [discriminate |].
  destruct Hin as [<- | Hin]; [exists v; exact Hg | exact (IH Hv f Hin)].
Qed.

(** What one validated call does, step by step. *)
Lemma store_bias_details_run (table_name : string) (bias : pyval) (st : State) :
  validate_required_fields bias
    ["bias_score"; "volatility_risk"; "sector_concentration"; "recommendation"]
  = Return true ->
  exists b v s r,
    store_bias_details env table_name bias st
    = let st1 := record_call (Scan CONFIG.risk_profile limit_one) st in
      match table_scan env (calls st) CONFIG.risk_profile limit_one with
      | Error e => (st1, Raise e)
      | Return reply =>
          match user_id_of (DynamoDBManager.items_or_empty (scan_Items reply)) with
          | Error e => (st1, Raise e)
          | Return user_id =>
              let st2 := record_call Now st1 in
              let params :=
                {| Key := [("userId", user_id)];
                   UpdateExpression :=
                     "SET bias_score = :b, volatility_risk = :v, sector_concentration = :s, recommendation = :r, #ts = :t";
                   ExpressionAttributeValues :=
                     [(":b", b); (":v", v); (":s", s); (":r", r);
                      (":t", VStr (datetime_now env (calls st1)))];
                   ExpressionAttributeNames := [("#ts", VStr "timestamp")] |} in
              (record_call (UpdateItem table_name params) st2,
               match table_update_item env (calls st2) table_name params with
               | Return _ => Ok true
               | Error e => Raise e
               end)
          end
      end.
Proof.
  intros Hvalid.
  destruct (validate_true_getitem _ _ Hvalid "bias_score") as [b Hb];
    [simpl; auto |].
  destruct (validate_true_getitem _ _ Hvalid "volatility_risk") as [v Hv];
    [simpl; auto |].
  destruct (validate_true_getitem _ _ Hvalid "sector_concentration") as [s Hs];
    [simpl; auto 6 |].
  destruct (validate_true_getitem _ _ Hvalid "recommendation") as [rc Hrc];
    [simpl; auto 6 |].
  exists b, v, s, rc.
  unfold store_bias_details. rewrite Hvalid, Hb, Hv, Hs, Hrc.
  cbv beta iota zeta
    delta [negb bind lift ret raise external DynamoDBManager.scan update_item
           now_isoformat].
  destruct (table_scan env (calls st) CONFIG.risk_profile limit_one)
    as [reply | e]; [| reflexivity].
  destruct (user_id_of (DynamoDBManager.items_or_empty (scan_Items reply)))
    as [uid | e]; [| reflexivity].
  match goal with
  | |- context [table_update_item env ?h ?t ?p] =>
      destruct (table_update_item env h t p)
  end; reflexivity.
Qed.

(** C9, amended.  Every call of [store_bias_details] that passes validation
    begins with a lookup of its own against the risk-profile table: the
    cached profile is neither read nor filled, and nothing else in the call
    looks the owner up.  When the lookup answers, the single upsert of the
    call is keyed by the [userId] of the first profile returned, and by the
    sentinel "user-default" when there is none. *)
Theorem C9_owner_lookup_on_every_call :
  forall (table_name : string) (bias : pyval) (st : State),
    validate_required_fields bias
      ["bias_score"; "volatility_risk"; "sector_concentration"; "recommendation"]
    = Return true ->
    let r := store_bias_details env table_name bias st in
    risk_profile_cache (fst r) = risk_profile_cache st /\
    user_id_of [] = Return (VStr "user-default") /\
    exists rest,
      calls (fst r) = calls st ++ Scan CONFIG.risk_profile limit_one :: rest /\
      risk_profile_lookups rest = 0 /\
      (forall reply user_id,
          table_scan env (calls st) CONFIG.risk_profile limit_one = Return reply ->
          user_id_of (DynamoDBManager.items_or_empty (scan_Items reply))
          = Return user_id ->
          update_keys rest = [[("userId", user_id)]]).
Proof.
  intros table_name bias st Hvalid r. subst r.
  destruct (store_bias_details_run table_name bias st Hvalid)
    as [b [v [s [rc Hrun]]]].
  rewrite Hrun. clear Hrun. cbv zeta.
  destruct (table_scan env (calls st) CONFIG.risk_profile limit_one)
    as [reply | e].
  - destruct (user_id_of (DynamoDBManager.items_or_empty (scan_Items reply)))
      as [uid | e] eqn:Huid.
    + split; [reflexivity |]. split; [reflexivity |].
      eexists. split.
      * cbn [fst calls record_call]. repeat rewrite <- app_assoc. reflexivity.
      * split; [reflexivity |].
        intros reply' user_id' Hr Hu. inversion Hr; subst reply'.
        rewrite Huid in Hu. inversion Hu. reflexivity.
    + split; [reflexivity |]. split; [reflexivity |].
      exists []. split; [reflexivity |]. split; [reflexivity |].
      intros reply' user_id' Hr Hu. inversion Hr; subst reply'.
      rewrite Huid in Hu. discriminate.
  - split; [reflexivity |]. split; [reflexivity |].
    exists []. split; [reflexivity |]. split; [reflexivity |].
    intros reply' user_id' Hr Hu. discriminate.
Qed.

End BiasOwner.

(** C9, as stated, fails: two calls look the owner up twice, and the key
    used when no profile exists is "user-default". *)
Lemma C9_counterexample :
  ~ (risk_profile_lookups (calls DemoBias.after_two_calls) <= 1)
  /\ update_keys (calls DemoBias.after_two_calls)
     = [[("userId", VStr "user-default")]; [("userId", VStr "user-default")]]
  /\ VStr "user-default" <> VStr "default".
Proof.
  split; [vm_compute; lia |].
  split; [vm_compute; reflexivity | discriminate].
Qed.

Lemma C9_witness :
  let r := RecommendationManager.store_bias_details Demo.empty_env
             CONFIG.portfolio_bias (DemoBias.verdict 7) initial_state in
  risk_profile_cache (fst r) = risk_profile_cache initial_state /\
  RecommendationManager.user_id_of [] = Return (VStr "user-default") /\
  exists rest,
    calls (fst r)
    = calls initial_state
      ++ Scan CONFIG.risk_profile RecommendationManager.limit_one :: rest /\
    risk_profile_lookups rest = 0 /\
    (forall reply user_id,
        table_scan Demo.empty_env (calls initial_state) CONFIG.risk_profile
          RecommendationManager.limit_one = Return reply ->
        RecommendationManager.user_id_of
          (DynamoDBManager.items_or_empty (scan_Items reply)) = Return user_id ->
        update_keys rest = [[("userId", user_id)]]).
Proof.
  apply (C9_owner_lookup_on_every_call Demo.empty_env CONFIG.portfolio_bias
           (DemoBias.verdict 7) initial_state).
  reflexivity.
Defined.

(** ** Listing the identifiers *)

Section Pagination.
Variable env : Env.
Variable table : string.

Import DynamoDBManager.





End Pagination.


Example get_stock_ids_two_pages :
  snd (DynamoDBManager.get_stock_ids DemoPages.env 5 CONFIG.stock_ids_table
         initial_state) = Ok ["AAPL"; "MSFT"; "NVDA"].
Proof. vm_compute. reflexivity. Qed.

(** ** Entities with a missing source *)

Section MissingSource.
Variable env : Env.

Import DynamoDBManager StockAnalysisOrchestrator.

(** One read of one source is one query, whatever it answers. *)
Lemma get_stock_data_state (table_name stock_id : string) (st : State) :
  fst (get_stock_data env table_name stock_id st)
  = record_call (Query table_name stock_id) st.
Proof.
  unfold get_stock_data, bind, external.
  destruct (table_query env (calls st) table_name stock_id) as [reply | e];
    [| reflexivity].
  destruct (items_or_empty (query_Items reply)) as [| item items];
    [reflexivity |].
  unfold lift. destruct (DataValidationMixin.sanitize_data env item); reflexivity.
Qed.

Lemma gather_missing (stock_id : string) (st st1 st2 st3 : State)
    (fundamentals technicals earnings : option Dict) :
  get_stock_data env CONFIG.fundamentals_table stock_id st = (st1, Ok fundamentals) ->
  get_stock_data env CONFIG.technicals_table stock_id st1 = (st2, Ok technicals) ->
  get_stock_data env CONFIG.earnings_table stock_id st2 = (st3, Ok earnings) ->
  forallb present [fundamentals; technicals; earnings] = false ->
  _gather_stock_data env stock_id st = (st3, Ok None).
Proof.
  intros H1 H2 H3 Hmiss.
  unfold _gather_stock_data, bind.
  rewrite H1, H2, H3, Hmiss. reflexivity.
Qed.

(** C6.  When the three reads of an entity come back and at least one of
    them is absent (no record, or a record left empty), [process_stock]
    has made its three queries and nothing else, so neither an inference
    call nor a write; its record is the "Missing data" record; and the loop
    goes on to the next entity with that record appended. *)
Theorem C6_missing_source_is_skipped :
  forall (stock_id : string) (st st1 st2 st3 : State)
         (fundamentals technicals earnings : option Dict),
    get_stock_data env CONFIG.fundamentals_table stock_id st
    = (st1, Ok fundamentals) ->
    get_stock_data env CONFIG.technicals_table stock_id st1
    = (st2, Ok technicals) ->
    get_stock_data env CONFIG.earnings_table stock_id st2
    = (st3, Ok earnings) ->
    present fundamentals = false \/ present technicals = false
    \/ present earnings = false ->
    process_stock env stock_id st
    = (st3, Ok [("stock_id", VStr stock_id); ("success", VBool false);
                ("error", VStr "Missing data")]) /\
    calls st3
    = calls st ++ [Query CONFIG.fundamentals_table stock_id;
                   Query CONFIG.technicals_table stock_id;
                   Query CONFIG.earnings_table stock_id] /\
    risk_profile_cache st3 = risk_profile_cache st /\
    forall (rest : list string) (acc : Tally),
      stock_loop env (stock_id :: rest) acc st
      = stock_loop env rest
          {| results := results acc ++ [VDict (missing_data stock_id)];
             successful_count := successful_count acc;
             error_count := (error_count acc + 1)%Z |}
          (record_call (Sleep CONFIG.api_delay) st3).
Proof.
  intros stock_id st st1 st2 st3 fundamentals technicals earnings H1 H2 H3 Hmiss.
  assert (Hall : forallb present [fundamentals; technicals; earnings] = false).
  { simpl. destruct Hmiss as [-> | [-> | ->]]; simpl;
      repeat rewrite andb_false_r; reflexivity. }
  pose proof (gather_missing _ _ _ _ _ _ _ _ H1 H2 H3 Hall) as Hgather.
  assert (Hrec : process_stock env stock_id st = (st3, Ok (missing_data stock_id))).
  { unfold process_stock, try_except, process_stock_body, bind.
    rewrite Hgather. reflexivity. }
  split; [exact Hrec |].
  pose proof (get_stock_data_state CONFIG.fundamentals_table stock_id st) as E1.
  pose proof (get_stock_data_state CONFIG.technicals_table stock_id st1) as E2.
  pose proof (get_stock_data_state CONFIG.earnings_table stock_id st2) as E3.
  rewrite H1 in E1. rewrite H2 in E2. rewrite H3 in E3. simpl in E1, E2, E3.
  subst st1 st2 st3.
  split; [simpl; repeat rewrite <- app_assoc; reflexivity |].
  split; [reflexivity |].
  intros rest acc. cbn [stock_loop]. unfold bind at 1. rewrite Hrec.
  reflexivity.
Qed.

End MissingSource.

(** Fundamentals and technicals present, earnings absent. *)
Lemma C6_witness :
  StockAnalysisOrchestrator.process_stock DemoRun.env "DDD" initial_state
  = (DemoStates.after_earnings,
     Ok [("stock_id", VStr "DDD"); ("success", VBool false);
         ("error", VStr "Missing data")]) /\
  calls DemoStates.after_earnings
  = calls initial_state ++ [Query CONFIG.fundamentals_table "DDD";
                            Query CONFIG.technicals_table "DDD";
                            Query CONFIG.earnings_table "DDD"] /\
  risk_profile_cache DemoStates.after_earnings = risk_profile_cache initial_state /\
  forall (rest : list string) (acc : Tally),
    stock_loop DemoRun.env ("DDD" :: rest) acc initial_state
    = stock_loop DemoRun.env rest
        {| results := results acc
                      ++ [VDict (StockAnalysisOrchestrator.missing_data "DDD")];
           successful_count := successful_count acc;
           error_count := (error_count acc + 1)%Z |}
        (record_call (Sleep CONFIG.api_delay) DemoStates.after_earnings).
Proof.
  apply (C6_missing_source_is_skipped DemoRun.env "DDD" initial_state
           DemoStates.after_fundamentals DemoStates.after_technicals
           DemoStates.after_earnings
           (Some (DemoRun.item "DDD")) (Some (DemoRun.item "DDD")) None).
  - reflexivity.
  - reflexivity.
  - reflexivity.
  - right. right. reflexivity.
Defined.

(** ** The truncation always shortens *)

Section Truncation.

Local Open Scope Z_scope.

Lemma rne_shift_bound (N s : Z) :
  0 <= N -> 1 <= s ->
  0 <= Float.rne_shift N s /\ Float.rne_shift N s * 2 ^ s <= N + 2 ^ (s - 1).
Proof.
  intros HN Hs. unfold Float.rne_shift.
  rewrite Z.shiftr_div_pow2 by lia.
  rewrite !Z.shiftl_mul_pow2 by lia. rewrite Z.mul_1_l.
  assert (Hpow : 2 ^ s = 2 * 2 ^ (s - 1)).
  { replace s with (Z.succ (s - 1)) at 1 by lia. apply Z.pow_succ_r. lia. }
  assert (Hhalf : 0 < 2 ^ (s - 1)) by (apply Z.pow_pos_nonneg; lia).
  pose proof (Z.div_mod N (2 ^ s)) as Hdm.
  pose proof (Z.mod_pos_bound N (2 ^ s)) as Hmod.
  assert (Hq : 0 <= N / 2 ^ s) by (apply Z.div_pos; lia).
  set (q := N / 2 ^ s) in *. set (h := 2 ^ (s - 1)) in *.
  set (p := 2 ^ s) in *.
  destruct ((h <? N - q * p) || ((N - q * p =? h) && Z.odd q)) eqn:E.
  - apply orb_true_iff in E. split; [lia |].
    destruct E as [E | E].
    + apply Z.ltb_lt in E. lia.
    + apply andb_true_iff in E. destruct E as [E _]. apply Z.eqb_eq in E. lia.
  - split; [lia |]. lia.
Qed.

Lemma round53_bound (N e : Z) :
  0 <= N ->
  let x := Float.round53 N e in
  0 <= fst x /\ e <= snd x /\
  2 ^ 53 * (fst x * 2 ^ (snd x - e)) <= (2 ^ 53 + 1) * N.
Proof.
  intros HN x. subst x. unfold Float.round53.
  destruct ((if N =? 0 then 0 else Z.log2 N + 1) <=? 53) eqn:Hbits.
  - cbn [fst snd]. rewrite Z.sub_diag, Z.pow_0_r.
    change (2 ^ 53) with 9007199254740992. lia.
  - apply Z.leb_gt in Hbits.
    destruct (N =? 0) eqn:HN0; [lia |].
    apply Z.eqb_neq in HN0.
    set (s := Z.log2 N + 1 - 53) in *.
    assert (Hs : 1 <= s) by lia.
    destruct (rne_shift_bound N s HN Hs) as [Hm0 Hm].
    cbn [fst snd]. replace (e + s - e) with s by lia.
    split; [exact Hm0 |]. split; [lia |].
    assert (Hlog : 2 ^ Z.log2 N <= N) by (apply Z.log2_spec; lia).
    assert (Hsplit : 2 ^ Z.log2 N = 2 ^ 53 * 2 ^ (s - 1)).
    { rewrite <- Z.pow_add_r by lia. f_equal. lia. }
    lia.
Qed.

Lemma int_mul_0_7_lt (n : Z) : 0 < n -> 0 <= Float.int_mul_0_7 n < n.
Proof.
  intros Hn. unfold Float.int_mul_0_7, Float.of_int, Float.mul, Float.c0_7.
  pose proof (round53_bound n 0 ltac:(lia)) as H1. cbv zeta in H1.
  destruct (Float.round53 n 0) as [m1 e1]. cbn [fst snd] in *.
  destruct H1 as [Hm1 [He1 H1]]. rewrite Z.sub_0_r in H1.
  pose proof (round53_bound (m1 * 6305039478318694) (e1 + -53) ltac:(lia)) as H2.
  cbv zeta in H2.
  destruct (Float.round53 (m1 * 6305039478318694) (e1 + -53)) as [m2 e2].
  cbn [fst snd] in *. destruct H2 as [Hm2 [He2 H2]].
  set (s2 := e2 - (e1 + -53)) in *.
  assert (Hs2 : 0 <= s2) by lia.
  assert (HB : 0 < 2 ^ e1) by (apply Z.pow_pos_nonneg; lia).
  assert (HA : 0 <= m2 * 2 ^ s2) by (apply Z.mul_nonneg_nonneg; [lia | apply Z.pow_nonneg; lia]).
  set (A := m2 * 2 ^ s2) in *. set (B := 2 ^ e1) in *.
  assert (HR : exists R, Float.to_int (m2, e2) = R /\ 0 <= R /\ 2 ^ 53 * R <= A * B).
  { unfold Float.to_int. cbn [fst snd].
    assert (Hsum : 2 ^ (e2 + 53) = 2 ^ s2 * B).
    { unfold B. rewrite <- Z.pow_add_r by lia. f_equal. lia. }
    destruct (0 <=? e2) eqn:Esign.
    - apply Z.leb_le in Esign. rewrite Z.shiftl_mul_pow2 by lia.
      eexists. split; [reflexivity |].
      split; [apply Z.mul_nonneg_nonneg; [lia | apply Z.pow_nonneg; lia] |].
      assert (2 ^ (e2 + 53) = 2 ^ e2 * 2 ^ 53) by (apply Z.pow_add_r; lia).
      unfold A. nia.
    - apply Z.leb_gt in Esign. rewrite Z.shiftr_div_pow2 by lia.
      eexists. split; [reflexivity |].
      assert (Hp : 0 < 2 ^ (- e2)) by (apply Z.pow_pos_nonneg; lia).
      split; [apply Z.div_pos; lia |].
      assert (Hd : m2 / 2 ^ (- e2) * 2 ^ (- e2) <= m2).
      { rewrite Z.mul_comm. apply Z.mul_div_le. lia. }
      assert (Hk : 2 ^ 53 = 2 ^ (- e2) * 2 ^ (e2 + 53)).
      { rewrite <- Z.pow_add_r by lia. f_equal. lia. }
      assert (H0 : 0 <= 2 ^ (e2 + 53)) by (apply Z.pow_nonneg; lia).
      assert (HAB : A * B = m2 * 2 ^ (e2 + 53)) by (unfold A; rewrite Hsum; ring).
      rewrite HAB, Hk.
      replace (2 ^ (- e2) * 2 ^ (e2 + 53) * (m2 / 2 ^ (- e2)))
        with ((m2 / 2 ^ (- e2) * 2 ^ (- e2)) * 2 ^ (e2 + 53)) by ring.
      apply Z.mul_le_mono_nonneg_r; lia. }
  destruct HR as [R [-> [HR0 HR]]].
  split; [exact HR0 |].
  assert (K1 : 2 ^ 53 * (A * B) <= (2 ^ 53 + 1) * (m1 * 6305039478318694) * B).
  { replace (2 ^ 53 * (A * B)) with ((2 ^ 53 * A) * B) by ring.
    apply Z.mul_le_mono_nonneg_r; lia. }
  assert (K2 : 2 ^ 53 * ((2 ^ 53 + 1) * (m1 * 6305039478318694) * B)
               <= (2 ^ 53 + 1) * 6305039478318694 * ((2 ^ 53 + 1) * n)).
  { replace (2 ^ 53 * ((2 ^ 53 + 1) * (m1 * 6305039478318694) * B))
      with ((2 ^ 53 + 1) * 6305039478318694 * (2 ^ 53 * (m1 * B))) by ring.
    apply Z.mul_le_mono_nonneg_l; [| lia].
    apply Z.mul_nonneg_nonneg; lia. }
  assert (K3 : 2 ^ 53 * (2 ^ 53 * (2 ^ 53 * R))
               <= (2 ^ 53 + 1) * 6305039478318694 * ((2 ^ 53 + 1) * n)).
  { assert (2 ^ 53 * (2 ^ 53 * (2 ^ 53 * R)) <= 2 ^ 53 * (2 ^ 53 * (A * B))).
    { apply Z.mul_le_mono_nonneg_l; [lia |].
      apply Z.mul_le_mono_nonneg_l; [lia | exact HR]. }
    lia. }
  change (2 ^ 53) with 9007199254740992 in K3.
  lia.
Qed.

End Truncation.

Lemma length_substring_0 (k : nat) (s : string) :
  String.length (substring 0 k s) = Nat.min k (String.length s).
Proof.
  revert s. induction k as [| k' IH]; intros s.
  - destruct s; reflexivity.
  - destruct s as [| c s']; [reflexivity |]. simpl. rewrite IH. reflexivity.
Qed.

Lemma truncate_prompt_empty :
  BedrockManager.truncate_prompt EmptyString = EmptyString.
Proof. reflexivity. Qed.

(** A prompt that is not empty loses at least one character. *)
Lemma truncate_prompt_shorter (prompt : string) :
  prompt <> EmptyString ->
  String.length (BedrockManager.truncate_prompt prompt) < String.length prompt.
Proof.
  intros Hne. unfold BedrockManager.truncate_prompt.
  rewrite length_substring_0.
  assert (Hpos : (0 < Z.of_nat (String.length prompt))%Z).
  { destruct prompt; [congruence | simpl; lia]. }
  pose proof (int_mul_0_7_lt _ Hpos) as Hlt. lia.
Qed.

(** ** An oracle that always reports the token limit *)

Section TokenLimit.
Variable env : Env.
Variable self : BedrockManager.t.

Import BedrockManager AWSServiceBase.

(** The prompts of the successive calls: each is the previous one cut by
    [truncate_prompt]. *)
Fixpoint prompts_sent (depth : nat) (prompt : string) : list string :=
  match depth with
  | O => []
  | S depth' => prompt :: prompts_sent depth' (truncate_prompt prompt)
  end.

Lemma or_default_idem (model_id : option string) :
  or_default env (Some (or_default env model_id)) = or_default env model_id.
Proof.
  unfold or_default at 1.
  destruct (String.eqb (or_default env model_id) EmptyString) eqn:E;
    [| reflexivity].
  apply String.eqb_eq in E. rewrite E.
  unfold or_default in *. destruct model_id as [m |]; [| congruence].
  destruct (String.eqb m EmptyString) eqn:Em; [congruence |].
  subst m. discriminate.
Qed.

Variable msg : string.
Hypothesis always_token_limit :
  forall h request model,
    invoke_model env h request model = Error (ClientError "ValidationException" msg).
Hypothesis msg_says_so : str_contains "token limit exceeded" msg = true.

Lemma attempt_token_limit (prompt model : string) (st : State) :
  attempt env self prompt model st
  = (record_call (InvokeModel (request_text env self prompt) model) st,
     Raise (ClientError "ValidationException" msg)).
Proof. apply attempt_refused. apply always_token_limit. Qed.

Lemma get_inference_token_limit_step (depth' : nat) (prompt : string)
    (model_id : option string) (st : State) :
  get_inference env self (S depth') prompt model_id st
  = get_inference env self depth' (truncate_prompt prompt)
      (Some (or_default env model_id))
      (record_call (InvokeModel (request_text env self prompt) (or_default env model_id)) st).
Proof.
  rewrite get_inference_S. unfold MAX_RETRIES. cbn [inference_loop].
  unfold try_except. rewrite attempt_token_limit.
  unfold is_token_limit, str_exn. rewrite msg_says_so. reflexivity.
Qed.

(** After as many cuts as the prompt has characters, nothing is left of
    it, and the empty prompt is what keeps being sent. *)
Lemma prompts_sent_reach_empty (k : nat) :
  forall (depth : nat) (prompt : string),
    String.length prompt <= k -> k < depth ->
    nth_error (prompts_sent depth prompt) k = Some EmptyString.
Proof.
  induction k as [| k' IH]; intros depth prompt Hlen Hk.
  - destruct depth as [| depth']; [lia |].
    destruct prompt; [reflexivity | simpl in Hlen; lia].
  - destruct depth as [| depth']; [lia |]. cbn [prompts_sent nth_error].
    apply IH; [| lia].
    destruct prompt as [| c rest].
    + rewrite truncate_prompt_empty. simpl. lia.
    + pose proof (truncate_prompt_shorter (String c rest)) as Hs.
      assert (Hne : String c rest <> EmptyString) by discriminate.
      specialize (Hs Hne). lia.
Qed.

(** C2.  Against an oracle that answers every request with the token-limit
    error, [get_inference] has no floor and no terminal error of its own:
    it sends one request per nested call, each with the prompt of the
    previous one cut again, down to the empty prompt and on with it, for as
    many calls as the interpreter allows; what finally comes out is the
    interpreter's [RecursionError]. *)
Theorem C2_truncation_has_no_floor :
  forall (depth : nat) (prompt : string) (model_id : option string) (st : State),
    let r := get_inference env self depth prompt model_id st in
    snd r = Raise recursion_error /\
    calls (fst r)
    = calls st
      ++ map (fun p => InvokeModel (request_text env self p) (or_default env model_id))
           (prompts_sent depth prompt) /\
    List.length (prompts_sent depth prompt) = depth /\
    forall k, String.length prompt <= k -> k < depth ->
              nth_error (prompts_sent depth prompt) k = Some EmptyString.
Proof.
  intros depth prompt model_id st r. subst r.
  split; [| split; [| split]].
  - revert prompt model_id st.
    induction depth as [| depth' IH]; intros prompt model_id st;
      [reflexivity |].
    rewrite get_inference_token_limit_step. apply IH.
  - revert prompt model_id st.
    induction depth as [| depth' IH]; intros prompt model_id st.
    + simpl. rewrite app_nil_r. reflexivity.
    + rewrite get_inference_token_limit_step. rewrite IH.
      rewrite or_default_idem. simpl. rewrite <- app_assoc. reflexivity.
  - revert prompt. induction depth as [| depth' IH]; intros prompt;
      [reflexivity | simpl; rewrite IH; reflexivity].
  - intros k Hlen Hk. apply prompts_sent_reach_empty; assumption.
Qed.

End TokenLimit.

Lemma C2_witness :
  let r := BedrockManager.get_inference DemoLimit.env BedrockManager.__init__
             10 "Analyze" None initial_state in
  snd r = Raise BedrockManager.recursion_error /\
  calls (fst r)
  = calls initial_state
    ++ map (fun p => InvokeModel
                       (request_text DemoLimit.env BedrockManager.__init__ p)
                       (BedrockManager.or_default DemoLimit.env None))
         (prompts_sent 10 "Analyze") /\
  List.length (prompts_sent 10 "Analyze") = 10 /\
  forall k, String.length "Analyze" <= k -> k < 10 ->
            nth_error (prompts_sent 10 "Analyze") k = Some EmptyString.
Proof.
  apply (C2_truncation_has_no_floor DemoLimit.env BedrockManager.__init__
           DemoLimit.message).
  - intros h request model. reflexivity.
  - reflexivity.
Defined.

(** The prompts of that run: seven characters, then four, two, one, none,
    and none again. *)
Example prompts_of_the_run :
  prompts_sent 6 "Analyze" = ["Analyze"; "Anal"; "An"; "A"; EmptyString; EmptyString].
Proof. reflexivity. Qed.

(** ** A throttled endpoint *)

(** The loop inlined in [get_inference] ends as the decorator does: four
    requests, and a sleep after each of them, the last one included. *)
Lemma get_inference_exhaustion (env : Env) (self : BedrockManager.t)
    (depth : nat) (prompt : string) (model_id : option string) (st : State)
    (code msg : string) :
  (forall h request model,
      invoke_model env h request model = Error (ClientError code msg)) ->
  mem_str code BedrockManager.retryable_bedrock_errors = true ->
  BedrockManager.is_token_limit (ClientError code msg) = false ->
  let sent := InvokeModel (request_text env self prompt)
                (BedrockManager.or_default env model_id) in
  let r := BedrockManager.get_inference env self (S depth) prompt model_id st in
  calls (fst r)
  = calls st ++ [sent; Sleep (3 # 2)%Q; sent; Sleep (3 # 1)%Q;
                 sent; Sleep (6 # 1)%Q; sent; Sleep (12 # 1)%Q]
  /\ snd r = Raise (PyError "Exception" "Max retries (4) exceeded").
Proof.
  intros Hrefused Hmem Htoken sent r. subst sent r.
  rewrite get_inference_S. unfold AWSServiceBase.MAX_RETRIES.
  cbn [BedrockManager.inference_loop]. unfold try_except, bind, sleep.
  repeat (rewrite attempt_refused
            with (e := ClientError code msg) by apply Hrefused;
          rewrite Htoken, Hmem; cbn [andb Nat.ltb Nat.leb Nat.sub
                                     AWSServiceBase.MAX_RETRIES]).
  split; [| reflexivity].
  unfold raise. cbn [fst calls record_call].
  repeat rewrite <- app_assoc. reflexivity.
Qed.

(** ** Computations that come back *)

(** [returns m]: whatever the state, [m] ends, with a value or with an
    exception. *)
Definition returns {A} (m : M A) : Prop :=
  forall st, snd (m st) <> Diverge.

Lemma returns_ret {A} (a : A) : returns (ret a).
Proof. intro st. discriminate. Qed.

Lemma returns_raise {A} (e : exn) : returns (@raise A e).
Proof. intro st. discriminate. Qed.

Lemma returns_lift {A} (r : result A) : returns (lift r).
Proof. destruct r; [apply returns_ret | apply returns_raise]. Qed.

Lemma returns_external {A} (c : call) (answer : history -> result A) :
  returns (external c answer).
Proof. intro st. unfold external. simpl. destruct (answer (calls st)); discriminate. Qed.

Lemma returns_sleep (q : Q) : returns (sleep q).
Proof. intro st. discriminate. Qed.

Lemma returns_bind {A B} (m : M A) (k : A -> M B) :
  returns m -> (forall a, returns (k a)) -> returns (bind m k).
Proof.
  intros Hm Hk st. unfold bind. specialize (Hm st).
  destruct (m st) as [st1 [a | e |]]; simpl in *;
    [apply Hk | discriminate | congruence].
Qed.

Lemma returns_try_except {A} (m : M A) (h : exn -> M A) :
  returns m -> (forall e, returns (h e)) -> returns (try_except m h).
Proof.
  intros Hm Hh st. unfold try_except. specialize (Hm st).
  destruct (m st) as [st1 [a | e |]]; simpl in *;
    [discriminate | apply Hh | congruence].
Qed.

Ltac returns_step :=
  first [ apply returns_ret | apply returns_raise | apply returns_lift
        | apply returns_external | apply returns_sleep
        | apply returns_bind; [| intro]
        | apply returns_try_except; [| intro] ].

Lemma bind_Ok_inv {A B} (m : M A) (k : A -> M B) (st st' : State) (b : B) :
  bind m k st = (st', Ok b) ->
  exists a st1, m st = (st1, Ok a) /\ k a st1 = (st', Ok b).
Proof.
  unfold bind. destruct (m st) as [st1 [a | e |]]; intro H;
    [exists a, st1; auto | discriminate | discriminate].
Qed.

Section Steps.
Variable env : Env.

Import DynamoDBManager BedrockManager RecommendationManager
       StockAnalysisOrchestrator AWSServiceBase.

Lemma get_stock_data_returns (table_name stock_id : string) :
  returns (get_stock_data env table_name stock_id).
Proof.
  unfold get_stock_data. returns_step; [returns_step |].
  destruct (items_or_empty (query_Items a)); repeat returns_step.
Qed.

Lemma risk_profile_returns : returns (risk_profile env).
Proof.
  intro st. unfold risk_profile.
  destruct (risk_profile_cache st); [discriminate |].
  revert st. change (returns (fetched <- _fetch_risk_profile env ;;
                              set_risk_profile fetched ;;; ret fetched)).
  unfold _fetch_risk_profile, scan.
  repeat returns_step.
Qed.

Lemma gather_returns (stock_id : string) :
  returns (_gather_stock_data env stock_id).
Proof.
  unfold _gather_stock_data.
  returns_step; [apply get_stock_data_returns |].
  returns_step; [apply get_stock_data_returns |].
  returns_step; [apply get_stock_data_returns |].
  destruct (negb _); [returns_step |].
  returns_step; [apply risk_profile_returns | returns_step].
Qed.

Lemma attempt_returns (self : BedrockManager.t) (prompt model : string) :
  returns (attempt env self prompt model).
Proof. unfold attempt. repeat returns_step. Qed.

Lemma inference_loop_returns (self : BedrockManager.t) (recurse : M pyval)
    (prompt model : string) (remaining : nat) :
  returns recurse ->
  returns (inference_loop env self recurse prompt model remaining).
Proof.
  intro Hrec. induction remaining as [| remaining' IH]; cbn [inference_loop].
  - returns_step.
  - returns_step; [apply attempt_returns |].
    destruct e as [code m | cls m]; [| returns_step].
    destruct (is_token_limit _); [exact Hrec |].
    destruct (_ && _); [| returns_step].
    returns_step; [returns_step | exact IH].
Qed.

Lemma get_inference_returns (self : BedrockManager.t) (depth : nat) :
  forall prompt model_id, returns (get_inference env self depth prompt model_id).
Proof.
  induction depth as [| depth' IH]; intros prompt model_id.
  - apply returns_raise.
  - rewrite get_inference_S. apply inference_loop_returns. apply IH.
Qed.

Lemma store_recommendation_returns (table_name stock_id : string)
    (recommendation : pyval) :
  returns (store_recommendation env table_name stock_id recommendation).
Proof.
  unfold store_recommendation, update_item, now_isoformat.
  returns_step; [returns_step |].
  destruct (negb a); repeat returns_step.
Qed.

(** Whenever [store_recommendation] returns, it returns [True]. *)
Lemma store_recommendation_true (table_name stock_id : string)
    (recommendation : pyval) (st st' : State) (b : bool) :
  store_recommendation env table_name stock_id recommendation st = (st', Ok b) ->
  b = true.
Proof.
  unfold store_recommendation. intro H.
  apply bind_Ok_inv in H. destruct H as [valid [st1 [_ H]]].
  destruct (negb valid); [discriminate |].
  repeat (apply bind_Ok_inv in H; destruct H as [? [? [_ H]]]).
  inversion H. reflexivity.
Qed.

Lemma store_bias_details_returns (table_name : string) (bias : pyval) :
  returns (store_bias_details env table_name bias).
Proof.
  unfold store_bias_details, scan, update_item, now_isoformat.
  returns_step; [returns_step |].
  destruct (negb a); repeat returns_step.
Qed.

Lemma batch_loop_returns (table_name : string) (stock_ids : list string)
    (starts : list nat) :
  forall results, returns (batch_loop env table_name stock_ids starts results).
Proof.
  induction starts as [| i starts' IH]; intro results; cbn [batch_loop].
  - returns_step.
  - returns_step; [returns_step |].
    destruct (Responses a); [| returns_step].
    returns_step; [returns_step | apply IH].
Qed.

Lemma process_stock_body_returns (stock_id : string) :
  returns (process_stock_body env stock_id).
Proof.
  unfold process_stock_body.
  returns_step; [apply gather_returns |].
  destruct (negb (present a)); [returns_step |].
  returns_step; [returns_step |].
  returns_step; [apply get_inference_returns |].
  returns_step; [apply store_recommendation_returns | returns_step].
Qed.

Lemma process_portfolio_body_returns (stock_ids : list string) :
  returns (process_portfolio_body env stock_ids).
Proof.
  unfold process_portfolio_body, batch_get_stock_data.
  returns_step; [apply batch_loop_returns |].
  returns_step; [apply batch_loop_returns |].
  returns_step; [returns_step |].
  returns_step; [apply get_inference_returns |].
  returns_step; [apply store_bias_details_returns | returns_step].
Qed.

(** The record a try block hands back, or the one made from what it
    raised. *)
Definition record_of (stock_id : string) (o : outcome Dict) : Dict :=
  match o with
  | Ok record => record
  | Raise e => error_record stock_id e
  | Diverge => []
  end.

(** [process_stock] always returns a record: the one of its try block, or
    the error record of the exception the block raised. *)
Lemma process_stock_run (stock_id : string) (st : State) :
  process_stock env stock_id st
  = (fst (process_stock_body env stock_id st),
     Ok (record_of stock_id (snd (process_stock_body env stock_id st)))).
Proof.
  unfold process_stock, try_except.
  pose proof (process_stock_body_returns stock_id st) as Hret.
  destruct (process_stock_body env stock_id st) as [st1 [r | e |]];
    simpl in *; [reflexivity | reflexivity | congruence].
Qed.

Lemma process_portfolio_total (stock_ids : list string) (st : State) :
  exists st' analysis, process_portfolio env stock_ids st = (st', Ok analysis).
Proof.
  unfold process_portfolio, try_except.
  pose proof (process_portfolio_body_returns stock_ids st) as Hret.
  destruct (process_portfolio_body env stock_ids st) as [st1 [r | e |]];
    simpl in *; [| | congruence].
  - exists st1, r. reflexivity.
  - eexists. eexists. reflexivity.
Qed.

Definition success_record (stock_id : string) (recommendation : pyval) : Dict :=
  [("stock_id", VStr stock_id); ("success", VBool true);
   ("recommendation", recommendation)].

(** A try block that returns has either skipped the entity for missing
    data or written its recommendation. *)
Lemma process_stock_body_Ok (stock_id : string) (st st' : State) (record : Dict) :
  process_stock_body env stock_id st = (st', Ok record) ->
  record = missing_data stock_id \/
  exists recommendation, record = success_record stock_id recommendation.
Proof.
  unfold process_stock_body. intro H.
  apply bind_Ok_inv in H. destruct H as [stock_data [st1 [_ H]]].
  destruct (negb (present stock_data)).
  - inversion H. left. reflexivity.
  - apply bind_Ok_inv in H. destruct H as [prompt [st2 [_ H]]].
    apply bind_Ok_inv in H. destruct H as [recommendation [st3 [_ H]]].
    apply bind_Ok_inv in H. destruct H as [success [st4 [Hstore H]]].
    apply store_recommendation_true in Hstore. subst success.
    inversion H. right. exists recommendation. reflexivity.
Qed.

End Steps.

(** ** Serialization of the summary *)

Section PyvalInduction.
Variable P : pyval -> Prop.
Hypothesis HNone : P VNone.
Hypothesis HBool : forall b, P (VBool b).
Hypothesis HInt : forall z, P (VInt z).
Hypothesis HFloat : forall r, P (VFloat r).
Hypothesis HDecimal : forall t, P (VDecimal t).
Hypothesis HStr : forall s, P (VStr s).
Hypothesis HList : forall l, Forall P l -> P (VList l).
Hypothesis HDict : forall d, Forall (fun kv => P (snd kv)) d -> P (VDict d).

(** Induction on values, with the hypothesis available for every element
    of a list and every value of a dictionary. *)
Fixpoint pyval_nested_ind (v : pyval) : P v :=
  match v with
  | VNone => HNone
  | VBool b => HBool b
  | VInt z => HInt z
  | VFloat r => HFloat r
  | VDecimal t => HDecimal t
  | VStr s => HStr s
  | VList l =>
      HList l
        ((fix all (l : list pyval) : Forall P l :=
            match l with
            | [] => Forall_nil P
            | x :: l' => Forall_cons x (pyval_nested_ind x) (all l')
            end) l)
  | VDict d =>
      HDict d
        ((fix all (d : list (string * pyval)) : Forall (fun kv => P (snd kv)) d :=
            match d with
            | [] => Forall_nil _
            | kv :: d' =>
                Forall_cons (P := fun kv => P (snd kv)) kv
                  (pyval_nested_ind (snd kv)) (all d')
            end) d)
  end.

End PyvalInduction.

Lemma join_items_Some (parts : list (option string)) :
  Forall (fun p => exists s, p = Some s) parts ->
  exists s, Json.join_items parts = Some s.
Proof.
  induction 1 as [| p rest [s Hs] Hrest [t Ht]].
  - eexists. reflexivity.
  - subst p. cbn [Json.join_items]. rewrite Ht.
    destruct rest; eexists; reflexivity.
Qed.

(** With [default=str] every value serializes. *)
Lemma dumps_default_total (v : pyval) :
  exists s, Json.dumps_with true v = Some s.
Proof.
  induction v using pyval_nested_ind;
    try (eexists; reflexivity).
  - destruct b; eexists; reflexivity.
  - cbn [Json.dumps_with].
    destruct (join_items_Some (map (Json.dumps_with true) l)) as [s Hs].
    { apply Forall_map. exact H. }
    rewrite Hs. eexists. reflexivity.
  - cbn [Json.dumps_with].
    match goal with
    | |- context [Json.join_items ?parts] =>
        destruct (join_items_Some parts) as [s Hs]
    end.
    { apply Forall_map. eapply Forall_impl; [| exact H].
      intros [k x] [sx Hx]. simpl in *. rewrite Hx. eexists. reflexivity. }
    rewrite Hs. eexists. reflexivity.
Qed.

Lemma json_dumps_default_total (v : pyval) :
  exists s, json_dumps true v = Return s.
Proof.
  unfold json_dumps. destruct (dumps_default_total v) as [s Hs].
  rewrite Hs. eexists. reflexivity.
Qed.

(** ** The run as a whole *)

(** The [success] entry of a record, as the loop reads it. *)
Definition flag (record : Dict) : bool :=
  match dict_get "success" record with
  | Some v => truthy v
  | None => false
  end.

Definition succeeded (o : outcome Dict) : bool :=
  match o with Ok record => flag record | _ => false end.

Definition raised (o : outcome Dict) : bool :=
  match o with Raise _ => true | _ => false end.

(** The try block returned, with a record that is not a success. *)
Definition skipped (o : outcome Dict) : bool :=
  match o with Ok record => negb (flag record) | _ => false end.

Definition count {A} (p : A -> bool) (l : list A) : Z :=
  Z.of_nat (List.length (filter p l)).

Section Run.
Variable env : Env.

Import StockAnalysisOrchestrator.

(** What the try block of each entity did, in the order of the loop: each
    block starts from the state its predecessor left, whatever became of
    the predecessor, after the pause between two entities. *)
Fixpoint body_outcomes (stock_ids : list string) (st : State)
  : list (outcome Dict) :=
  match stock_ids with
  | [] => []
  | stock_id :: rest =>
      let r := process_stock_body env stock_id st in
      snd r :: body_outcomes rest (record_call (Sleep CONFIG.api_delay) (fst r))
  end.

Fixpoint state_after (stock_ids : list string) (st : State) : State :=
  match stock_ids with
  | [] => st
  | stock_id :: rest =>
      state_after rest
        (record_call (Sleep CONFIG.api_delay)
           (fst (process_stock_body env stock_id st)))
  end.

Fixpoint records (stock_ids : list string) (outcomes : list (outcome Dict))
  : list pyval :=
  match stock_ids, outcomes with
  | stock_id :: ids, o :: os => VDict (record_of stock_id o) :: records ids os
  | _, _ => []
  end.

(** Every entity has an outcome, and the outcome is a return or a raise. *)
Definition outcome_shape (stock_id : string) (o : outcome Dict) : Prop :=
  match o with
  | Ok record =>
      record = missing_data stock_id \/
      exists recommendation, record = success_record stock_id recommendation
  | Raise _ => True
  | Diverge => False
  end.

Lemma body_outcomes_shape (stock_ids : list string) :
  forall st, Forall2 outcome_shape stock_ids (body_outcomes stock_ids st).
Proof.
  induction stock_ids as [| stock_id rest IH]; intro st; cbn [body_outcomes].
  - constructor.
  - constructor; [| apply IH].
    pose proof (process_stock_body_returns env stock_id st) as Hret.
    destruct (process_stock_body env stock_id st) as [st1 [record | e |]] eqn:E;
      simpl in *; [| exact I | congruence].
    eapply process_stock_body_Ok. exact E.
Qed.

Lemma success_entry (stock_id : string) (o : outcome Dict) :
  outcome_shape stock_id o ->
  py_getitem (VDict (record_of stock_id o)) "success" = Return (VBool (succeeded o)).
Proof.
  destruct o as [record | e |]; simpl; intro H.
  - destruct H as [-> | [recommendation ->]]; reflexivity.
  - reflexivity.
  - contradiction.
Qed.

Lemma shape_classes (stock_id : string) (o : outcome Dict) :
  outcome_shape stock_id o ->
  succeeded o = negb (raised o || skipped o).
Proof.
  destruct o as [record | e |]; simpl; intro H;
    [destruct (flag record); reflexivity | reflexivity | contradiction].
Qed.

Lemma count_cons {A} (p : A -> bool) (x : A) (l : list A) :
  count p (x :: l) = ((if p x then 1 else 0) + count p l)%Z.
Proof.
  unfold count. cbn [filter]. destruct (p x); [| lia].
  cbn [List.length]. rewrite Nat2Z.inj_succ. lia.
Qed.

Lemma stock_loop_run (stock_ids : list string) :
  forall (acc : Tally) (st : State),
    let outcomes := body_outcomes stock_ids st in
    stock_loop env stock_ids acc st
    = (state_after stock_ids st,
       Ok {| results := results acc ++ records stock_ids outcomes;
             successful_count := (successful_count acc + count succeeded outcomes)%Z;
             error_count :=
               (error_count acc + (count raised outcomes + count skipped outcomes))%Z |}).
Proof.
  induction stock_ids as [| stock_id rest IH]; intros acc st outcomes;
    subst outcomes.
  - simpl. unfold ret, count. simpl. rewrite app_nil_r, !Z.add_0_r.
    destruct acc; reflexivity.
  - pose proof (body_outcomes_shape (stock_id :: rest) st) as Hshape.
    cbn [body_outcomes] in *. inversion Hshape as [| ? o ? os Ho Hos]; subst.
    cbn [stock_loop state_after records]. unfold bind at 1.
    rewrite process_stock_run. unfold bind at 1.
    rewrite (success_entry _ _ Ho). cbn [lift ret truthy].
    unfold bind at 1. cbn [sleep]. rewrite IH.
    cbn [results successful_count error_count].
    rewrite !count_cons. rewrite (shape_classes _ _ Ho).
    f_equal. f_equal. f_equal.
    + rewrite <- app_assoc. reflexivity.
    + destruct (raised _ || skipped _) eqn:E; cbn [negb]; lia.
    + destruct (raised (snd (process_stock_body env stock_id st))) eqn:Er;
        destruct (skipped (snd (process_stock_body env stock_id st))) eqn:Es;
        cbn [negb orb]; try lia.
      destruct (snd (process_stock_body env stock_id st)); discriminate.
Qed.

(** The tally of a run over [stock_ids] that starts in [st]. *)
Definition tally (stock_ids : list string) (st : State) : Tally :=
  let outcomes := body_outcomes stock_ids st in
  {| results := records stock_ids outcomes;
     successful_count := count succeeded outcomes;
     error_count := (count raised outcomes + count skipped outcomes)%Z |}.

Lemma lambda_handler_listed (fuel : nat) (st st1 : State) (stock_ids : list string) :
  DynamoDBManager.get_stock_ids env fuel CONFIG.stock_ids_table (reset st)
  = (st1, Ok stock_ids) ->
  exists analysis st2 body,
    process_portfolio env stock_ids st1 = (st2, Ok analysis) /\
    json_dumps true (summary stock_ids analysis (tally stock_ids st2))
    = Return body /\
    lambda_handler env fuel st
    = (state_after stock_ids st2,
       Ok [("statusCode", VInt 200); ("body", VStr body)]).
Proof.
  intro Hlist.
  destruct (process_portfolio_total env stock_ids st1) as [st2 [analysis Hpf]].
  destruct (json_dumps_default_total
              (summary stock_ids analysis (tally stock_ids st2))) as [body Hbody].
  exists analysis, st2, body.
  split; [exact Hpf |]. split; [exact Hbody |].
  unfold lambda_handler, try_except, lambda_handler_body.
  unfold bind at 1. cbn [__init__ DynamoDBManager.set_risk_profile].
  fold (reset st). unfold bind at 1. rewrite Hlist.
  unfold bind at 1. rewrite Hpf.
  unfold bind at 1. rewrite stock_loop_run.
  cbn [results successful_count error_count app]. rewrite !Z.add_0_l.
  fold (tally stock_ids st2).
  unfold bind at 1. rewrite Hbody. reflexivity.
Qed.

Lemma lambda_handler_not_listed (fuel : nat) (st st1 : State) (e : exn) :
  DynamoDBManager.get_stock_ids env fuel CONFIG.stock_ids_table (reset st)
  = (st1, Raise e) ->
  exists body,
    json_dumps false (failure e) = Return body /\
    lambda_handler env fuel st
    = (st1, Ok [("statusCode", VInt 500); ("body", VStr body)]).
Proof.
  intro Hlist. eexists. split; [reflexivity |].
  unfold lambda_handler, try_except, lambda_handler_body.
  unfold bind at 1. cbn [__init__ DynamoDBManager.set_risk_profile].
  fold (reset st). unfold bind at 1. rewrite Hlist. reflexivity.
Qed.



Lemma counts_add_up (stock_ids : list string) (outcomes : list (outcome Dict)) :
  Forall2 outcome_shape stock_ids outcomes ->
  (count succeeded outcomes + (count raised outcomes + count skipped outcomes)
   = Z.of_nat (List.length stock_ids))%Z.
Proof.
  induction 1 as [| stock_id o ids os Ho Hos IH].
  - reflexivity.
  - rewrite !count_cons. cbn [List.length]. rewrite Nat2Z.inj_succ.
    rewrite (shape_classes _ _ Ho).
    destruct (raised o) eqn:Er; destruct (skipped o) eqn:Es;
      cbn [negb orb]; try lia.
    destruct o; discriminate.
Qed.

End Run.

(** ** Isolation when the answers do not depend on the past *)

(** Every service answers a call by its arguments alone, and the clock
    stands still: the world of a test with canned replies. *)
Record history_independent (env : Env) : Prop := {
  hi_scan : forall h h' t p, table_scan env h t p = table_scan env h' t p;
  hi_query : forall h h' t k, table_query env h t k = table_query env h' t k;
  hi_batch : forall h h' t ks, batch_get_item env h t ks = batch_get_item env h' t ks;
  hi_update : forall h h' t p,
      table_update_item env h t p = table_update_item env h' t p;
  hi_invoke : forall h h' r m, invoke_model env h r m = invoke_model env h' r m;
  hi_now : forall h h', datetime_now env h = datetime_now env h'
}.










Section Stateless.
Variable env : Env.
Hypothesis HI : history_independent env.

Import DynamoDBManager BedrockManager RecommendationManager
       StockAnalysisOrchestrator AWSServiceBase.














(** An entity processed on its own, from the initial state. *)
Definition alone (stock_id : string) : outcome Dict :=
  snd (process_stock_body env stock_id initial_state).











End Stateless.


(** C7, amended.  When the identifiers have been listed, the handler
    answers 200 with the serialization of an object whose entries are
    [message], [total_processed], [successful], [failed],
    [portfolio_analysis] and [results], and no other: there is no count of
    skipped entities.  [failed] is the number of entities whose step raised
    plus the number of entities skipped for missing data, and
    [successful + failed = total_processed]. *)
Theorem C7_summary_counts_skips_as_failed :
  forall (env : Env) (fuel : nat) (st st1 : State) (stock_ids : list string),
    DynamoDBManager.get_stock_ids env fuel CONFIG.stock_ids_table (reset st)
    = (st1, Ok stock_ids) ->
    exists st2 analysis body successful failed,
      StockAnalysisOrchestrator.process_portfolio env stock_ids st1
      = (st2, Ok analysis) /\
      let outcomes := body_outcomes env stock_ids st2 in
      snd (lambda_handler env fuel st)
      = Ok [("statusCode", VInt 200); ("body", VStr body)] /\
      json_dumps true
        (VDict [("message", VStr "Processing complete");
                ("total_processed", VInt (Z.of_nat (List.length stock_ids)));
                ("successful", VInt successful);
                ("failed", VInt failed);
                ("portfolio_analysis", analysis);
                ("results", VList (records stock_ids outcomes))])
      = Return body /\
      successful = count succeeded outcomes /\
      failed = (count raised outcomes + count skipped outcomes)%Z /\
      (successful + failed = Z.of_nat (List.length stock_ids))%Z /\
      (forall stock_id,
          skipped (Ok (StockAnalysisOrchestrator.missing_data stock_id)) = true).
Proof.
  intros env fuel st st1 stock_ids Hlist.
  destruct (lambda_handler_listed env fuel st st1 stock_ids Hlist)
    as [analysis [st2 [body [Hpf [Hbody Hrun]]]]].
  exists st2, analysis, body,
    (count succeeded (body_outcomes env stock_ids st2)),
    (count raised (body_outcomes env stock_ids st2)
     + count skipped (body_outcomes env stock_ids st2))%Z.
  split; [exact Hpf |]. cbv zeta.
  split; [rewrite Hrun; reflexivity |].
  split; [exact Hbody |].
  split; [reflexivity |]. split; [reflexivity |].
  split; [apply counts_add_up; apply body_outcomes_shape |].
  intro stock_id. reflexivity.
Qed.

(** Entity BBB fails at the model endpoint; the recommendations of AAA and
    CCC are written all the same, and the bias record before them. *)
Example isolation_run :
  update_keys (calls (fst (lambda_handler DemoRun.env 3 initial_state)))
  = [[("userId", VStr "user-1")]; [("stockId", VStr "AAA")];
     [("stockId", VStr "CCC")]].
Proof. vm_compute. reflexivity. Qed.

(** C7, as stated, fails: in this run one entity raises and one is skipped
    for missing data; the serialized object has no [skipped] entry and
    counts both under [failed]. *)
Lemma C7_counterexample :
  exists body,
    DemoRun.answer = Ok [("statusCode", VInt 200); ("body", VStr body)] /\
    json_dumps true (VDict DemoRun.expected_summary) = Return body /\
    dict_get "skipped" DemoRun.expected_summary = None /\
    str_contains "skipped" body = false /\
    dict_get "failed" DemoRun.expected_summary = Some (VInt 2) /\
    In (VDict (StockAnalysisOrchestrator.missing_data "DDD"))
       (match dict_get "results" DemoRun.expected_summary with
        | Some (VList l) => l
        | _ => []
        end).
Proof.
  eexists. split; [vm_compute; reflexivity |].
  split; [vm_compute; reflexivity |].
  split; [reflexivity |].
  split; [vm_compute; reflexivity |].
  split; [reflexivity |].
  simpl. auto 6.
Qed.

Lemma C7_witness :
  exists st2 analysis body successful failed,
    StockAnalysisOrchestrator.process_portfolio DemoRun.env DemoStates.ids
      DemoStates.listed = (st2, Ok analysis) /\
    let outcomes := body_outcomes DemoRun.env DemoStates.ids st2 in
    snd (lambda_handler DemoRun.env 3 initial_state)
    = Ok [("statusCode", VInt 200); ("body", VStr body)] /\
    json_dumps true
      (VDict [("message", VStr "Processing complete");
              ("total_processed", VInt (Z.of_nat (List.length DemoStates.ids)));
              ("successful", VInt successful);
              ("failed", VInt failed);
              ("portfolio_analysis", analysis);
              ("results", VList (records DemoStates.ids outcomes))])
    = Return body /\
    successful = count succeeded outcomes /\
    failed = (count raised outcomes + count skipped outcomes)%Z /\
    (successful + failed = Z.of_nat (List.length DemoStates.ids))%Z /\
    (forall stock_id,
        skipped (Ok (StockAnalysisOrchestrator.missing_data stock_id)) = true).
Proof.
  apply (C7_summary_counts_skips_as_failed DemoRun.env 3 initial_state
           DemoStates.listed DemoStates.ids).
  vm_compute. reflexivity.
Defined.

Lemma demo_history_independent : history_independent DemoRun.env.
Proof. constructor; intros; reflexivity. Qed.


(** In that run one entity raises and one is skipped; the two others are
    not affected. *)
Example isolation_counts :
  map (fun o => (succeeded o, raised o, skipped o))
      (map (alone DemoRun.env) DemoStates.ids)
  = [(true, false, false); (false, true, false);
     (true, false, false); (false, false, true)].
Proof. vm_compute. reflexivity. Qed.

(** Two worlds that differ in one answer only: in the second the earnings
    read of AAA raises.  In both the profile store serves the profile while
    fewer than four source reads have been made, and refuses afterwards. *)
Module DemoOutage.

Definition is_query (c : call) : bool :=
  match c with
  | Query _ _ => true
  | _ => false
  end.

Definition tables : history -> string -> ScanParams -> result ScanReply :=
  fun h table _ =>
    if String.eqb table CONFIG.stock_ids_table then
      Return {| scan_Items := Some [DemoRun.item "AAA"; DemoRun.item "BBB"];
                LastEvaluatedKey := None |}
    else if (List.length (filter is_query h) <? 4)%nat then
      Return {| scan_Items := Some [[("userId", VStr "user-1");
                                     ("riskProfile", VStr "moderate")]];
                LastEvaluatedKey := None |}
    else Error (ClientError "ProvisionedThroughputExceededException"
                  "profile store: rate exceeded").

Definition sources : history -> string -> string -> result QueryReply :=
  fun _ _ stock_id => Return {| query_Items := Some [DemoRun.item stock_id] |}.






End DemoOutage.


(** * Further properties of the code *)

(** ** The shape of a retried call *)

(** [to_outcome]: what an answer becomes inside the monad. *)
Definition to_outcome {A} (r : result A) : outcome A :=
  match r with
  | Return a => Ok a
  | Error e => Raise e
  end.

(** The state with the same cache and another history. *)
Definition with_calls (st : State) (h : history) : State :=
  {| calls := h; risk_profile_cache := risk_profile_cache st |}.

Lemma with_calls_same (st : State) : with_calls st (calls st) = st.
Proof. destruct st; reflexivity. Qed.

(** An outcome the loop answers with a sleep and one more attempt. *)
Definition retried {A} (retryable_errors : list string) (o : outcome A) : Prop :=
  exists code msg,
    o = Raise (ClientError code msg) /\ mem_str code retryable_errors = true.

Section RetryShape.

Import AWSServiceBase.

(** [k] failed attempts of [c], each followed by its sleep, the first of
    them made when [retry_count] retries had already been counted. *)
Fixpoint failed_attempts (c : call) (k retry_count : nat) : list call :=
  match k with
  | O => []
  | S k' =>
      c :: Sleep (wait_time (S retry_count))
        :: failed_attempts c k' (S retry_count)
  end.

Lemma with_calls_after_retry (st : State) (c : call) (w : Q) (h : history) :
  let st2 := record_call (Sleep w) (record_call c st) in
  with_calls st2 (calls st2 ++ h) = with_calls st (calls st ++ c :: Sleep w :: h).
Proof.
  unfold with_calls, record_call. cbn [calls risk_profile_cache].
  rewrite <- !app_assoc. reflexivity.
Qed.

(** The loop around an operation [func] that makes the one call [c]. *)
Lemma wrapper_loop_shape {A} (c : call) (func : M A)
    (retryable_errors : list string) (remaining : nat) :
  (forall st, fst (func st) = record_call c st) ->
  forall st,
    remaining <= MAX_RETRIES ->
    let retry_count := MAX_RETRIES - remaining in
    let r := wrapper_loop retryable_errors func remaining st in
    let tried := fun k =>
      snd (func (with_calls st (calls st ++ failed_attempts c k retry_count))) in
    (exists k,
        k < remaining /\
        (forall j, j < k -> retried retryable_errors (tried j)) /\
        ~ retried retryable_errors (tried k) /\
        calls (fst r) = calls st ++ failed_attempts c k retry_count ++ [c] /\
        snd r = tried k)
    \/ ((forall j, j < remaining -> retried retryable_errors (tried j)) /\
        calls (fst r) = calls st ++ failed_attempts c remaining retry_count /\
        snd r = Raise max_retries_exceeded).
Proof.
  intro Hfunc.
  induction remaining as [| remaining' IH]; intros st Hle retry_count r tried;
    subst retry_count r tried.
  - right. cbn [wrapper_loop raise fst snd failed_attempts].
    rewrite app_nil_r. split; [intros j Hj; lia |]. split; reflexivity.
  - set (rc := MAX_RETRIES - S remaining').
    assert (Hfirst : with_calls st (calls st ++ failed_attempts c 0 rc) = st).
    { cbn [failed_attempts]. rewrite app_nil_r. apply with_calls_same. }
    assert (Hstop : forall o : outcome A,
               snd (func st) = o ->
               ~ retried retryable_errors o ->
               exists k, k < S remaining' /\
                 (forall j, j < k ->
                    retried retryable_errors
                      (snd (func (with_calls st
                                    (calls st ++ failed_attempts c j rc))))) /\
                 ~ retried retryable_errors
                     (snd (func (with_calls st
                                   (calls st ++ failed_attempts c k rc)))) /\
                 calls (record_call c st)
                 = calls st ++ failed_attempts c k rc ++ [c] /\
                 o = snd (func (with_calls st
                                  (calls st ++ failed_attempts c k rc)))).
    { intros o Ho Hno. exists 0. split; [lia |].
      split; [intros j Hj; lia |]. rewrite Hfirst, Ho.
      split; [exact Hno |]. split; reflexivity. }
    cbn [wrapper_loop]. unfold try_except.
    rewrite (surjective_pairing (func st)), Hfunc.
    destruct (snd (func st)) as [a | e |] eqn:Hans.
    + left. apply Hstop; [reflexivity |].
      intros [code [msg [H _]]]. discriminate.
    + destruct e as [code msg | cls msg].
      * destruct (mem_str code retryable_errors) eqn:Hmem; cbn [andb].
        -- replace (MAX_RETRIES - S remaining' <? MAX_RETRIES)%nat with true
             by (symmetry; apply Nat.ltb_lt; unfold MAX_RETRIES in *; lia).
           unfold bind, sleep. cbv beta iota.
           fold rc.
           assert (Hle' : remaining' <= MAX_RETRIES) by lia.
           specialize (IH (record_call (Sleep (wait_time (S rc)))
                             (record_call c st)) Hle').
           cbv zeta in IH.
           replace (MAX_RETRIES - remaining') with (S rc) in IH
             by (unfold rc, MAX_RETRIES in *; lia).
           assert (Hshift : forall j,
                      with_calls (record_call (Sleep (wait_time (S rc)))
                                    (record_call c st))
                        (calls (record_call (Sleep (wait_time (S rc)))
                                  (record_call c st))
                         ++ failed_attempts c j (S rc))
                      = with_calls st (calls st ++ failed_attempts c (S j) rc)).
           { intro j. apply with_calls_after_retry. }
           assert (Hnow : retried retryable_errors
                            (snd (func (with_calls st
                                          (calls st ++ failed_attempts c 0 rc))))).
           { rewrite Hfirst, Hans. exists code, msg. auto. }
           cbn [calls record_call] in IH.
           destruct IH as [[k [Hk [Hbefore [Hlast [Hcalls Hout]]]]]
                          | [Hall [Hcalls Hout]]].
           ++ left. exists (S k). split; [lia |].
              split.
              { intros [| j] Hj; [exact Hnow |].
                rewrite <- Hshift. apply Hbefore. lia. }
              rewrite <- Hshift.
              split; [exact Hlast |].
              rewrite Hcalls, Hout. cbn [failed_attempts calls record_call].
              repeat rewrite <- app_assoc. split; reflexivity.
           ++ right.
              split.
              { intros [| j] Hj; [exact Hnow |].
                rewrite <- Hshift. apply Hall. lia. }
              rewrite Hcalls, Hout. cbn [failed_attempts].
              repeat rewrite <- app_assoc. split; reflexivity.
        -- left. apply Hstop; [reflexivity |].
           intros [code' [msg' [H Hm]]]. inversion H; subst. congruence.
      * left. apply Hstop; [reflexivity |].
        intros [code' [msg' [H _]]]. discriminate.
    + left. apply Hstop; [reflexivity |].
      intros [code [msg [H _]]]. discriminate.
Qed.

(** X1.  Whatever the wrapped operation answers, call after call,
    [retry_with_backoff] makes at most four attempts.  Either one of them
    ends the call with its own outcome: it is the first attempt that
    returns, or fails with an error that is not a retryable client error,
    and one sleep was made after each earlier attempt.  Or all four fail
    with retryable errors, each is followed by its sleep, the last one
    included, and the outcome is "Max retries (4) exceeded". *)
Theorem retry_with_backoff_shape :
  forall (A : Type) (c : call) (answer : history -> result A)
         (retryable_errors : option (list string)) (st : State),
    let errors :=
      match retryable_errors with
      | None => ["ProvisionedThroughputExceededException"; "ThrottlingException"]
      | Some l => l
      end in
    let r := retry_with_backoff retryable_errors (external c answer) st in
    let tried := fun k =>
      to_outcome (answer (calls st ++ failed_attempts c k 0)) in
    (exists k,
        k < 4 /\
        (forall j, j < k -> retried errors (tried j)) /\
        ~ retried errors (tried k) /\
        calls (fst r) = calls st ++ failed_attempts c k 0 ++ [c] /\
        snd r = tried k)
    \/ ((forall j, j < 4 -> retried errors (tried j)) /\
        calls (fst r) = calls st ++ failed_attempts c 4 0 /\
        snd r = Raise (PyError "Exception" "Max retries (4) exceeded")).
Proof.
  intros A c answer retryable_errors st errors r tried. subst errors r tried.
  unfold retry_with_backoff.
  exact (wrapper_loop_shape c (external c answer) _ MAX_RETRIES
           (fun _ => eq_refl) st (le_n _)).
Qed.

End RetryShape.

(** ** Validation, sanitizing and conversion of records *)

Section Records.

Import DataValidationMixin.

Lemma py_getitem_dict (data : pyval) (k : string) (v : pyval) :
  py_getitem data k = Return v ->
  exists d, data = VDict d /\ dict_get k d = Some v.
Proof.
  destruct data; simpl; try discriminate.
  destruct (dict_get k d) as [x |] eqn:E; [| discriminate].
  intro H. inversion H; subst. eauto.
Qed.

Lemma field_ok_spec (d : Dict) (f : string) :
  field_ok d f = true <-> exists v, dict_get f d = Some v /\ v <> VNone.
Proof.
  unfold field_ok. destruct (dict_get f d) as [v |].
  - destruct v; simpl; split; intro H;
      try (eexists; split; [reflexivity | discriminate]);
      try reflexivity; try discriminate.
    destruct H as [v [Hv Hn]]. inversion Hv; subst. congruence.
  - split; [discriminate | intros [v [Hv _]]; discriminate].
Qed.

(** X2.  With at least one required field, [validate_required_fields] answers
    [True] exactly for a dictionary that holds every required field with a
    value other than [None]; on anything else (a list, a string, a number)
    it answers [False] or raises, never [True]. *)
Theorem validate_required_fields_true_iff :
  forall (data : pyval) (required_fields : list string),
    required_fields <> [] ->
    (validate_required_fields data required_fields = Return true <->
     exists d, data = VDict d /\
               forall f, In f required_fields ->
                         exists v, dict_get f d = Some v /\ v <> VNone).
Proof.
  intros data fields Hne. split.
  - intro Hv. destruct fields as [| f0 rest]; [congruence |].
    destruct (validate_true_getitem data (f0 :: rest) Hv f0) as [v0 Hg0];
      [left; reflexivity |].
    destruct (py_getitem_dict _ _ _ Hg0) as [d [-> _]].
    exists d. split; [reflexivity |].
    rewrite validate_required_fields_dict in Hv.
    assert (Hall : forallb (field_ok d) (f0 :: rest) = true) by congruence.
    pose proof (proj1 (forallb_forall _ _) Hall) as Hforall.
    intros f Hin. apply field_ok_spec. apply Hforall. exact Hin.
  - intros [d [-> Hall]]. rewrite validate_required_fields_dict. f_equal.
    apply forallb_forall. intros f Hin. apply field_ok_spec. apply Hall. exact Hin.
Qed.

Lemma validate_required_fields_witness :
  validate_required_fields
    (VDict [("recommendation", VStr "HOLD"); ("confidence_score", VInt 55)])
    ["recommendation"; "confidence_score"] = Return true <->
  exists d,
    VDict [("recommendation", VStr "HOLD"); ("confidence_score", VInt 55)] = VDict d /\
    forall f, In f ["recommendation"; "confidence_score"] ->
              exists v, dict_get f d = Some v /\ v <> VNone.
Proof.
  apply (validate_required_fields_true_iff
           (VDict [("recommendation", VStr "HOLD"); ("confidence_score", VInt 55)])
           ["recommendation"; "confidence_score"]).
  discriminate.
Defined.

(** A string that is not a verdict at all: the field name occurs in it, and
    the subscript raises. *)
Example validate_on_a_string :
  validate_required_fields (VStr "my recommendation is BUY") ["recommendation"]
  = Error (type_error "string indices must be integers, not 'str'").
Proof. reflexivity. Qed.

Variable env : Env.

(** A string that [sanitize_data] turns into a [Decimal]. *)
Definition numeric_looking (v : pyval) : bool :=
  match v with
  | VStr s => isdigit (remove_dots s)
  | _ => false
  end.

Lemma sanitize_loop_spec (items : Dict) :
  forall r,
    sanitize_loop env items = Return r ->
    dict_keys r = dict_keys items /\
    Forall2 (fun kv kv' =>
               if numeric_looking (snd kv)
               then exists s, snd kv = VStr s /\ snd kv' = VDecimal s
               else snd kv' = snd kv) items r.
Proof.
  induction items as [| [k v] rest IH]; intros r Hr.
  - inversion Hr. split; [reflexivity | constructor].
  - cbn [sanitize_loop] in Hr.
    destruct (match v with
              | VStr s => if isdigit (remove_dots s) then to_Decimal env s
                          else Return v
              | _ => Return v
              end) as [v' |] eqn:Ev; cbn [rbind] in Hr; [| discriminate].
    destruct (sanitize_loop env rest) as [rest' |] eqn:Er; cbn [rbind] in Hr;
      [| discriminate].
    inversion Hr; subst r. destruct (IH rest' eq_refl) as [Hk Hv].
    split; [simpl; f_equal; exact Hk |].
    constructor; [| exact Hv]. cbn [snd numeric_looking].
    destruct v; try (inversion Ev; subst; reflexivity).
    cbn [numeric_looking]. destruct (isdigit (remove_dots s)); cbv iota.
    + unfold to_Decimal in Ev. destruct (Decimal_accepts env s); [| discriminate].
      inversion Ev. exists s. split; reflexivity.
    + inversion Ev. reflexivity.
Qed.

Lemma sanitize_result_clean :
  forall (data r : Dict),
    sanitize_data env data = Return r ->
    dict_keys r = dict_keys (filter (fun kv => kept (snd kv)) data) /\
    Forall (fun kv => kept (snd kv) = true /\ numeric_looking (snd kv) = false) r.
Proof.
  intros data r Hr. unfold sanitize_data in Hr.
  destruct (sanitize_loop_spec _ _ Hr) as [Hk Hv].
  split; [exact Hk |].
  assert (Hkept : Forall (fun kv => kept (snd kv) = true)
                    (filter (fun kv => kept (snd kv)) data)).
  { apply Forall_forall. intros kv Hin. apply filter_In in Hin. apply Hin. }
  clear Hr Hk.
  set (items := filter (fun kv => kept (snd kv)) data) in *. clearbody items.
  revert Hkept. induction Hv as [| kv kv' l l' Hhead Htail IH]; intro Hkept;
    [constructor |].
  inversion Hkept as [| ? ? Hk1 Hk2]; subst.
  constructor; [| apply IH; exact Hk2].
  destruct (numeric_looking (snd kv)) eqn:En.
  - destruct Hhead as [s [_ ->]]. split; reflexivity.
  - rewrite Hhead. split; assumption.
Qed.



Lemma sanitize_fixed (items : Dict) :
  Forall (fun kv => kept (snd kv) = true /\ numeric_looking (snd kv) = false) items ->
  sanitize_data env items = Return items.
Proof.
  intro H. unfold sanitize_data.
  replace (filter (fun kv => kept (snd kv)) items) with items.
  - induction H as [| [k v] rest [_ Hn] Hrest IH]; [reflexivity |].
    cbn [sanitize_loop]. rewrite IH. cbn [snd] in Hn.
    destruct v; try reflexivity.
    cbn [numeric_looking] in Hn. rewrite Hn. reflexivity.
  - induction H as [| kv rest [Hk _] Hrest IH]; [reflexivity |].
    cbn [filter]. rewrite Hk. f_equal. exact IH.
Qed.

(** X4.  Sanitizing twice changes nothing more: what [sanitize_data] returns, it
    returns unchanged when given it again. *)
Theorem sanitize_data_idempotent :
  forall (data r : Dict),
    sanitize_data env data = Return r ->
    sanitize_data env r = Return r.
Proof.
  intros data r Hr. apply sanitize_fixed.
  apply (sanitize_result_clean data r Hr).
Qed.

(** A string that passes the digit test of [sanitize_data] (with its dots
    removed it is a non-empty string of digits) and that the [Decimal]
    constructor refuses, such as "1.2.3".  A string of dots alone does not
    pass the test and is never handed to [Decimal]. *)
Definition refused_number (kv : string * pyval) : Prop :=
  exists s, snd kv = VStr s /\ isdigit (remove_dots s) = true
            /\ Decimal_accepts env s = false.

Definition invalid_operation : exn :=
  PyError "InvalidOperation" "[<class 'decimal.ConversionSyntax'>]".

Lemma refused_number_dec (kv : string * pyval) :
  {refused_number kv} + {~ refused_number kv}.
Proof.
  destruct kv as [k v]. unfold refused_number. cbn [snd].
  destruct v; try (right; intros [s [Hs _]]; discriminate).
  destruct (isdigit (remove_dots s)) eqn:Ed;
    [| right; intros [s' [Hs [Hd _]]]; inversion Hs; subst; congruence].
  destruct (Decimal_accepts env s) eqn:Ea;
    [right; intros [s' [Hs [_ Hr]]]; inversion Hs; subst; congruence |].
  left. exists s. auto.
Qed.

Lemma isdigit_kept (s : string) :
  isdigit (remove_dots s) = true -> kept (VStr s) = true.
Proof. destruct s; [discriminate | reflexivity]. Qed.

Lemma sanitize_loop_raises (items : Dict) :
  (Exists refused_number items -> sanitize_loop env items = Error invalid_operation)
  /\ (~ Exists refused_number items -> exists r, sanitize_loop env items = Return r).
Proof.
  induction items as [| [k v] rest [IHbad IHgood]].
  - split; [intro H; inversion H | intros _; eexists; reflexivity].
  - assert (Hhead :
      (refused_number (k, v) /\
       match v with
       | VStr s => if isdigit (remove_dots s) then to_Decimal env s else Return v
       | _ => Return v
       end = Error invalid_operation)
      \/ (~ refused_number (k, v) /\
          exists v',
            match v with
            | VStr s => if isdigit (remove_dots s) then to_Decimal env s else Return v
            | _ => Return v
            end = Return v')).
    { unfold refused_number. cbn [snd].
      destruct v;
        try (right; split; [intros [s [Hs _]]; discriminate | eexists; reflexivity]).
      destruct (isdigit (remove_dots s)) eqn:Ed.
      - unfold to_Decimal. destruct (Decimal_accepts env s) eqn:Ea.
        + right. split; [| eexists; reflexivity].
          intros [s' [Hs [_ Hr]]]. inversion Hs; subst. congruence.
        + left. split; [exists s; auto | reflexivity].
      - right. split; [| eexists; reflexivity].
        intros [s' [Hs [Hd _]]]. inversion Hs; subst. congruence. }
    cbn [sanitize_loop].
    destruct Hhead as [[Hbad ->] | [Hok [v' ->]]]; cbn [rbind].
    + split; [reflexivity |]. intro Hno. exfalso. apply Hno. left. exact Hbad.
    + split.
      * intro Hex. inversion Hex as [? ? H | ? ? H]; subst; [contradiction |].
        rewrite (IHbad H). reflexivity.
      * intro Hno. destruct IHgood as [r ->].
        { intro H. apply Hno. right. exact H. }
        eexists. reflexivity.
Qed.

(** X5.  [sanitize_data] raises exactly when a value of the record is a string
    that passes the digit test [value.replace('.', '').isdigit()] (at
    least one digit, and nothing but digits and dots) and that the
    [Decimal] constructor refuses, such as "1.2.3"; the exception is then
    [InvalidOperation], and no other is ever raised.  A string that fails
    the test is not handed to [Decimal], whether [Decimal] would take it or
    not: a record whose strings all fail the test is returned, a string of
    dots alone included. *)
Theorem sanitize_data_raises_iff :
  forall data : Dict,
    (Exists (fun kv => exists s,
                 snd kv = VStr s /\ isdigit (remove_dots s) = true /\
                 Decimal_accepts env s = false) data
     <-> sanitize_data env data = Error invalid_operation)
    /\ (forall e, sanitize_data env data = Error e -> e = invalid_operation)
    /\ ((forall k s, In (k, VStr s) data -> isdigit (remove_dots s) = false) ->
        exists r, sanitize_data env data = Return r)
    /\ isdigit (remove_dots ".") = false.
Proof.
  intro data.
  change (fun kv : string * pyval =>
            exists s, snd kv = VStr s /\ isdigit (remove_dots s) = true /\
                      Decimal_accepts env s = false) with refused_number.
  assert (Hmain :
            (Exists refused_number data
             <-> sanitize_data env data = Error invalid_operation)
            /\ (forall e, sanitize_data env data = Error e -> e = invalid_operation));
    [| destruct Hmain as [Hiff Honly];
       split; [exact Hiff |]; split; [exact Honly |];
       split; [| reflexivity];
       intro Hfail;
       destruct (sanitize_data env data) as [r | e] eqn:E;
       [exists r; reflexivity |];
       exfalso; pose proof (Honly e eq_refl) as He; subst e;
       pose proof (proj2 Hiff eq_refl) as Hex; apply Exists_exists in Hex;
       destruct Hex as [[k v] [Hin [s [Hs [Hd _]]]]]; cbn [snd] in Hs; subst v;
       rewrite (Hfail k s Hin) in Hd; discriminate].
  unfold sanitize_data.
  assert (Hfilter : Exists refused_number data
                    <-> Exists refused_number (filter (fun kv => kept (snd kv)) data)).
  { rewrite !Exists_exists. split.
    - intros [kv [Hin Hbad]]. exists kv. split; [| exact Hbad].
      apply filter_In. split; [exact Hin |].
      destruct Hbad as [s [Hs [Hd _]]]. rewrite Hs. apply isdigit_kept. exact Hd.
    - intros [kv [Hin Hbad]]. exists kv. split; [| exact Hbad].
      apply filter_In in Hin. apply Hin. }
  destruct (sanitize_loop_raises (filter (fun kv => kept (snd kv)) data))
    as [Hbad Hgood].
  assert (Hdec : Exists refused_number (filter (fun kv => kept (snd kv)) data)
                 \/ ~ Exists refused_number (filter (fun kv => kept (snd kv)) data)).
  { destruct (Exists_dec refused_number
                (filter (fun kv => kept (snd kv)) data) refused_number_dec);
      [left | right]; assumption. }
  split.
  - rewrite Hfilter. split; [exact Hbad |].
    intro E. destruct Hdec as [H | H]; [exact H |].
    destruct (Hgood H) as [r Hr]. rewrite Hr in E. discriminate.
  - intros e E. destruct Hdec as [H | H].
    + rewrite (Hbad H) in E. congruence.
    + destruct (Hgood H) as [r Hr]. rewrite Hr in E. discriminate.
Qed.

End Records.


Module DemoRecords.

(** A [Decimal] constructor that takes digits with at most one dot. *)
Definition plain_decimal (s : string) : bool :=
  all_chars (fun c => is_ascii_digit c || Ascii.eqb c ".") s
  && negb (String.eqb (DataValidationMixin.remove_dots s) EmptyString)
  && (String.length s - String.length (DataValidationMixin.remove_dots s) <=? 1)%nat.

Definition env : Env :=
  {| table_scan := table_scan Demo.empty_env;
     table_query := table_query Demo.empty_env;
     batch_get_item := batch_get_item Demo.empty_env;
     table_update_item := table_update_item Demo.empty_env;
     invoke_model := invoke_model Demo.empty_env;
     datetime_now := datetime_now Demo.empty_env;
     bedrock_config := Demo.config;
     json_loads := json_loads Demo.empty_env;
     Decimal_accepts := plain_decimal;
     float_of_Decimal := fun s => Some s;
     set_order := nodup string_dec;
     recursion_limit := 1000;
     build_analysis_prompt := build_analysis_prompt Demo.empty_env;
     analyze_portfolio_bias_prompt := analyze_portfolio_bias_prompt Demo.empty_env |}.

Definition raw : Dict :=
  [("stockId", VStr "ACME"); ("sector", VNone); ("pe", VStr "31.5");
   ("note", VStr EmptyString); ("volume", VInt 1200)].

Definition clean : Dict :=
  [("stockId", VStr "ACME"); ("pe", VDecimal "31.5"); ("volume", VInt 1200)].

End DemoRecords.

Example sanitize_data_run :
  DataValidationMixin.sanitize_data DemoRecords.env DemoRecords.raw
  = Return DemoRecords.clean.
Proof. reflexivity. Qed.

(** A version string passes for a number and is refused by [Decimal]. *)
Example sanitize_data_version_string :
  DataValidationMixin.sanitize_data DemoRecords.env
    [("stockId", VStr "ACME"); ("release", VStr "1.2.3")]
  = Error invalid_operation.
Proof. reflexivity. Qed.

(** Strings of dots alone fail the digit test: [Decimal], which would
    refuse them, is not asked, and they are returned as they are. *)
Example sanitize_data_dots_alone :
  DemoRecords.plain_decimal "." = false /\
  DataValidationMixin.sanitize_data DemoRecords.env
    [("stockId", VStr "ACME"); ("change", VStr "."); ("trend", VStr "...")]
  = Return [("stockId", VStr "ACME"); ("change", VStr "."); ("trend", VStr "...")].
Proof. split; reflexivity. Qed.

Lemma sanitize_data_idempotent_witness :
  DataValidationMixin.sanitize_data DemoRecords.env DemoRecords.clean
  = Return DemoRecords.clean.
Proof.
  apply (sanitize_data_idempotent DemoRecords.env DemoRecords.raw DemoRecords.clean).
  reflexivity.
Defined.

(** ** Conversion of decimals before serialization *)

Section Conversion.
Variable env : Env.

Import StockAnalysisOrchestrator.

(** Neither the value nor anything inside it is a [Decimal]. *)
Inductive decimal_free : pyval -> Prop :=
| free_None : decimal_free VNone
| free_Bool b : decimal_free (VBool b)
| free_Int z : decimal_free (VInt z)
| free_Float r : decimal_free (VFloat r)
| free_Str s : decimal_free (VStr s)
| free_List l : Forall decimal_free l -> decimal_free (VList l)
| free_Dict d : Forall (fun kv => decimal_free (snd kv)) d -> decimal_free (VDict d).

Lemma convert_decimals_free (v : pyval) : decimal_free (convert_decimals env v).
Proof.
  induction v using pyval_nested_ind; cbn [convert_decimals];
    try constructor.
  - destruct (float_of_Decimal env t); constructor.
  - apply Forall_map. exact H.
  - apply Forall_map. eapply Forall_impl; [| exact H]. intros kv Hkv. exact Hkv.
Qed.

Lemma decimal_free_dumps (v : pyval) :
  decimal_free v -> exists s, Json.dumps v = Some s.
Proof.
  unfold Json.dumps.
  induction v using pyval_nested_ind; intro Hfree;
    try (eexists; reflexivity).
  - destruct b; eexists; reflexivity.
  - inversion Hfree.
  - inversion Hfree as [| | | | | l' Hl |]; subst. cbn [Json.dumps_with].
    destruct (join_items_Some (map (Json.dumps_with false) l)) as [s Hs].
    { apply Forall_map. rewrite Forall_forall in *.
      intros x Hin. apply H; auto. }
    rewrite Hs. eexists. reflexivity.
  - inversion Hfree as [| | | | | | d' Hd]; subst. cbn [Json.dumps_with].
    match goal with
    | |- context [Json.join_items ?parts] =>
        destruct (join_items_Some parts) as [s Hs]
    end.
    { apply Forall_map. rewrite Forall_forall in *.
      intros [k x] Hin. destruct (H (k, x) Hin (Hd (k, x) Hin)) as [sx Hx].
      simpl in *. rewrite Hx. eexists. reflexivity. }
    rewrite Hs. eexists. reflexivity.
Qed.

Lemma convert_decimals_fixed (v : pyval) :
  decimal_free v -> convert_decimals env v = v.
Proof.
  induction v using pyval_nested_ind; intro Hfree; try reflexivity.
  - inversion Hfree.
  - inversion Hfree as [| | | | | l' Hl |]; subst. cbn [convert_decimals].
    f_equal. rewrite <- (map_id l) at 2. apply map_ext_in.
    rewrite Forall_forall in *. intros x Hin. apply H; auto.
  - inversion Hfree as [| | | | | | d' Hd]; subst. cbn [convert_decimals].
    f_equal. rewrite <- (map_id d) at 2. apply map_ext_in.
    rewrite Forall_forall in *. intros [k x] Hin. simpl.
    f_equal. apply (H (k, x) Hin (Hd (k, x) Hin)).
Qed.

(** X6.  Whatever the record, [json.dumps] accepts what [convert_decimals]
    returns: no [Decimal] is left at any depth, so the serialization made
    for a prompt cannot fail on one.  Converting again changes nothing. *)
Theorem convert_decimals_serializable :
  forall v : pyval,
    decimal_free (convert_decimals env v) /\
    (exists s, json_dumps false (convert_decimals env v) = Return s) /\
    convert_decimals env (convert_decimals env v) = convert_decimals env v.
Proof.
  intro v. pose proof (convert_decimals_free v) as Hfree.
  split; [exact Hfree |]. split.
  - unfold json_dumps. destruct (decimal_free_dumps _ Hfree) as [s Hs].
    unfold Json.dumps in Hs. rewrite Hs. eexists. reflexivity.
  - apply convert_decimals_fixed. exact Hfree.
Qed.

End Conversion.

(** A sanitized record does not serialize as it is; converted, it does. *)
Example decimals_need_conversion :
  json_dumps false (VDict DemoRecords.clean)
  = Error (type_error "Object of type Decimal is not JSON serializable")
  /\ StockAnalysisOrchestrator.convert_decimals DemoRecords.env (VDict DemoRecords.clean)
     = VDict [("stockId", VStr "ACME"); ("pe", VFloat "31.5"); ("volume", VInt 1200)].
Proof. split; reflexivity. Qed.

(** ** Calls made while a property of the state is kept *)

(** [keeps I P m]: started in a state where [I] holds, [m] only appends
    calls that satisfy [P], and ends in a state where [I] holds again. *)
Definition keeps {A} (I : State -> Prop) (P : call -> Prop) (m : M A) : Prop :=
  forall st, I st ->
    exists new,
      calls (fst (m st)) = calls st ++ new /\ Forall P new /\ I (fst (m st)).

(** [I] looks at the cache only. *)
Definition cache_only (I : State -> Prop) : Prop :=
  forall st st', risk_profile_cache st' = risk_profile_cache st -> I st -> I st'.

Section Keeps.
Variable I : State -> Prop.
Variable P : call -> Prop.
Hypothesis HI : cache_only I.

Lemma keeps_ret {A} (a : A) : keeps I P (ret a).
Proof. intros st H. exists []. simpl. rewrite app_nil_r. auto. Qed.

Lemma keeps_raise {A} (e : exn) : keeps I P (@raise A e).
Proof. intros st H. exists []. simpl. rewrite app_nil_r. auto. Qed.

Lemma keeps_lift {A} (r : result A) : keeps I P (lift r).
Proof. destruct r; [apply keeps_ret | apply keeps_raise]. Qed.

Lemma keeps_external {A} (c : call) (answer : history -> result A) :
  P c -> keeps I P (external c answer).
Proof.
  intros Hc st H. exists [c]. simpl.
  split; [reflexivity |]. split; [auto |].
  eapply HI; [| exact H]. reflexivity.
Qed.

Lemma keeps_sleep (q : Q) : P (Sleep q) -> keeps I P (sleep q).
Proof.
  intros Hc st H. exists [Sleep q]. simpl.
  split; [reflexivity |]. split; [auto |].
  eapply HI; [| exact H]. reflexivity.
Qed.

Lemma keeps_bind {A B} (m : M A) (k : A -> M B) :
  keeps I P m -> (forall a, keeps I P (k a)) -> keeps I P (bind m k).
Proof.
  intros Hm Hk st H. unfold bind.
  destruct (Hm st H) as [new1 [E1 [F1 I1]]].
  destruct (m st) as [st1 o]. simpl in E1, I1.
  destruct o as [a | e |].
  - destruct (Hk a st1 I1) as [new2 [E2 [F2 I2]]].
    exists (new1 ++ new2). rewrite E2, E1, app_assoc.
    split; [reflexivity |]. split; [apply Forall_app; auto | exact I2].
  - exists new1. auto.
  - exists new1. auto.
Qed.

Lemma keeps_try_except {A} (m : M A) (h : exn -> M A) :
  keeps I P m -> (forall e, keeps I P (h e)) -> keeps I P (try_except m h).
Proof.
  intros Hm Hh st H. unfold try_except.
  destruct (Hm st H) as [new1 [E1 [F1 I1]]].
  destruct (m st) as [st1 o]. simpl in E1, I1.
  destruct o as [a | e |].
  - exists new1. auto.
  - destruct (Hh e st1 I1) as [new2 [E2 [F2 I2]]].
    exists (new1 ++ new2). rewrite E2, E1, app_assoc.
    split; [reflexivity |]. split; [apply Forall_app; auto | exact I2].
  - exists new1. auto.
Qed.

End Keeps.

(** The operations that never touch the cache keep any property of it;
    their calls are queries, model requests, clock reads, writes and
    sleeps. *)
Section KeepsSteps.
Variable env : Env.
Variable I : State -> Prop.
Variable P : call -> Prop.
Hypothesis HI : cache_only I.

Import DynamoDBManager BedrockManager RecommendationManager AWSServiceBase.

Lemma get_stock_data_keeps (table_name stock_id : string) :
  P (Query table_name stock_id) ->
  keeps I P (get_stock_data env table_name stock_id).
Proof.
  intro Hq. unfold get_stock_data.
  apply keeps_bind; [apply keeps_external; assumption |].
  intro response. destruct (items_or_empty (query_Items response)).
  - apply keeps_ret.
  - apply keeps_bind; [apply keeps_lift | intro; apply keeps_ret].
Qed.

Hypothesis Hinvoke : forall request model, P (InvokeModel request model).
Hypothesis Hsleep : forall retry_count, P (Sleep (wait_time retry_count)).

Lemma attempt_keeps (self : BedrockManager.t) (prompt model : string) :
  keeps I P (attempt env self prompt model).
Proof.
  unfold attempt.
  apply keeps_bind; [apply keeps_lift | intro body].
  apply keeps_bind; [apply keeps_external; auto | intro response].
  apply keeps_bind; [apply keeps_lift | intro raw]. apply keeps_lift.
Qed.

Lemma inference_loop_keeps (self : BedrockManager.t) (recurse : M pyval)
    (prompt model : string) (remaining : nat) :
  keeps I P recurse ->
  keeps I P (inference_loop env self recurse prompt model remaining).
Proof.
  intro Hrec. induction remaining as [| remaining' IH]; cbn [inference_loop].
  - apply keeps_raise.
  - apply keeps_try_except; [apply attempt_keeps |].
    intros [code m | cls m]; [| apply keeps_raise].
    destruct (is_token_limit _); [exact Hrec |].
    destruct (_ && _); [| apply keeps_raise].
    apply keeps_bind; [apply keeps_sleep; auto | intros _; exact IH].
Qed.

Lemma get_inference_keeps (self : BedrockManager.t) (depth : nat) :
  forall prompt model_id,
    keeps I P (get_inference env self depth prompt model_id).
Proof.
  induction depth as [| depth' IH]; intros prompt model_id.
  - apply keeps_raise.
  - rewrite get_inference_S. apply inference_loop_keeps. apply IH.
Qed.

End KeepsSteps.

(** ** The cached risk profile *)

Section RiskProfileCache.
Variable env : Env.

Import DynamoDBManager.

Definition profile_lookup : call := Scan CONFIG.risk_profile RecommendationManager.limit_one.

(** What one access does, by the cache it finds. *)
Lemma risk_profile_run (st : State) :
  risk_profile env st
  = match risk_profile_cache st with
    | Some profile => (st, Ok (Some profile))
    | None =>
        let st1 := record_call profile_lookup st in
        match table_scan env (calls st) CONFIG.risk_profile
                RecommendationManager.limit_one with
        | Error e => (st1, Raise e)
        | Return response =>
            match items_or_empty (scan_Items response) with
            | item :: _ =>
                ({| calls := calls st1; risk_profile_cache := Some item |},
                 Ok (Some item))
            | [] =>
                ({| calls := calls st1; risk_profile_cache := None |}, Ok None)
            end
        end
    end.
Proof.
  unfold risk_profile. destruct (risk_profile_cache st); [reflexivity |].
  unfold bind, _fetch_risk_profile, scan, external, bind.
  change {| ProjectionExpression := None; Limit := Some 1%Z;
            ConsistentRead := true; ExclusiveStartKey := None |}
    with RecommendationManager.limit_one.
  destruct (table_scan env (calls st) CONFIG.risk_profile
              RecommendationManager.limit_one) as [response | e];
    [| reflexivity].
  cbn [ret]. destruct (items_or_empty (scan_Items response)); reflexivity.
Qed.

(** X7.  A profile that an access has returned is remembered: the same access
    made again, at once or after any number of other calls, returns the same
    profile and reaches no service. *)
Theorem risk_profile_found_is_cached :
  forall (st st1 st2 : State) (profile : Dict),
    risk_profile env st = (st1, Ok (Some profile)) ->
    risk_profile_cache st2 = risk_profile_cache st1 ->
    risk_profile env st2 = (st2, Ok (Some profile)).
Proof.
  intros st st1 st2 profile Hrun Hsame.
  assert (Hcached : risk_profile_cache st1 = Some profile).
  { rewrite risk_profile_run in Hrun.
    destruct (risk_profile_cache st) as [cached |] eqn:Ec.
    - inversion Hrun; subst. exact Ec.
    - cbv zeta in Hrun.
      destruct (table_scan env (calls st) CONFIG.risk_profile
                  RecommendationManager.limit_one) as [response | e];
        [| discriminate].
      destruct (items_or_empty (scan_Items response)); inversion Hrun; subst.
      reflexivity. }
  rewrite risk_profile_run. rewrite Hsame, Hcached. reflexivity.
Qed.

(** X8.  An absent profile and a failed lookup are not remembered: an access
    that returns [None] or raises has just scanned the risk-profile table,
    once, and leaves the cache empty, so the next access scans again. *)
Theorem risk_profile_absent_is_not_cached :
  forall (st st1 : State) (o : outcome (option Dict)),
    risk_profile env st = (st1, o) ->
    o <> Diverge /\
    ((forall profile, o <> Ok (Some profile)) ->
     risk_profile_cache st = None /\
     risk_profile_cache st1 = None /\
     calls st1 = calls st ++ [profile_lookup]).
Proof.
  intros st st1 o Hrun. rewrite risk_profile_run in Hrun.
  destruct (risk_profile_cache st) as [cached |] eqn:Ec.
  - inversion Hrun; subst. split; [discriminate |].
    intro Hno. exfalso. apply (Hno cached). reflexivity.
  - cbv zeta in Hrun.
    destruct (table_scan env (calls st) CONFIG.risk_profile
                RecommendationManager.limit_one) as [response | e].
    + destruct (items_or_empty (scan_Items response)) as [| item rest];
        inversion Hrun; subst; (split; [discriminate |]); intro Hno.
      * repeat split; reflexivity.
      * exfalso. apply (Hno item). reflexivity.
    + inversion Hrun; subst. split; [discriminate |]. intros _.
      split; [reflexivity |]. split; [exact Ec | reflexivity].
Qed.

End RiskProfileCache.

Lemma risk_profile_found_is_cached_witness :
  let found := [("userId", VStr "user-1"); ("riskProfile", VStr "moderate")] in
  let st1 := {| calls := [profile_lookup]; risk_profile_cache := Some found |} in
  let st2 := record_call (Query CONFIG.earnings_table "AAA") st1 in
  DynamoDBManager.risk_profile DemoRun.env st2 = (st2, Ok (Some found)).
Proof.
  apply (risk_profile_found_is_cached DemoRun.env initial_state
           {| calls := [profile_lookup];
              risk_profile_cache :=
                Some [("userId", VStr "user-1"); ("riskProfile", VStr "moderate")] |}).
  - reflexivity.
  - reflexivity.
Defined.

Lemma risk_profile_absent_is_not_cached_witness :
  let st1 := {| calls := [profile_lookup]; risk_profile_cache := None |} in
  Ok None <> @Diverge (option Dict) /\
  ((forall profile, @Ok (option Dict) None <> Ok (Some profile)) ->
   risk_profile_cache initial_state = None /\
   risk_profile_cache st1 = None /\
   calls st1 = calls initial_state ++ [profile_lookup]).
Proof.
  apply (risk_profile_absent_is_not_cached Demo.empty_env initial_state).
  reflexivity.
Defined.

(** ** The write of a recommendation *)

Section RecommendationWrite.
Variable env : Env.

Import DataValidationMixin RecommendationManager.

Definition recommendation_update (stock_id : string) (r c s : pyval) (t : string)
  : UpdateParams :=
  {| Key := [("stockId", VStr stock_id)];
     UpdateExpression :=
       "SET recommendation = :r, confidence_score = :c, reasoning = :s, #ts = :t";
     ExpressionAttributeValues :=
       [(":r", r); (":c", c); (":s", s); (":t", VStr t)];
     ExpressionAttributeNames := [("#ts", VStr "timestamp")] |}.

(** What a call with a validated verdict does, step by step. *)
Lemma store_recommendation_run (table_name stock_id : string)
    (recommendation : pyval) (st : State) :
  validate_required_fields recommendation
    ["recommendation"; "confidence_score"; "reasoning"] = Return true ->
  exists r score s,
    py_getitem recommendation "recommendation" = Return r /\
    py_getitem recommendation "confidence_score" = Return score /\
    py_getitem recommendation "reasoning" = Return s /\
    store_recommendation env table_name stock_id recommendation st
    = match Decimal_of_str env score with
      | Error e => (st, Raise e)
      | Return c =>
          let st1 := record_call Now st in
          let params :=
            recommendation_update stock_id r c s (datetime_now env (calls st)) in
          (record_call (UpdateItem table_name params) st1,
           match table_update_item env (calls st1) table_name params with
           | Return _ => Ok true
           | Error e => Raise e
           end)
      end.
Proof.
  intros Hvalid.
  destruct (validate_true_getitem _ _ Hvalid "recommendation") as [r Hr];
    [simpl; auto |].
  destruct (validate_true_getitem _ _ Hvalid "confidence_score") as [score Hc];
    [simpl; auto |].
  destruct (validate_true_getitem _ _ Hvalid "reasoning") as [s Hs];
    [simpl; auto |].
  exists r, score, s. repeat (split; [assumption |]).
  unfold store_recommendation. rewrite Hvalid, Hr, Hc, Hs.
  cbv beta iota zeta
    delta [negb bind rbind lift ret raise external update_item now_isoformat].
  destruct (Decimal_of_str env score) as [c | e]; [| reflexivity].
  unfold recommendation_update.
  match goal with
  | |- context [table_update_item env ?h ?t ?p] =>
      destruct (table_update_item env h t p)
  end; reflexivity.
Qed.

(** X9.  With a verdict that passes validation, [store_recommendation] either
    stops before any call because [Decimal] refuses the text of the
    confidence score, or reads the clock and makes exactly one
    [update_item] on the given table: keyed by the entity, carrying the
    recommendation, the score as a [Decimal], the reasoning and the
    timestamp just read.  It then returns [True], or raises what the store
    raised. *)
Theorem store_recommendation_valid :
  forall (table_name stock_id : string) (recommendation : pyval) (st : State),
    validate_required_fields recommendation
      ["recommendation"; "confidence_score"; "reasoning"] = Return true ->
    exists r score s,
      py_getitem recommendation "recommendation" = Return r /\
      py_getitem recommendation "confidence_score" = Return score /\
      py_getitem recommendation "reasoning" = Return s /\
      let run := store_recommendation env table_name stock_id recommendation st in
      ((exists e, Decimal_of_str env score = Error e /\ run = (st, Raise e))
       \/
       (exists c,
           Decimal_of_str env score = Return c /\
           let params :=
             recommendation_update stock_id r c s (datetime_now env (calls st)) in
           calls (fst run) = calls st ++ [Now; UpdateItem table_name params] /\
           risk_profile_cache (fst run) = risk_profile_cache st /\
           snd run = match table_update_item env (calls st ++ [Now])
                             table_name params with
                     | Return _ => Ok true
                     | Error e => Raise e
                     end)).
Proof.
  intros table_name stock_id recommendation st Hvalid.
  destruct (store_recommendation_run table_name stock_id recommendation st Hvalid)
    as [r [score [s [Hr [Hc [Hs Hrun]]]]]].
  exists r, score, s. repeat (split; [assumption |]). cbv zeta.
  rewrite Hrun. destruct (Decimal_of_str env score) as [c | e].
  - right. exists c. split; [reflexivity |].
    cbn [fst snd calls record_call risk_profile_cache].
    rewrite <- app_assoc. repeat split; reflexivity.
  - left. exists e. split; reflexivity.
Qed.

End RecommendationWrite.

Lemma store_recommendation_valid_witness :
  exists r score s,
    py_getitem DemoRun.verdict "recommendation" = Return r /\
    py_getitem DemoRun.verdict "confidence_score" = Return score /\
    py_getitem DemoRun.verdict "reasoning" = Return s /\
    let run := RecommendationManager.store_recommendation DemoRun.env
                 CONFIG.recommendations_table "AAA" DemoRun.verdict initial_state in
    ((exists e, RecommendationManager.Decimal_of_str DemoRun.env score = Error e
                /\ run = (initial_state, Raise e))
     \/
     (exists c,
         RecommendationManager.Decimal_of_str DemoRun.env score = Return c /\
         let params :=
           recommendation_update "AAA" r c s
             (datetime_now DemoRun.env (calls initial_state)) in
         calls (fst run)
         = calls initial_state
           ++ [Now; UpdateItem CONFIG.recommendations_table params] /\
         risk_profile_cache (fst run) = risk_profile_cache initial_state /\
         snd run = match table_update_item DemoRun.env (calls initial_state ++ [Now])
                           CONFIG.recommendations_table params with
                   | Return _ => Ok true
                   | Error e => Raise e
                   end)).
Proof.
  apply (store_recommendation_valid DemoRun.env CONFIG.recommendations_table
           "AAA" DemoRun.verdict initial_state).
  reflexivity.
Defined.

(** A verdict with its three fields, whose score is a word: nothing is
    written. *)
Example store_recommendation_score_not_a_number :
  RecommendationManager.store_recommendation DemoRecords.env
    CONFIG.recommendations_table "AAA"
    (VDict [("recommendation", VStr "BUY"); ("confidence_score", VStr "high");
            ("reasoning", VStr "cheap")]) initial_state
  = (initial_state, Raise invalid_operation).
Proof. reflexivity. Qed.

(** ** Which records a step writes *)

(** The table and the key of every upsert of a history, in order. *)
Definition writes (h : history) : list (string * Dict) :=
  flat_map (fun c => match c with
                     | UpdateItem table params => [(table, Key params)]
                     | _ => []
                     end) h.

Definition no_write (c : call) : Prop :=
  match c with
  | UpdateItem _ _ => False
  | _ => True
  end.

Lemma writes_app (h1 h2 : history) : writes (h1 ++ h2) = writes h1 ++ writes h2.
Proof. apply flat_map_app. Qed.

Lemma writes_no_write (new : history) : Forall no_write new -> writes new = [].
Proof.
  induction 1 as [| c rest Hc Hrest IH]; [reflexivity |].
  destruct c; simpl in *; try exact IH. contradiction.
Qed.

Definition always (st : State) : Prop := True.

Lemma always_cache_only : cache_only always.
Proof. intros st st' _ _. exact I. Qed.

(** [silent m]: [m] writes nothing. *)
Definition silent {A} (m : M A) : Prop :=
  forall st, writes (calls (fst (m st))) = writes (calls st).

Lemma keeps_silent {A} (m : M A) : keeps always no_write m -> silent m.
Proof.
  intros Hm st. destruct (Hm st I) as [new [E [F _]]].
  rewrite E, writes_app, (writes_no_write new F), app_nil_r. reflexivity.
Qed.

Section StepWrites.
Variable env : Env.

Import DynamoDBManager BedrockManager RecommendationManager
       StockAnalysisOrchestrator DataValidationMixin.

Lemma risk_profile_keeps_always (P : call -> Prop) :
  P profile_lookup -> keeps always P (risk_profile env).
Proof.
  intros HP st _. rewrite risk_profile_run. unfold always.
  destruct (risk_profile_cache st).
  - exists []. simpl. rewrite app_nil_r. auto.
  - cbv zeta.
    destruct (table_scan env (calls st) CONFIG.risk_profile limit_one)
      as [response | e].
    + destruct (items_or_empty (scan_Items response));
        exists [profile_lookup]; simpl; auto.
    + exists [profile_lookup]. simpl. auto.
Qed.

Lemma gather_keeps_always (P : call -> Prop) (stock_id : string) :
  (forall table, P (Query table stock_id)) -> P profile_lookup ->
  keeps always P (_gather_stock_data env stock_id).
Proof.
  intros Hq Hs. unfold _gather_stock_data.
  apply keeps_bind;
    [apply get_stock_data_keeps; [exact always_cache_only | apply Hq] | intro f].
  apply keeps_bind;
    [apply get_stock_data_keeps; [exact always_cache_only | apply Hq] | intro t].
  apply keeps_bind;
    [apply get_stock_data_keeps; [exact always_cache_only | apply Hq] | intro e].
  destruct (negb _); [apply keeps_ret |].
  apply keeps_bind; [apply risk_profile_keeps_always; exact Hs | intro].
  apply keeps_ret.
Qed.

Lemma gather_silent (stock_id : string) : silent (_gather_stock_data env stock_id).
Proof. apply keeps_silent. apply gather_keeps_always; intros; exact I. Qed.

Lemma get_inference_silent (self : BedrockManager.t) (depth : nat)
    (prompt : string) (model_id : option string) :
  silent (get_inference env self depth prompt model_id).
Proof.
  apply keeps_silent. apply get_inference_keeps;
    [exact always_cache_only | intros; exact I | intros; exact I].
Qed.

(** The data a step works on: the three sources, none of them empty, and
    the risk profile. *)
Definition complete_data (d : Dict) : Prop :=
  exists f t e rp,
    f <> [] /\ t <> [] /\ e <> [] /\
    d = [("fundamentals", VDict f); ("technicals", VDict t);
         ("earnings", VDict e); ("riskprofile", rp)].

Lemma present_Some (d : option Dict) :
  present d = true -> exists x, d = Some x /\ x <> [] /\ opt_dict d = VDict x.
Proof.
  destruct d as [x |]; [| discriminate].
  destruct x; [discriminate |]. intros _. eexists. split; [reflexivity |].
  split; [discriminate | reflexivity].
Qed.

Lemma gather_Some (stock_id : string) (st st1 : State) (d : Dict) :
  _gather_stock_data env stock_id st = (st1, Ok (Some d)) -> complete_data d.
Proof.
  unfold _gather_stock_data. intro H.
  apply bind_Ok_inv in H. destruct H as [f [s1 [_ H]]].
  apply bind_Ok_inv in H. destruct H as [t [s2 [_ H]]].
  apply bind_Ok_inv in H. destruct H as [e [s3 [_ H]]].
  destruct (forallb present [f; t; e]) eqn:Hall; cbn [negb] in H;
    [| inversion H].
  apply bind_Ok_inv in H. destruct H as [rp [s4 [_ H]]].
  inversion H; subst. simpl in Hall.
  apply andb_prop in Hall. destruct Hall as [Hf Hall].
  apply andb_prop in Hall. destruct Hall as [Ht Hall].
  apply andb_prop in Hall. destruct Hall as [He _].
  destruct (present_Some _ Hf) as [xf [_ [Hxf ->]]].
  destruct (present_Some _ Ht) as [xt [_ [Hxt ->]]].
  destruct (present_Some _ He) as [xe [_ [Hxe ->]]].
  exists xf, xt, xe, (opt_dict rp). auto.
Qed.

Definition own_record (stock_id : string) : string * Dict :=
  (CONFIG.recommendations_table, [("stockId", VStr stock_id)]).

(** The two ways a step can end: nothing written, or one record written. *)
Lemma process_stock_paths (stock_id : string) (st : State) :
  let st' := fst (process_stock env stock_id st) in
  writes (calls st') = writes (calls st)
  \/ (writes (calls st') = writes (calls st) ++ [own_record stock_id] /\
      exists st1 d prompt st3 verdict,
        _gather_stock_data env stock_id st = (st1, Ok (Some d)) /\
        complete_data d /\
        build_analysis_prompt env (convert_decimals env (VDict d)) = Return prompt /\
        get_inference env bedrock_manager (recursion_limit env) prompt None st1
        = (st3, Ok verdict) /\
        validate_required_fields verdict
          ["recommendation"; "confidence_score"; "reasoning"] = Return true).
Proof.
  intro st'. subst st'. rewrite process_stock_run. cbn [fst].
  unfold process_stock_body, bind.
  pose proof (gather_silent stock_id st) as Hg.
  destruct (_gather_stock_data env stock_id st) as [st1 [stock_data | e |]] eqn:Eg;
    cbn [fst] in Hg; [| left; exact Hg | left; exact Hg].
  destruct (present stock_data) eqn:Hp; cbn [negb]; [| left; exact Hg].
  destruct stock_data as [d |]; [| discriminate]. cbn [opt_dict].
  destruct (build_analysis_prompt env (convert_decimals env (VDict d)))
    as [prompt | e] eqn:Eprompt; cbn [lift ret raise]; [| left; exact Hg].
  pose proof (get_inference_silent bedrock_manager (recursion_limit env)
                prompt None st1) as Hi.
  destruct (get_inference env bedrock_manager (recursion_limit env) prompt None st1)
    as [st3 [verdict | e |]] eqn:Ei; cbn [fst] in Hi |- *;
    [| left; congruence | left; congruence].
  destruct (validate_required_fields verdict
              ["recommendation"; "confidence_score"; "reasoning"])
    as [valid | e] eqn:Ev.
  - destruct valid.
    + destruct (store_recommendation_run env CONFIG.recommendations_table
                  stock_id verdict st3 Ev) as [r [score [s [_ [_ [_ Hrun]]]]]].
      rewrite Hrun. destruct (Decimal_of_str env score) as [c | e].
      * right. split.
        { cbv zeta.
          match goal with
          | |- context [table_update_item env ?h ?t ?p] =>
              destruct (table_update_item env h t p)
          end; cbn [fst calls record_call ret];
            rewrite !writes_app; cbn [writes flat_map app];
            rewrite app_nil_r, Hi, Hg; reflexivity. }
        exists st1, d, prompt, st3, verdict.
        split; [reflexivity |].
        split; [eapply gather_Some; exact Eg |].
        split; [exact Eprompt |]. split; [exact Ei | exact Ev].
      * left. cbn [fst]. congruence.
    + left. unfold store_recommendation. rewrite Ev.
      cbn [bind lift ret raise negb fst]. unfold bind. cbn. congruence.
  - left. unfold store_recommendation. rewrite Ev.
    unfold bind. cbn. congruence.
Qed.

(** X10.  The step of an entity writes at most one record, and it is the
    recommendation of that entity: no other table, no other key. *)
Theorem process_stock_writes_own_record_only :
  forall (stock_id : string) (st : State),
    let st' := fst (process_stock env stock_id st) in
    exists w,
      writes (calls st') = writes (calls st) ++ w /\
      (w = [] \/ w = [(CONFIG.recommendations_table, [("stockId", VStr stock_id)])]).
Proof.
  intros stock_id st st'. subst st'.
  destruct (process_stock_paths stock_id st) as [H | [H _]].
  - exists []. rewrite app_nil_r. auto.
  - exists [own_record stock_id]. split; [exact H | right; reflexivity].
Qed.

(** X11.  A recommendation is written only for an entity whose three sources
    were all read and none empty, and only after the model has returned,
    for the prompt built from them, a verdict that passes validation. *)
Theorem recommendation_written_only_when_complete :
  forall (stock_id : string) (st : State),
    writes (calls (fst (process_stock env stock_id st))) <> writes (calls st) ->
    exists st1 d prompt st3 verdict,
      _gather_stock_data env stock_id st = (st1, Ok (Some d)) /\
      complete_data d /\
      build_analysis_prompt env (convert_decimals env (VDict d)) = Return prompt /\
      get_inference env bedrock_manager (recursion_limit env) prompt None st1
      = (st3, Ok verdict) /\
      validate_required_fields verdict
        ["recommendation"; "confidence_score"; "reasoning"] = Return true.
Proof.
  intros stock_id st Hw.
  destruct (process_stock_paths stock_id st) as [H | [_ H]];
    [contradiction | exact H].
Qed.

End StepWrites.

Lemma recommendation_written_only_when_complete_witness :
  exists st1 d prompt st3 verdict,
    StockAnalysisOrchestrator._gather_stock_data DemoRun.env "AAA" initial_state
    = (st1, Ok (Some d)) /\
    complete_data d /\
    build_analysis_prompt DemoRun.env
      (StockAnalysisOrchestrator.convert_decimals DemoRun.env (VDict d))
    = Return prompt /\
    BedrockManager.get_inference DemoRun.env
      StockAnalysisOrchestrator.bedrock_manager (recursion_limit DemoRun.env)
      prompt None st1
    = (st3, Ok verdict) /\
    DataValidationMixin.validate_required_fields verdict
      ["recommendation"; "confidence_score"; "reasoning"] = Return true.
Proof.
  apply (recommendation_written_only_when_complete DemoRun.env "AAA" initial_state).
  vm_compute. discriminate.
Defined.

(** ** Which records a run writes *)

(** [subsequence l1 l2]: [l1] is [l2] with some elements left out. *)
Inductive subsequence {A : Type} : list A -> list A -> Prop :=
| subsequence_nil : subsequence [] []
| subsequence_skip (x : A) (l1 l2 : list A) :
    subsequence l1 l2 -> subsequence l1 (x :: l2)
| subsequence_take (x : A) (l1 l2 : list A) :
    subsequence l1 l2 -> subsequence (x :: l1) (x :: l2).

Definition bias_fields : list string :=
  ["bias_score"; "volatility_risk"; "sector_concentration"; "recommendation"].

Definition bias_record (user_id : pyval) : string * Dict :=
  (CONFIG.portfolio_bias, [("userId", user_id)]).

Section RunWrites.
Variable env : Env.

Import DynamoDBManager BedrockManager RecommendationManager
       StockAnalysisOrchestrator DataValidationMixin.

Lemma store_bias_details_refused (table_name : string) (bias : pyval) (st : State) :
  validate_required_fields bias bias_fields <> Return true ->
  store_bias_details env table_name bias st
  = (st, Raise match validate_required_fields bias bias_fields with
               | Error e => e
               | Return _ => invalid_bias
               end).
Proof.
  intro H. unfold store_bias_details. fold bias_fields.
  destruct (validate_required_fields bias bias_fields) as [[|] | e];
    [congruence | reflexivity | reflexivity].
Qed.

(** X12.  A bias analysis that lacks one of its four fields, or is no mapping at
    all, is refused before anything is done: no owner lookup, no clock
    read, no write.  The error is "Invalid bias data", or the one raised
    by the membership test itself. *)
Theorem store_bias_details_invalid_is_refused :
  forall (table_name : string) (bias : pyval) (st : State),
    validate_required_fields bias
      ["bias_score"; "volatility_risk"; "sector_concentration"; "recommendation"]
    <> Return true ->
    store_bias_details env table_name bias st
    = (st, Raise match validate_required_fields bias
                         ["bias_score"; "volatility_risk";
                          "sector_concentration"; "recommendation"] with
                 | Error e => e
                 | Return _ => PyError "ValueError" "Invalid bias data"
                 end).
Proof. exact store_bias_details_refused. Qed.

Lemma store_bias_details_writes (table_name : string) (bias : pyval) (st : State) :
  let st' := fst (store_bias_details env table_name bias st) in
  writes (calls st') = writes (calls st)
  \/ (validate_required_fields bias bias_fields = Return true /\
      exists user_id,
        writes (calls st') = writes (calls st) ++ [(table_name, [("userId", user_id)])]).
Proof.
  intro st'. subst st'.
  destruct (validate_required_fields bias bias_fields) as [[|] | e] eqn:Hv.
  - destruct (store_bias_details_run env table_name bias st Hv)
      as [b [v [s [rc Hrun]]]].
    rewrite Hrun. clear Hrun. cbv zeta.
    destruct (table_scan env (calls st) CONFIG.risk_profile limit_one)
      as [reply | e]; cbn [fst calls record_call].
    + destruct (user_id_of (items_or_empty (scan_Items reply)))
        as [uid | e]; cbn [fst calls record_call].
      * right. split; [reflexivity |]. exists uid.
        rewrite !writes_app. cbn [writes flat_map app Key].
        rewrite !app_nil_r. reflexivity.
      * left. rewrite writes_app. cbn [writes flat_map app].
        rewrite app_nil_r. reflexivity.
    + left. rewrite writes_app. cbn [writes flat_map app].
      rewrite app_nil_r. reflexivity.
  - left. rewrite store_bias_details_refused by congruence. reflexivity.
  - left. rewrite store_bias_details_refused by congruence. reflexivity.
Qed.

Lemma batch_loop_silent (table_name : string) (stock_ids : list string)
    (starts : list nat) :
  forall results,
    keeps always no_write (batch_loop env table_name stock_ids starts results).
Proof.
  induction starts as [| i starts' IH]; intro results; cbn [batch_loop].
  - apply keeps_ret.
  - apply keeps_bind;
      [apply keeps_external; [exact always_cache_only | exact I] | intro response].
    destruct (Responses response); [| apply keeps_raise].
    apply keeps_bind; [apply keeps_lift | intro; apply IH].
Qed.

Lemma batch_get_stock_data_silent (table_name : string) (stock_ids : list string) :
  silent (batch_get_stock_data env table_name stock_ids).
Proof. apply keeps_silent. apply batch_loop_silent. Qed.

Lemma scan_loop_silent (fuel : nat) (table_name : string) :
  forall stock_ids last_evaluated_key,
    keeps always no_write
      (scan_loop env fuel table_name stock_ids last_evaluated_key).
Proof.
  induction fuel as [| fuel' IH]; intros stock_ids last_evaluated_key;
    cbn [scan_loop].
  - intros st _. exists []. simpl. rewrite app_nil_r. unfold always. auto.
  - apply keeps_bind;
      [apply keeps_external; [exact always_cache_only | exact I] | intro response].
    apply keeps_bind; [apply keeps_lift | intro ids].
    destruct (cursor (LastEvaluatedKey response)); [apply IH | apply keeps_ret].
Qed.

Lemma get_stock_ids_silent (fuel : nat) (table_name : string) :
  silent (get_stock_ids env fuel table_name).
Proof.
  apply keeps_silent. unfold get_stock_ids.
  apply keeps_bind; [apply scan_loop_silent | intro; apply keeps_ret].
Qed.

(** The two ways the portfolio analysis can end: nothing written, or one
    bias record written for a verdict of the model that passed
    validation. *)
Lemma process_portfolio_paths (stock_ids : list string) (st : State) :
  let r := process_portfolio env stock_ids st in
  writes (calls (fst r)) = writes (calls st)
  \/ exists user_id st2 prompt st3 verdict,
       writes (calls (fst r)) = writes (calls st) ++ [bias_record user_id] /\
       get_inference env bedrock_manager (recursion_limit env) prompt None st2
       = (st3, Ok verdict) /\
       validate_required_fields verdict bias_fields = Return true /\
       (snd r = Ok verdict
        \/ exists e, snd r = Ok (VDict [("success", VBool false);
                                        ("error", VStr (str_exn e))])).
Proof.
  intro r. subst r.
  unfold process_portfolio, try_except, process_portfolio_body, bind.
  pose proof (batch_get_stock_data_silent CONFIG.fundamentals_table stock_ids st)
    as H1.
  destruct (batch_get_stock_data env CONFIG.fundamentals_table stock_ids st)
    as [st1 [f | e |]]; cbn [fst] in H1; cbn [fst ret];
    [| left; exact H1 | left; exact H1].
  pose proof (batch_get_stock_data_silent CONFIG.technicals_table stock_ids st1)
    as H2.
  destruct (batch_get_stock_data env CONFIG.technicals_table stock_ids st1)
    as [st2 [t | e |]]; cbn [fst] in H2; cbn [fst ret];
    [| left; congruence | left; congruence].
  destruct (analyze_portfolio_bias_prompt env _) as [prompt | e];
    cbn [lift ret raise fst]; [| left; congruence].
  pose proof (get_inference_silent env bedrock_manager (recursion_limit env)
                prompt None st2) as H3.
  destruct (get_inference env bedrock_manager (recursion_limit env) prompt None st2)
    as [st3 [verdict | e |]] eqn:Ei; cbn [fst] in H3; cbn [fst ret];
    [| left; congruence | left; congruence].
  pose proof (store_bias_details_writes CONFIG.portfolio_bias verdict st3) as H4.
  pose proof (store_bias_details_returns env CONFIG.portfolio_bias verdict st3)
    as Hret.
  cbv zeta in H4.
  destruct (store_bias_details env CONFIG.portfolio_bias verdict st3)
    as [st4 [done | e |]]; cbn [fst snd] in H4, Hret; cbn [fst snd ret];
    [| | congruence];
    (destruct H4 as [H4 | [Hvalid [user_id H4]]];
     [left; congruence
     | right; exists user_id, st2, prompt, st3, verdict;
       split; [unfold bias_record; rewrite H4, H3, H2, H1; reflexivity |];
       split; [exact Ei |];
       split; [exact Hvalid |]]).
  - left. reflexivity.
  - right. exists e. reflexivity.
Qed.

(** X13.  The portfolio analysis writes at most one record, to the bias table
    and under a [userId] key, and only for a verdict that the model has
    returned and that has the four bias fields; what it hands back is then
    that verdict, or the error record when the write itself failed. *)
Theorem process_portfolio_writes_one_bias_record :
  forall (stock_ids : list string) (st : State),
    let r := process_portfolio env stock_ids st in
    writes (calls (fst r)) = writes (calls st)
    \/ exists user_id st2 prompt st3 verdict,
         writes (calls (fst r))
         = writes (calls st) ++ [(CONFIG.portfolio_bias, [("userId", user_id)])] /\
         get_inference env bedrock_manager (recursion_limit env) prompt None st2
         = (st3, Ok verdict) /\
         validate_required_fields verdict
           ["bias_score"; "volatility_risk"; "sector_concentration";
            "recommendation"] = Return true /\
         (snd r = Ok verdict
          \/ exists e, snd r = Ok (VDict [("success", VBool false);
                                          ("error", VStr (str_exn e))])).
Proof. exact process_portfolio_paths. Qed.

Lemma state_after_writes (stock_ids : list string) :
  forall st,
    exists done,
      writes (calls (state_after env stock_ids st))
      = writes (calls st) ++ map own_record done /\
      subsequence done stock_ids.
Proof.
  induction stock_ids as [| stock_id rest IH]; intro st; cbn [state_after].
  - exists []. rewrite app_nil_r. split; [reflexivity | constructor].
  - destruct (IH (record_call (Sleep CONFIG.api_delay)
                    (fst (process_stock_body env stock_id st))))
      as [done [Hw Hsub]].
    rewrite Hw. cbn [calls record_call]. rewrite writes_app.
    cbn [writes flat_map app]. rewrite app_nil_r.
    pose proof (process_stock_paths env stock_id st) as Hstep.
    cbv zeta in Hstep. rewrite process_stock_run in Hstep. cbn [fst] in Hstep.
    destruct Hstep as [Hstep | [Hstep _]]; rewrite Hstep.
    + exists done. split; [reflexivity | constructor; exact Hsub].
    + exists (stock_id :: done). rewrite <- app_assoc.
      split; [reflexivity | constructor; exact Hsub].
Qed.

Lemma lambda_handler_paths (fuel : nat) (st : State) :
  let listed := get_stock_ids env fuel CONFIG.stock_ids_table (reset st) in
  exists bias done,
    writes (calls (fst (lambda_handler env fuel st)))
    = writes (calls st) ++ bias ++ map own_record done /\
    (bias = [] \/ exists user_id, bias = [bias_record user_id]) /\
    match snd listed with
    | Ok stock_ids => subsequence done stock_ids
    | _ => bias = [] /\ done = []
    end.
Proof.
  intro listed. subst listed.
  pose proof (get_stock_ids_silent fuel CONFIG.stock_ids_table (reset st)) as Hl.
  change (calls (reset st)) with (calls st) in Hl.
  destruct (get_stock_ids env fuel CONFIG.stock_ids_table (reset st))
    as [st1 [stock_ids | e |]] eqn:Hlist; cbn [fst snd] in *.
  - destruct (lambda_handler_listed env fuel st st1 stock_ids Hlist)
      as [analysis [st2 [body [Hpf [_ Hrun]]]]].
    rewrite Hrun. cbn [fst].
    destruct (state_after_writes stock_ids st2) as [done [Hw Hsub]].
    pose proof (process_portfolio_paths stock_ids st1) as Hp.
    cbv zeta in Hp. rewrite Hpf in Hp. cbn [fst snd] in Hp.
    destruct Hp as [Hp | [user_id [st2' [prompt [st3 [verdict [Hp _]]]]]]].
    + exists [], done. rewrite Hw, Hp, Hl. auto.
    + exists [bias_record user_id], done. rewrite Hw, Hp, Hl, <- app_assoc.
      split; [reflexivity |]. split; [right; exists user_id; reflexivity | exact Hsub].
  - destruct (lambda_handler_not_listed env fuel st st1 e Hlist) as [body [_ Hrun]].
    rewrite Hrun. cbn [fst]. exists [], []. rewrite Hl, app_nil_r. auto.
  - exists [], []. rewrite app_nil_r.
    unfold lambda_handler, try_except, lambda_handler_body.
    unfold bind at 1.
    cbn [StockAnalysisOrchestrator.__init__ DynamoDBManager.set_risk_profile].
    fold (reset st). unfold bind at 1. rewrite Hlist. cbn [fst]. auto.
Qed.

(** X14.  What a whole run writes, whatever the services answer: at most one
    bias record, then at most one recommendation for each listed entity,
    in the order of the listing, each under the [stockId] of its entity,
    and nothing else.  A run whose listing failed writes nothing. *)
Theorem lambda_handler_writes :
  forall (fuel : nat) (st : State),
    let listed := get_stock_ids env fuel CONFIG.stock_ids_table (reset st) in
    exists bias done,
      writes (calls (fst (lambda_handler env fuel st)))
      = writes (calls st) ++ bias
        ++ map (fun stock_id =>
                  (CONFIG.recommendations_table, [("stockId", VStr stock_id)]))
             done /\
      (bias = []
       \/ exists user_id, bias = [(CONFIG.portfolio_bias, [("userId", user_id)])]) /\
      match snd listed with
      | Ok stock_ids => subsequence done stock_ids
      | _ => bias = [] /\ done = []
      end.
Proof. exact lambda_handler_paths. Qed.

End RunWrites.

(** On the run of the four entities the bias record is written first, then
    the recommendations of the two entities that went through. *)
Example demo_run_writes :
  writes (calls (fst (lambda_handler DemoRun.env 3 initial_state)))
  = [bias_record (VStr "user-1"); own_record "AAA"; own_record "CCC"].
Proof. vm_compute. reflexivity. Qed.

(** ** A profile once cached *)

Definition no_scan (c : call) : Prop :=
  match c with
  | Scan _ _ => False
  | _ => True
  end.

Definition cached (profile : Dict) (st : State) : Prop :=
  risk_profile_cache st = Some profile.

Lemma cached_cache_only (profile : Dict) : cache_only (cached profile).
Proof. intros st st' E H. unfold cached in *. congruence. Qed.

Section KeepsWrites.
Variable env : Env.
Variable I : State -> Prop.
Variable P : call -> Prop.
Hypothesis HI : cache_only I.
Hypothesis Hnow : P Now.
Hypothesis Hupdate : forall table params, P (UpdateItem table params).

Import RecommendationManager.

Lemma store_recommendation_keeps (table_name stock_id : string)
    (recommendation : pyval) :
  keeps I P (store_recommendation env table_name stock_id recommendation).
Proof.
  unfold store_recommendation, now_isoformat, update_item.
  apply keeps_bind; [apply keeps_lift | intro valid].
  destruct (negb valid); [apply keeps_raise |].
  apply keeps_bind; [apply keeps_lift | intro r].
  apply keeps_bind; [apply keeps_lift | intro c].
  apply keeps_bind; [apply keeps_lift | intro s].
  apply keeps_bind; [apply keeps_external; auto | intro t].
  apply keeps_bind; [apply keeps_external; auto | intro; apply keeps_ret].
Qed.

End KeepsWrites.

Section CachedProfile.
Variable env : Env.
Variable profile : Dict.

Import DynamoDBManager BedrockManager RecommendationManager
       StockAnalysisOrchestrator.

Lemma risk_profile_cached : keeps (cached profile) no_scan (risk_profile env).
Proof.
  intros st H. unfold risk_profile. unfold cached in H. rewrite H.
  exists []. cbn [fst]. rewrite app_nil_r. auto.
Qed.

Lemma process_stock_cached (stock_id : string) :
  keeps (cached profile) no_scan (process_stock env stock_id).
Proof.
  pose proof (cached_cache_only profile) as HI.
  unfold process_stock. apply keeps_try_except; [| intro; apply keeps_ret].
  unfold process_stock_body.
  apply keeps_bind.
  { unfold _gather_stock_data.
    apply keeps_bind; [apply get_stock_data_keeps; [exact HI | exact I] | intro f].
    apply keeps_bind; [apply get_stock_data_keeps; [exact HI | exact I] | intro t].
    apply keeps_bind; [apply get_stock_data_keeps; [exact HI | exact I] | intro e].
    destruct (negb _); [apply keeps_ret |].
    apply keeps_bind; [exact risk_profile_cached | intro; apply keeps_ret]. }
  intro stock_data. destruct (negb (present stock_data)); [apply keeps_ret |].
  apply keeps_bind; [apply keeps_lift | intro prompt].
  apply keeps_bind;
    [apply get_inference_keeps; [exact HI | intros; exact I | intros; exact I]
    | intro recommendation].
  apply keeps_bind;
    [apply store_recommendation_keeps; [exact HI | exact I | intros; exact I]
    | intro; apply keeps_ret].
Qed.

Lemma stock_loop_cached (stock_ids : list string) :
  forall acc, keeps (cached profile) no_scan (stock_loop env stock_ids acc).
Proof.
  pose proof (cached_cache_only profile) as HI.
  induction stock_ids as [| stock_id rest IH]; intro acc; cbn [stock_loop].
  - apply keeps_ret.
  - apply keeps_bind; [apply process_stock_cached | intro result].
    apply keeps_bind; [apply keeps_lift | intro success].
    apply keeps_bind; [apply keeps_sleep; [exact HI | exact I] | intro; apply IH].
Qed.

Lemma no_scan_lookups (new : history) :
  Forall no_scan new -> risk_profile_lookups new = 0.
Proof.
  unfold risk_profile_lookups.
  induction 1 as [| c rest Hc Hrest IH]; [reflexivity |].
  destruct c; cbn [filter is_risk_profile_scan]; try exact IH. contradiction.
Qed.

Lemma stock_loop_cached_run (stock_ids : list string) (acc : Tally) (st : State) :
  risk_profile_cache st = Some profile ->
  let st' := fst (stock_loop env stock_ids acc st) in
  risk_profile_cache st' = Some profile /\
  exists new,
    calls st' = calls st ++ new /\
    Forall no_scan new /\
    risk_profile_lookups (calls st') = risk_profile_lookups (calls st).
Proof.
  intros Hc st'. subst st'.
  destruct (stock_loop_cached stock_ids acc st Hc) as [new [E [F Hc']]].
  split; [exact Hc' |]. exists new. split; [exact E |]. split; [exact F |].
  rewrite E. unfold risk_profile_lookups. rewrite filter_app, length_app.
  fold (risk_profile_lookups new). rewrite (no_scan_lookups new F). lia.
Qed.

(** X15.  Once a risk profile is cached, the loop over the entities never reads
    the profile table again: it makes no scan of any table, whatever
    happens to the entities, and the cached profile is still there at the
    end. *)
Theorem cached_profile_is_reused :
  forall (stock_ids : list string) (acc : Tally) (st : State),
    risk_profile_cache st = Some profile ->
    let st' := fst (stock_loop env stock_ids acc st) in
    risk_profile_cache st' = Some profile /\
    exists new,
      calls st' = calls st ++ new /\
      Forall (fun c => match c with Scan _ _ => False | _ => True end) new /\
      risk_profile_lookups (calls st') = risk_profile_lookups (calls st).
Proof. exact stock_loop_cached_run. Qed.

End CachedProfile.

Lemma cached_profile_is_reused_witness :
  let found := [("userId", VStr "user-1"); ("riskProfile", VStr "moderate")] in
  let acc := {| results := []; successful_count := 0; error_count := 0 |} in
  let st := {| calls := [profile_lookup]; risk_profile_cache := Some found |} in
  let st' := fst (stock_loop DemoRun.env ["AAA"; "BBB"] acc st) in
  risk_profile_cache st' = Some found /\
  exists new,
    calls st' = calls st ++ new /\
    Forall (fun c => match c with Scan _ _ => False | _ => True end) new /\
    risk_profile_lookups (calls st') = risk_profile_lookups (calls st).
Proof.
  apply (cached_profile_is_reused DemoRun.env
           [("userId", VStr "user-1"); ("riskProfile", VStr "moderate")]
           ["AAA"; "BBB"]
           {| results := []; successful_count := 0; error_count := 0 |}
           {| calls := [profile_lookup];
              risk_profile_cache :=
                Some [("userId", VStr "user-1"); ("riskProfile", VStr "moderate")] |}).
  reflexivity.
Defined.

(** ** The batches of a portfolio read *)

(** The slices [stock_ids[i:i + BATCH_SIZE]] of the loop of
    [batch_get_stock_data], in order. *)
Definition batches (stock_ids : list string) : list (list string) :=
  map (fun i => firstn DynamoDBManager.BATCH_SIZE (skipn i stock_ids))
    (DynamoDBManager.batch_starts (List.length stock_ids)).

Section Slices.
Variable A : Type.
Variable size : nat.
Hypothesis size_pos : 0 < size.

Lemma firstn_add (a b : nat) (l : list A) :
  firstn (a + b) l = firstn a l ++ firstn b (skipn a l).
Proof.
  revert l. induction a as [| a' IH]; intro l; [reflexivity |].
  destruct l as [| x l']; cbn [Nat.add firstn skipn app].
  - destruct b; reflexivity.
  - rewrite IH. reflexivity.
Qed.

Lemma concat_slices (l : list A) (m : nat) :
  forall s,
    List.concat (map (fun i => firstn size (skipn i l))
                   (map (fun k => k * size) (seq s m)))
    = firstn (m * size) (skipn (s * size) l).
Proof.
  induction m as [| m' IH]; intro s; [reflexivity |].
  cbn [seq map List.concat]. rewrite IH.
  replace (S m' * size) with (size + m' * size) by lia.
  rewrite firstn_add, skipn_skipn.
  replace (size + s * size) with (S s * size) by lia. reflexivity.
Qed.

Lemma slices_cover (n : nat) : n <= (n + size - 1) / size * size.
Proof.
  pose proof (Nat.div_mod_eq (n + size - 1) size) as E.
  pose proof (Nat.mod_upper_bound (n + size - 1) size) as Hr. nia.
Qed.

Lemma slice_starts_inside (n k : nat) :
  k < (n + size - 1) / size -> k * size < n.
Proof.
  intro Hk.
  pose proof (Nat.div_mod_eq (n + size - 1) size) as E.
  pose proof (Nat.mod_upper_bound (n + size - 1) size) as Hr. nia.
Qed.

Lemma slices_partition (l : list A) :
  let slices := map (fun i => firstn size (skipn i l))
                  (map (fun k => k * size)
                     (seq 0 ((List.length l + size - 1) / size))) in
  List.concat slices = l /\
  Forall (fun slice => 1 <= List.length slice <= size) slices.
Proof.
  cbv zeta. split.
  - rewrite concat_slices. cbn [Nat.mul skipn].
    apply firstn_all2. apply slices_cover.
  - apply Forall_forall. intros slice Hin.
    apply in_map_iff in Hin. destruct Hin as [i [<- Hin]].
    apply in_map_iff in Hin. destruct Hin as [k [<- Hin]].
    apply in_seq in Hin.
    assert (Hk : k * size < List.length l)
      by (apply slice_starts_inside; lia).
    rewrite length_firstn, length_skipn. lia.
Qed.

End Slices.

Section Batches.
Variable env : Env.

Import DynamoDBManager.

Lemma batch_loop_calls (table_name : string) (stock_ids : list string)
    (starts : list nat) :
  forall results st,
    let r := batch_loop env table_name stock_ids starts results st in
    let slices := map (fun i => firstn BATCH_SIZE (skipn i stock_ids)) starts in
    exists k,
      calls (fst r) = calls st ++ map (BatchGetItem table_name) (firstn k slices) /\
      (forall out, snd r = Ok out -> k = List.length slices).
Proof.
  induction starts as [| i starts' IH]; intros results st r slices;
    subst r slices.
  - exists 0. cbn [batch_loop ret fst snd map firstn List.length].
    rewrite app_nil_r. auto.
  - cbn [batch_loop map]. unfold bind, external. cbv beta iota.
    set (batch := firstn BATCH_SIZE (skipn i stock_ids)).
    destruct (batch_get_item env (calls st) table_name batch) as [response | e];
      cbv beta iota.
    + destruct (Responses response) as [by_table |]; cbv beta iota.
      * destruct (store_items env _ results) as [results' | e];
          cbn [lift ret raise]; cbv beta iota.
        -- specialize (IH results' (record_call (BatchGetItem table_name batch) st)).
           cbv zeta in IH. destruct IH as [k [Hc Hk]].
           exists (S k). cbn [firstn map List.length]. rewrite Hc.
           cbn [calls record_call]. rewrite <- app_assoc.
           split; [reflexivity |]. intros out Hout. f_equal. eapply Hk. exact Hout.
        -- exists 1. cbn [fst snd firstn map calls record_call].
           split; [reflexivity | discriminate].
      * exists 1. cbn [raise fst snd firstn map calls record_call].
        split; [reflexivity | discriminate].
    + exists 1. cbn [fst snd firstn map calls record_call].
      split; [reflexivity | discriminate].
Qed.

Lemma batch_get_stock_data_run (table_name : string) (stock_ids : list string)
    (st : State) :
  let r := batch_get_stock_data env table_name stock_ids st in
  List.concat (batches stock_ids) = stock_ids /\
  Forall (fun batch => 1 <= List.length batch <= 100) (batches stock_ids) /\
  exists k,
    calls (fst r)
    = calls st ++ map (BatchGetItem table_name) (firstn k (batches stock_ids)) /\
    (forall results, snd r = Ok results -> k = List.length (batches stock_ids)).
Proof.
  cbv zeta.
  assert (Hpos : 0 < BATCH_SIZE) by (unfold BATCH_SIZE; lia).
  destruct (slices_partition string BATCH_SIZE Hpos stock_ids) as [Hcat Hlen].
  split; [exact Hcat |]. split; [exact Hlen |].
  apply batch_loop_calls.
Qed.

(** X16.  The identifiers are read in batches that are consecutive slices of the
    list: put end to end the batches give the list back, none is empty and
    none holds more than 100 keys.  One request is made per batch, in
    order and with nothing else in between; the requests stop at the first
    batch that fails, and a read that returns has requested every
    batch. *)
Theorem batch_get_stock_data_batches :
  forall (table_name : string) (stock_ids : list string) (st : State),
    let r := batch_get_stock_data env table_name stock_ids st in
    List.concat (batches stock_ids) = stock_ids /\
    Forall (fun batch => 1 <= List.length batch <= 100) (batches stock_ids) /\
    exists k,
      calls (fst r)
      = calls st ++ map (BatchGetItem table_name) (firstn k (batches stock_ids)) /\
      (forall results, snd r = Ok results -> k = List.length (batches stock_ids)).
Proof. exact batch_get_stock_data_run. Qed.

End Batches.

(** 250 identifiers are read in three batches, of 100, 100 and 50 keys. *)
Example batches_of_250 :
  map (@List.length string) (batches (repeat "AAA" 250)) = [100; 100; 50].
Proof. vm_compute. reflexivity. Qed.

(** ** What chunking keeps *)

Lemma dict_set_fresh (k : string) (v : pyval) (d : Dict) :
  ~ In k (map fst d) -> dict_set k v d = d ++ [(k, v)].
Proof.
  induction d as [| [k' v'] d' IH]; intro H; [reflexivity |].
  cbn [dict_set app]. cbn [map fst In] in H.
  destruct (String.eqb k k') eqn:E.
  - apply String.eqb_eq in E. subst. exfalso. apply H. left. reflexivity.
  - rewrite IH; [reflexivity | tauto].
Qed.

Section ChunkOrder.
Variable env : Env.
Variable self : BedrockManager.t.

Import BedrockManager.

Lemma chunk_loop_concat (items : Dict) :
  forall chunks current_chunk current_size,
    Forall (fun kv => fits self (snd kv)) items ->
    NoDup (map fst (current_chunk ++ items)) ->
    (current_chunk = [] -> current_size = 0) ->
    Forall (fun chunk => chunk <> []) chunks ->
    exists out,
      chunk_loop env self items chunks current_chunk current_size = Return out /\
      List.concat out = List.concat chunks ++ current_chunk ++ items /\
      Forall (fun chunk => chunk <> []) out.
Proof.
  induction items as [| [key value] rest IH];
    intros chunks current_chunk current_size Hfit Hkeys Hempty Hchunks.
  - cbn [chunk_loop]. eexists. split; [reflexivity |].
    rewrite app_nil_r.
    destruct current_chunk as [| kv cur]; cbn [dict_truthy].
    + rewrite app_nil_r. split; [reflexivity | exact Hchunks].
    + rewrite concat_app. cbn [List.concat]. rewrite app_nil_r.
      split; [reflexivity |].
      apply Forall_app. split; [exact Hchunks |].
      constructor; [discriminate | constructor].
  - inversion Hfit as [| ? ? [s [Hs Hlen]] Hrest]; subst. cbn [snd] in Hs.
    cbn [chunk_loop]. unfold json_dumps.
    unfold Json.dumps in Hs. rewrite Hs. cbn [rbind].
    replace (CHUNK_SIZE self <? String.length s)%nat with false
      by (symmetry; apply Nat.ltb_ge; exact Hlen).
    cbn [rbind fst snd].
    rewrite map_app in Hkeys. cbn [map fst] in Hkeys.
    destruct (CHUNK_SIZE self <? current_size + String.length s)%nat eqn:Hflush.
    + apply Nat.ltb_lt in Hflush.
      assert (Hcur : current_chunk <> []).
      { intro E. specialize (Hempty E). lia. }
      destruct (IH (chunks ++ [current_chunk]) (dict_set key value [])
                  (0 + String.length s)) as [out [Hrun [Hcat Hne]]].
      * exact Hrest.
      * cbn [dict_set app map fst].
        apply NoDup_app_remove_l in Hkeys. exact Hkeys.
      * cbn [dict_set]. discriminate.
      * apply Forall_app. split; [exact Hchunks |].
        constructor; [exact Hcur | constructor].
      * exists out. split; [exact Hrun |]. split; [| exact Hne].
        rewrite Hcat, concat_app. cbn [List.concat dict_set app].
        rewrite app_nil_r, <- app_assoc. reflexivity.
    + assert (Hfresh : ~ In key (map fst current_chunk)).
      { intro Hin. apply NoDup_remove_2 in Hkeys. apply Hkeys.
        apply in_or_app. left. exact Hin. }
      rewrite (dict_set_fresh key value current_chunk Hfresh).
      destruct (IH chunks (current_chunk ++ [(key, value)])
                  (current_size + String.length s)) as [out [Hrun [Hcat Hne]]].
      * exact Hrest.
      * rewrite <- app_assoc. cbn [app]. rewrite map_app. exact Hkeys.
      * intro E. apply app_eq_nil in E. destruct E as [_ E]. discriminate.
      * exact Hchunks.
      * exists out. split; [exact Hrun |]. split; [| exact Hne].
        rewrite Hcat, <- app_assoc. reflexivity.
Qed.

Lemma chunk_data_concat (data : Dict) :
  NoDup (map fst data) ->
  (forall k v, In (k, v) data -> fits self v) ->
  exists chunks,
    chunk_data env self data = Return chunks /\
    List.concat chunks = data /\
    Forall (fun chunk => chunk <> []) chunks.
Proof.
  intros Hkeys Hfit. unfold chunk_data.
  destruct (chunk_loop_concat data [] [] 0) as [out [Hrun [Hcat Hne]]].
  - apply Forall_forall. intros [k v] Hin. cbn [snd]. eapply Hfit. exact Hin.
  - exact Hkeys.
  - reflexivity.
  - constructor.
  - exists out. split; [exact Hrun |]. split; [exact Hcat | exact Hne].
Qed.

(** X17.  Chunking loses nothing and keeps the order: for a mapping none of
    whose values serializes to more than the limit, the chunks put end to
    end are the entries of the mapping, each once and in their order, and
    no chunk is empty. *)
Theorem chunk_data_keeps_every_entry :
  forall data : Dict,
    NoDup (map fst data) ->
    (forall k v, In (k, v) data -> fits self v) ->
    exists chunks,
      chunk_data env self data = Return chunks /\
      List.concat chunks = data /\
      Forall (fun chunk => chunk <> []) chunks.
Proof. exact chunk_data_concat. Qed.

End ChunkOrder.

Lemma chunk_data_keeps_every_entry_witness :
  exists chunks,
    BedrockManager.chunk_data Demo.empty_env BedrockManager.__init__
      [("pe", VInt 31); ("name", VStr "ACME")] = Return chunks /\
    List.concat chunks = [("pe", VInt 31); ("name", VStr "ACME")] /\
    Forall (fun chunk => chunk <> []) chunks.
Proof.
  apply (chunk_data_keeps_every_entry Demo.empty_env BedrockManager.__init__
           [("pe", VInt 31); ("name", VStr "ACME")]).
  - repeat constructor; simpl; intuition discriminate.
  - intros k v [H | [H | []]]; inversion H; subst; eexists;
      (split; [reflexivity | simpl; lia]).
Defined.

(** Three values of 1000 characters each go into three chunks. *)
Example chunk_data_three_chunks :
  let big := VStr (Demo.repeat_char "x" 998) in
  BedrockManager.chunk_data Demo.empty_env BedrockManager.__init__
    [("a", big); ("b", big); ("c", big)]
  = Return [[("a", big)]; [("b", big)]; [("c", big)]].
Proof. vm_compute. reflexivity. Qed.

(** ** The retry loop of [get_inference] *)

Definition py_error (e : exn) : Prop :=
  match e with
  | PyError _ _ => True
  | ClientError _ _ => False
  end.

Lemma rbind_py_error {A B} (r : result A) (k : A -> result B) :
  (forall e, r = Error e -> py_error e) ->
  (forall a e, k a = Error e -> py_error e) ->
  forall e, rbind r k = Error e -> py_error e.
Proof.
  intros Hr Hk e. destruct r as [a | e']; cbn [rbind].
  - apply Hk.
  - intro H. apply Hr. inversion H. reflexivity.
Qed.

Lemma py_getitem_py_error (data : pyval) (k : string) :
  forall e, py_getitem data k = Error e -> py_error e.
Proof.
  intros e H. destruct data; cbn [py_getitem] in H;
    try (inversion H; exact I).
  destruct (dict_get k d); inversion H. exact I.
Qed.

Lemma py_getitem0_py_error (data : pyval) :
  forall e, py_getitem0 data = Error e -> py_error e.
Proof.
  intros e H. destruct data as [| | | | | s | l | d]; cbn [py_getitem0] in H;
    try (inversion H; exact I).
  - destruct s; inversion H. exact I.
  - destruct l; inversion H. exact I.
Qed.

Lemma loads_py_error (env : Env) (s : string) :
  forall e, loads env s = Error e -> py_error e.
Proof.
  intros e H. unfold loads in H. destruct (json_loads env s); inversion H.
  exact I.
Qed.

Section InferenceShape.
Variable env : Env.
Variable self : BedrockManager.t.

Import BedrockManager AWSServiceBase.

Lemma attempt_records (prompt model : string) (st : State) :
  fst (attempt env self prompt model st)
  = record_call (InvokeModel (request_text env self prompt) model) st.
Proof.
  unfold attempt. rewrite request_serializes.
  unfold bind, external. cbn [lift ret]. cbv beta iota.
  destruct (invoke_model env (calls st) (request_text env self prompt) model)
    as [response | e]; [| reflexivity].
  destruct (reply_body response) as [raw |]; cbn [lift ret raise];
    cbv beta iota; [| reflexivity].
  match goal with |- context [lift ?r] => destruct r end; reflexivity.
Qed.

(** A client error raised by an attempt is the endpoint's: the parsing of
    the answer raises errors of Python's own only. *)
Lemma attempt_client_error (prompt model : string) (st : State)
    (code msg : string) :
  snd (attempt env self prompt model st) = Raise (ClientError code msg) ->
  invoke_model env (calls st) (request_text env self prompt) model
  = Error (ClientError code msg).
Proof.
  unfold attempt. rewrite request_serializes.
  unfold bind, external. cbn [lift ret]. cbv beta iota.
  destruct (invoke_model env (calls st) (request_text env self prompt) model)
    as [response | e]; cbv beta iota; cbn [snd].
  - destruct (reply_body response) as [raw |]; cbn [lift ret raise];
      cbv beta iota; cbn [snd]; [| discriminate].
    match goal with |- context [lift ?r] => destruct r as [v | e] eqn:E end;
      cbn [lift ret raise snd]; [discriminate |].
    intro H. inversion H; subst. exfalso.
    revert E.
    repeat (apply rbind_py_error;
            [first [apply loads_py_error | apply py_getitem_py_error
                   | apply py_getitem0_py_error] | intro]).
    intros e' H'.
    match type of H' with
    | match ?t with _ => _ end = _ => destruct t
    end; try (inversion H'; exact I).
    eapply loads_py_error. exact H'.
  - intro H. inversion H. reflexivity.
Qed.

Hypothesis no_token_limit :
  forall h request model e,
    invoke_model env h request model = Error e -> is_token_limit e = false.

Lemma inference_loop_is_wrapper_loop (recurse : M pyval) (prompt model : string)
    (remaining : nat) :
  forall st,
    inference_loop env self recurse prompt model remaining st
    = wrapper_loop retryable_bedrock_errors (attempt env self prompt model)
        remaining st.
Proof.
  induction remaining as [| remaining' IH]; intro st; [reflexivity |].
  cbn [inference_loop wrapper_loop]. unfold try_except.
  destruct (attempt env self prompt model st) as [st1 [v | e |]] eqn:Ea;
    [reflexivity | | reflexivity].
  destruct e as [code msg | cls msg]; [| reflexivity].
  assert (Hsnd : snd (attempt env self prompt model st)
                 = Raise (ClientError code msg)) by (rewrite Ea; reflexivity).
  apply attempt_client_error in Hsnd. apply no_token_limit in Hsnd.
  rewrite Hsnd.
  destruct (mem_str code retryable_bedrock_errors && _); [| reflexivity].
  unfold bind, sleep. cbv beta iota. apply IH.
Qed.

Lemma get_inference_as_wrapper (depth : nat) (prompt : string)
    (model_id : option string) (st : State) :
  get_inference env self (S depth) prompt model_id st
  = retry_with_backoff (Some retryable_bedrock_errors)
      (attempt env self prompt (or_default env model_id)) st.
Proof.
  rewrite get_inference_S. unfold retry_with_backoff.
  apply inference_loop_is_wrapper_loop.
Qed.

(** X18.  Against an endpoint that never reports the token limit,
    [get_inference] is the loop of [retry_with_backoff] around one
    request: the loop written out in its body and the decorator of the
    base class do the same thing, for the manager's own list of retryable
    errors. *)
Theorem get_inference_is_retry_with_backoff :
  forall (depth : nat) (prompt : string) (model_id : option string) (st : State),
    get_inference env self (S depth) prompt model_id st
    = retry_with_backoff (Some retryable_bedrock_errors)
        (attempt env self prompt (or_default env model_id)) st.
Proof. exact get_inference_as_wrapper. Qed.

(** X19.  Against such an endpoint a call makes at most four requests, all of
    them the same: the prompt is never changed.  Either one attempt ends
    the call with its own outcome: it is the first that returns a parsed
    verdict, or fails with something else than a retryable client error
    (an answer that cannot be parsed is not retried), and one sleep was
    made after each earlier attempt.  Or all four fail with retryable
    errors, each is followed by its sleep, and the outcome is
    "Max retries (4) exceeded". *)
Theorem get_inference_shape :
  forall (depth : nat) (prompt : string) (model_id : option string) (st : State),
    let model := or_default env model_id in
    let c := InvokeModel (request_text env self prompt) model in
    let r := get_inference env self (S depth) prompt model_id st in
    let tried := fun k =>
      snd (attempt env self prompt model
             (with_calls st (calls st ++ failed_attempts c k 0))) in
    (exists k,
        k < 4 /\
        (forall j, j < k -> retried retryable_bedrock_errors (tried j)) /\
        ~ retried retryable_bedrock_errors (tried k) /\
        calls (fst r) = calls st ++ failed_attempts c k 0 ++ [c] /\
        snd r = tried k)
    \/ ((forall j, j < 4 -> retried retryable_bedrock_errors (tried j)) /\
        calls (fst r) = calls st ++ failed_attempts c 4 0 /\
        snd r = Raise (PyError "Exception" "Max retries (4) exceeded")).
Proof.
  intros depth prompt model_id st model c r tried. subst model c r tried.
  rewrite get_inference_as_wrapper. unfold retry_with_backoff.
  exact (wrapper_loop_shape _ (attempt env self prompt (or_default env model_id))
           _ MAX_RETRIES (attempt_records prompt (or_default env model_id))
           st (le_n _)).
Qed.

End InferenceShape.

Lemma get_inference_is_retry_with_backoff_witness :
  BedrockManager.get_inference DemoRun.env BedrockManager.__init__ 1
    "Analyze AAA" None initial_state
  = AWSServiceBase.retry_with_backoff
      (Some BedrockManager.retryable_bedrock_errors)
      (BedrockManager.attempt DemoRun.env BedrockManager.__init__ "Analyze AAA"
         (BedrockManager.or_default DemoRun.env None))
      initial_state.
Proof.
  apply (get_inference_is_retry_with_backoff DemoRun.env BedrockManager.__init__).
  intros h request model e H. cbn [invoke_model DemoRun.env] in H.
  unfold DemoRun.endpoint in H.
  destruct (str_contains "BBB" request); inversion H; reflexivity.
Defined.

Lemma get_inference_shape_witness :
  let model := BedrockManager.or_default Demo.empty_env None in
  let c := InvokeModel (request_text Demo.empty_env BedrockManager.__init__ "Analyze")
             model in
  let r := BedrockManager.get_inference Demo.empty_env BedrockManager.__init__ 1
             "Analyze" None initial_state in
  let tried := fun k =>
    snd (BedrockManager.attempt Demo.empty_env BedrockManager.__init__ "Analyze" model
           (with_calls initial_state
              (calls initial_state ++ failed_attempts c k 0))) in
  (exists k,
      k < 4 /\
      (forall j, j < k -> retried BedrockManager.retryable_bedrock_errors (tried j)) /\
      ~ retried BedrockManager.retryable_bedrock_errors (tried k) /\
      calls (fst r) = calls initial_state ++ failed_attempts c k 0 ++ [c] /\
      snd r = tried k)
  \/ ((forall j, j < 4 -> retried BedrockManager.retryable_bedrock_errors (tried j)) /\
      calls (fst r) = calls initial_state ++ failed_attempts c 4 0 /\
      snd r = Raise (PyError "Exception" "Max retries (4) exceeded")).
Proof.
  apply (get_inference_shape Demo.empty_env BedrockManager.__init__).
  intros h request model e H. cbn [invoke_model Demo.empty_env] in H.
  inversion H. reflexivity.
Defined.

(** A throttled endpoint that recovers at the third request: two sleeps,
    then the verdict. *)
Module DemoThrottle.

Definition endpoint : history -> string -> string -> result InvokeReply :=
  fun h _ _ =>
    if (List.length h <? 4)%nat
    then Error (ClientError "ThrottlingException" "Rate exceeded")
    else Return {| reply_body := Some "REPLY" |}.

Definition env : Env :=
  {| table_scan := table_scan DemoRun.env;
     table_query := table_query DemoRun.env;
     batch_get_item := batch_get_item DemoRun.env;
     table_update_item := table_update_item DemoRun.env;
     invoke_model := endpoint;
     datetime_now := datetime_now DemoRun.env;
     bedrock_config := Demo.config;
     json_loads := DemoRun.parse;
     Decimal_accepts := Decimal_accepts DemoRun.env;
     float_of_Decimal := float_of_Decimal DemoRun.env;
     set_order := nodup string_dec;
     recursion_limit := 1000;
     build_analysis_prompt := build_analysis_prompt DemoRun.env;
     analyze_portfolio_bias_prompt := analyze_portfolio_bias_prompt DemoRun.env |}.

End DemoThrottle.

Example get_inference_recovers :
  let sent := InvokeModel
                (request_text DemoThrottle.env BedrockManager.__init__ "Analyze")
                "amazon.nova-micro-v1:0" in
  BedrockManager.get_inference DemoThrottle.env BedrockManager.__init__ 1
    "Analyze" None initial_state
  = ({| calls := [sent; Sleep (3 # 2)%Q; sent; Sleep (3 # 1)%Q; sent];
        risk_profile_cache := None |},
     Ok DemoRun.verdict).
Proof. vm_compute. reflexivity. Qed.

(** ** What a truncation keeps *)

Lemma substring_prefix (k : nat) (s : string) :
  exists rest, s = (substring 0 k s ++ rest)%string.
Proof.
  revert s. induction k as [| k' IH]; intro s.
  - exists s. destruct s; reflexivity.
  - destruct s as [| c s'].
    + exists EmptyString. reflexivity.
    + destruct (IH s') as [rest Hrest]. exists rest.
      cbn [substring String.append]. rewrite <- Hrest. reflexivity.
Qed.

(** X20.  The prompt sent again after a token-limit error is the beginning of
    the prompt that was refused, and it is strictly shorter unless that
    one was already empty. *)
Theorem truncate_prompt_is_a_shorter_prefix :
  forall prompt : string,
    (exists rest,
        prompt = (BedrockManager.truncate_prompt prompt ++ rest)%string) /\
    (String.length (BedrockManager.truncate_prompt prompt) < String.length prompt
     \/ prompt = EmptyString).
Proof.
  intro prompt. split.
  - unfold BedrockManager.truncate_prompt. apply substring_prefix.
  - destruct prompt as [| c s]; [right; reflexivity | left].
    apply truncate_prompt_shorter. discriminate.
Qed.

(** ** The pause between two entities *)

(** A sleep of [CONFIG['api_delay']] seconds. *)
Definition is_pause (c : call) : bool :=
  match c with
  | Sleep seconds => Qeq_bool seconds CONFIG.api_delay
  | _ => false
  end.

Definition pauses (h : history) : nat := List.length (filter is_pause h).

Lemma pauses_app (h1 h2 : history) : pauses (h1 ++ h2) = pauses h1 + pauses h2.
Proof. unfold pauses. rewrite filter_app, length_app. reflexivity. Qed.

Lemma pauses_none (new : history) :
  Forall (fun c => is_pause c = false) new -> pauses new = 0.
Proof.
  unfold pauses. induction 1 as [| c rest Hc Hrest IH]; [reflexivity |].
  cbn [filter]. rewrite Hc. exact IH.
Qed.

(** No backoff lasts as long as the pause: the shortest is 1.5 s. *)
Lemma wait_time_is_no_pause (retry_count : nat) :
  is_pause (Sleep (AWSServiceBase.wait_time retry_count)) = false.
Proof.
  cbn [is_pause]. apply not_true_is_false. intro H.
  apply Qeq_bool_iff in H. unfold AWSServiceBase.wait_time in H.
  rewrite Qred_correct in H.
  unfold Qeq, Qmult, inject_Z, AWSServiceBase.BASE_DELAY, CONFIG.api_delay in H.
  cbn [Qnum Qden] in H.
  assert (Hpow : (0 < 2 ^ Z.of_nat retry_count)%Z)
    by (apply Z.pow_pos_nonneg; lia).
  lia.
Qed.

Section Pauses.
Variable env : Env.

Import DynamoDBManager BedrockManager RecommendationManager
       StockAnalysisOrchestrator.

Lemma process_stock_no_pause (stock_id : string) (st : State) :
  pauses (calls (fst (process_stock env stock_id st))) = pauses (calls st).
Proof.
  pose proof always_cache_only as HI.
  assert (Hk : keeps always (fun c => is_pause c = false)
                 (process_stock env stock_id)).
  { unfold process_stock. apply keeps_try_except; [| intro; apply keeps_ret].
    unfold process_stock_body.
    apply keeps_bind;
      [apply gather_keeps_always; intros; reflexivity | intro stock_data].
    destruct (negb (present stock_data)); [apply keeps_ret |].
    apply keeps_bind; [apply keeps_lift | intro prompt].
    apply keeps_bind;
      [apply get_inference_keeps;
       [exact HI | intros; reflexivity | exact wait_time_is_no_pause]
      | intro recommendation].
    apply keeps_bind;
      [apply store_recommendation_keeps;
       [exact HI | reflexivity | intros; reflexivity]
      | intro; apply keeps_ret]. }
  destruct (Hk st I) as [new [E [F _]]].
  rewrite E, pauses_app, (pauses_none new F). lia.
Qed.

Lemma state_after_pauses (stock_ids : list string) :
  forall st,
    pauses (calls (state_after env stock_ids st))
    = pauses (calls st) + List.length stock_ids.
Proof.
  induction stock_ids as [| stock_id rest IH]; intro st;
    cbn [state_after List.length]; [lia |].
  rewrite IH. cbn [calls record_call]. rewrite pauses_app.
  pose proof (process_stock_no_pause stock_id st) as Hstep.
  rewrite process_stock_run in Hstep. cbn [fst] in Hstep. rewrite Hstep.
  change (pauses [Sleep CONFIG.api_delay]) with 1. lia.
Qed.

(** X21.  The loop over the entities pauses once per entity, also after the last
    one and after one that failed or was skipped; the sleeps of the retry
    loop are not pauses, the shortest of them lasts 1.5 s. *)
Theorem one_pause_per_entity :
  forall (stock_ids : list string) (acc : Tally) (st : State),
    pauses (calls (fst (stock_loop env stock_ids acc st)))
    = pauses (calls st) + List.length stock_ids.
Proof.
  intros stock_ids acc st. rewrite stock_loop_run. cbn [fst].
  apply state_after_pauses.
Qed.

End Pauses.

Lemma store_bias_details_invalid_is_refused_witness :
  RecommendationManager.store_bias_details Demo.empty_env CONFIG.portfolio_bias
    (VDict [("bias_score", VInt 7); ("volatility_risk", VStr "high")])
    initial_state
  = (initial_state, Raise (PyError "ValueError" "Invalid bias data")).
Proof.
  refine (store_bias_details_invalid_is_refused Demo.empty_env
            CONFIG.portfolio_bias
            (VDict [("bias_score", VInt 7); ("volatility_risk", VStr "high")])
            initial_state _).
  discriminate.
Defined.
